(** * MAC access-filter reconciliation of the Huawei mesh router client

    A shallow embedding of the filter operations of
    [custom_components/huawei_mesh_router/client/huaweiapi.py]
    ([HuaweiApi.apply_wlan_filter], [_set_wlan_filter_enabled],
    [set_wlan_filter_mode], [_get_filter_states], [_process_access_lists]
    and its inner [get_access_list_item]), followed by the properties of
    the reconciliation engine. *)

From stdpp Require Import base numbers list strings gmap.

Local Open Scope string_scope.
Local Open Scope list_scope.
Set Warnings "-register-all,-notation-for-abbreviation".
Set Default Proof Using "Type".

(** ** Python values

    The payloads are decoded JSON: [None], booleans, integers, strings,
    lists and dictionaries.  A dictionary keeps its insertion order, so it
    is an association list whose first binding of a key is the one [get]
    sees.  JSON floats do not occur in the filter payloads and are left
    out. *)

Inductive value : Type :=
| VNone
| VBool (b : bool)
| VInt (n : Z)
| VStr (s : string)
| VList (l : list value)
| VDict (d : list (string * value)).

Notation dict := (list (string * value)).

(** [d.get(key)]: the bound value, [None] when the key is absent. *)
Fixpoint dict_get (d : dict) (key : string) : value :=
  match d with
  | [] => VNone
  | (k, v) :: rest => if String.eqb k key then v else dict_get rest key
  end.

(** Python's [==] on decoded values.  [bool] is a subclass of [int], so
    [True == 1]; dictionaries compare by key, not by position. *)
Fixpoint py_eq (a b : value) : bool :=
  match a, b with
  | VNone, VNone => true
  | VBool x, VBool y => Bool.eqb x y
  | VBool x, VInt y => Z.eqb (Z.b2z x) y
  | VInt x, VBool y => Z.eqb x (Z.b2z y)
  | VInt x, VInt y => Z.eqb x y
  | VStr x, VStr y => String.eqb x y
  | VList xs, VList ys =>
      (fix go (xs ys : list value) : bool :=
         match xs, ys with
         | [], [] => true
         | x :: xs', y :: ys' => py_eq x y && go xs' ys'
         | _, _ => false
         end) xs ys
  | VDict d1, VDict d2 =>
      Nat.eqb (length d1) (length d2) &&
      (fix go (d : dict) : bool :=
         match d with
         | [] => true
         | (k, v) :: d' =>
             match List.find (fun kv => String.eqb (fst kv) k) d2 with
             | Some (_, w) => py_eq v w && go d'
             | None => false
             end
         end) d1
  | _, _ => false
  end.

(** [isinstance(v, bool) and v] *)
Definition is_bool_true (v : value) : bool :=
  match v with
  | VBool b => b
  | _ => false
  end.

(** ** Data model *)

(** An access-list entry is a dictionary; the reconciler reads its
    ["MACAddress"] and writes ["MACAddress"] and ["HostName"]. *)
Notation Entry := (list (string * value)).

(** Truth value of a dictionary: empty is false. *)
Definition dict_truthy (d : dict) : bool :=
  match d with
  | [] => false
  | _ :: _ => true
  end.

(** One band record of the filter endpoint.  Each field is what
    [state.get(<field name>)] returns: [VNone], or [None] for the two
    lists, when the key is absent or null. *)
Module State.
Record t : Type := mk {
  FrequencyBand : value;
  MACAddressControlEnabled : value;
  WMACAddresses : option (list Entry);
  BMACAddresses : option (list Entry);
  ID : value;
  MacFilterPolicy : value
}.
End State.

(** One half of the combined write command. *)
Module Config.
Record t : Type := mk {
  MACAddressControlEnabled : value;
  WMacFilters : option (list Entry);
  ID : value;
  MacFilterPolicy : value;
  BMacFilters : option (list Entry);
  FrequencyBand : value
}.
End Config.

Record Command : Type := mkCommand {
  config2g : Config.t;
  config5g : Config.t
}.

(** The two enumerations of [classes.py]. *)
Inductive FilterMode : Type := WHITELIST | BLACKLIST.
Inductive FilterAction : Type := ADD | REMOVE.

(** Python does not enforce annotations: an argument annotated with an
    enumeration is an object that compares equal to one member
    ([Member]), or an object that compares unequal to every member
    ([Outside], with a label for the object). *)
Inductive arg (E : Type) : Type :=
| Member (e : E)
| Outside (label : string).
Arguments Member {E} e.
Arguments Outside {E} label.

(** Modelled from the spec: the class [HuaweiClientDevice] of [classes.py]
    is not part of the sources at hand.  The spec's DeviceRecord is a MAC
    address together with the friendly/reported name; the code reads them
    as [device.mac_address] and [device.actual_name]. *)
Record HuaweiClientDevice : Type := mkDevice {
  mac_address : string;
  actual_name : value
}.

(** ** Failures, the transport collaborator and its trace *)

Inductive exn : Type :=
| UnsupportedActionError (message : string)
| InvalidActionError (message : string)
| ApiCallError (category : string).

Inductive event : Type :=
| EvGet (url : string)
| EvPost (url : string) (command : Command).

(** What the router answers during one operation: the decoded body of a
    GET on the filter endpoint and on the host-info endpoint, or the
    failure the transport raises, and the failure of a POST if any. *)
Record HuaweiCoreApi : Type := mkApi {
  wlanfilter_reply : exn + list State.t;
  hostinfo_reply : exn + list HuaweiClientDevice;
  post_reply : option exn
}.

Definition _URL_HOST_INFO : string := "api/system/HostInfo".
Definition _URL_WLAN_FILTER : string := "api/ntwk/wlanfilterenhance".

(** A computation extends the trace of transport calls and either
    returns or raises. *)
Definition M (A : Type) : Type := list event -> (exn + A) * list event.

Definition ret {A} (a : A) : M A := fun tr => (inr a, tr).
Definition raise {A} (e : exn) : M A := fun tr => (inl e, tr).
Definition bind {A B} (m : M A) (k : A -> M B) : M B :=
  fun tr =>
    match m tr with
    | (inr a, tr') => k a tr'
    | (inl e, tr') => (inl e, tr')
    end.

Notation "x <- m ;; k" := (bind m (fun x => k))
  (at level 100, m at next level, right associativity).

(** [await self._core_api.get(url)] on the two endpoints the filter
    operations read, and [await self._core_api.post(url, command)]. *)
Definition core_get_wlan_filter (api : HuaweiCoreApi) : M (list State.t) :=
  fun tr => (wlanfilter_reply api, tr ++ [EvGet _URL_WLAN_FILTER]).

Definition core_get_host_info (api : HuaweiCoreApi) : M (list HuaweiClientDevice) :=
  fun tr => (hostinfo_reply api, tr ++ [EvGet _URL_HOST_INFO]).

Definition core_post (api : HuaweiCoreApi) (url : string) (command : Command) : M unit :=
  fun tr =>
    (match post_reply api with
     | Some e => inl e
     | None => inr tt
     end, tr ++ [EvPost url command]).

(** Run an operation from the empty trace. *)
Definition run {A} (m : M A) : (exn + A) * list event := m [].

(** The POSTs of a trace. *)
Definition posts (tr : list event) : list (string * Command) :=
  omap (fun ev => match ev with
                  | EvPost url c => Some (url, c)
                  | EvGet _ => None
                  end) tr.

(** The number of GETs on the host-info endpoint in a trace. *)
Definition host_info_gets (tr : list event) : nat :=
  length (List.filter (fun ev => match ev with
                                 | EvGet url => String.eqb url _URL_HOST_INFO
                                 | EvPost _ _ => false
                                 end) tr).

(** ** The operations of [HuaweiApi] *)

(** [get_known_devices]: one GET on the host-info endpoint. *)
Definition get_known_devices (api : HuaweiCoreApi) : M (list HuaweiClientDevice) :=
  core_get_host_info api.

(** The loop of [_get_filter_states]: a later record of a band replaces
    an earlier one, records with another label are skipped. *)
Definition split_states (actual_states : list State.t)
  : option State.t * option State.t :=
  fold_left
    (fun acc state =>
       let frequency := State.FrequencyBand state in
       if py_eq frequency (VStr "2.4GHz") then (Some state, snd acc)
       else if py_eq frequency (VStr "5GHz") then (fst acc, Some state)
       else acc)
    actual_states (None, None).

Definition _get_filter_states (api : HuaweiCoreApi)
  : M (option State.t * option State.t) :=
  actual_states <- core_get_wlan_filter api ;;
  ret (split_states actual_states).

(** [if device_name:] holds for a name that is neither [None] nor empty. *)
Definition name_truthy (device_name : option string) : bool :=
  match device_name with
  | Some "" => false
  | Some _ => true
  | None => false
  end.

Definition make_item (device_mac : string) (host_name : value) : Entry :=
  [("MACAddress", VStr device_mac); ("HostName", host_name)].

(** The inner [get_access_list_item] of [_process_access_lists]: the
    supplied name when it is truthy; else the name of the first known
    device with that MAC; else a label built from the MAC. *)
Definition get_access_list_item (api : HuaweiCoreApi)
    (device_mac : string) (device_name : option string) : M Entry :=
  let resolve : M Entry :=
    known_devices <- get_known_devices api ;;
    match List.find (fun device => String.eqb (mac_address device) device_mac)
                    known_devices with
    | Some device => ret (make_item device_mac (actual_name device))
    | None => ret (make_item device_mac
                     (VStr (String.append "Unknown device " device_mac)))
    end in
  match device_name with
  | Some name =>
      if name_truthy device_name then ret (make_item device_mac (VStr name))
      else resolve
  | None => resolve
  end.

(** The two search loops: the first index, counted from [index], whose
    entry has [device_mac == entry.get("MACAddress")]; the loop breaks
    there. *)
Fixpoint find_index (device_mac : string) (l : list Entry) (index : nat)
  : option nat :=
  match l with
  | [] => None
  | entry :: rest =>
      if py_eq (VStr device_mac) (dict_get entry "MACAddress") then Some index
      else find_index device_mac rest (S index)
  end.

(** [l.pop(i)] for an index in range: the element and the shortened list. *)
Definition list_pop {A} (i : nat) (l : list A) : option A * list A :=
  (l !! i, delete i l).

(** [item_to_add or await get_access_list_item()] *)
Definition item_or (item_to_add : option Entry) (fallback : M Entry) : M Entry :=
  match item_to_add with
  | Some item => if dict_truthy item then ret item else fallback
  | None => fallback
  end.

Notation triple := (option bool * option (list Entry) * option (list Entry))%type.

Definition _process_access_lists (api : HuaweiCoreApi) (state : State.t)
    (filter_mode : arg FilterMode) (filter_action : arg FilterAction)
    (device_mac : string) (device_name : option string) : M triple :=
  match State.WMACAddresses state with
  | None => ret (None, None, None)
  | Some whitelist =>
  match State.BMACAddresses state with
  | None => ret (None, None, None)
  | Some blacklist =>
    let whitelist_index := find_index device_mac whitelist 0 in
    let blacklist_index := find_index device_mac blacklist 0 in
    match filter_action with
    | Member REMOVE =>
        match filter_mode with
        | Member BLACKLIST =>
            match blacklist_index with
            | None => ret (Some false, Some whitelist, Some blacklist)
            | Some i => ret (Some true, Some whitelist, Some (delete i blacklist))
            end
        | Member WHITELIST =>
            match whitelist_index with
            | None => ret (Some false, Some whitelist, Some blacklist)
            | Some i => ret (Some true, Some (delete i whitelist), Some blacklist)
            end
        | Outside label =>
            raise (InvalidActionError (String.append "Unknown FilterMode: " label))
        end
    | Member ADD =>
        match filter_mode with
        | Member BLACKLIST =>
            let popped :=
              match whitelist_index with
              | Some i => list_pop i whitelist
              | None => (None, whitelist)
              end in
            let item_to_add := fst popped in
            let whitelist := snd popped in
            match blacklist_index with
            | Some _ => ret (Some false, Some whitelist, Some blacklist)
            | None =>
                item <- item_or item_to_add
                          (get_access_list_item api device_mac device_name) ;;
                ret (Some true, Some whitelist, Some (blacklist ++ [item]))
            end
        | Member WHITELIST =>
            let popped :=
              match blacklist_index with
              | Some i => list_pop i blacklist
              | None => (None, blacklist)
              end in
            let item_to_add := fst popped in
            let blacklist := snd popped in
            match whitelist_index with
            | Some _ => ret (Some false, Some whitelist, Some blacklist)
            | None =>
                item <- item_or item_to_add
                          (get_access_list_item api device_mac device_name) ;;
                ret (Some true, Some (whitelist ++ [item]), Some blacklist)
            end
        | Outside label =>
            raise (InvalidActionError (String.append "Unknown FilterMode: " label))
        end
    | Outside label =>
        raise (InvalidActionError (String.append "Unknown FilterAction: " label))
    end
  end
  end.

(** The inner [verify_state] of [apply_wlan_filter]. *)
Definition verify_state (target_state : State.t) : bool :=
  is_bool_true (State.MACAddressControlEnabled target_state).

(** [x is None or y is None or z is None] on a returned triple. *)
Definition any_none (r : triple) : bool :=
  match r with
  | (Some _, Some _, Some _) => false
  | _ => true
  end.

(** [not x] for the [need_action] of a triple that passed [any_none]. *)
Definition need_action (r : triple) : bool :=
  match r with
  | (Some b, _, _) => b
  | _ => false
  end.

Definition apply_wlan_filter (api : HuaweiCoreApi)
    (filter_mode : arg FilterMode) (filter_action : arg FilterAction)
    (device_mac : string) (device_name : option string) : M bool :=
  states <- _get_filter_states api ;;
  match states with
  | (None, _) => ret false
  | (Some _, None) => ret false
  | (Some state_2g, Some state_5g) =>
      if negb (verify_state state_2g) || negb (verify_state state_5g) then ret false
      else
        r2g <- _process_access_lists api state_2g filter_mode filter_action
                 device_mac device_name ;;
        if any_none r2g then ret false
        else
          r5g <- _process_access_lists api state_5g filter_mode filter_action
                   device_mac device_name ;;
          if any_none r5g then ret false
          else if negb (need_action r2g) && negb (need_action r5g) then ret true
          else
            let command := {|
              config2g := {|
                Config.MACAddressControlEnabled := VBool true;
                Config.WMacFilters := snd (fst r2g);
                Config.ID := State.ID state_2g;
                Config.MacFilterPolicy := State.MacFilterPolicy state_2g;
                Config.BMacFilters := snd r2g;
                Config.FrequencyBand := State.FrequencyBand state_2g |};
              config5g := {|
                Config.MACAddressControlEnabled := VBool true;
                Config.WMacFilters := snd (fst r5g);
                Config.ID := State.ID state_5g;
                Config.MacFilterPolicy := State.MacFilterPolicy state_5g;
                Config.BMacFilters := snd r5g;
                Config.FrequencyBand := State.FrequencyBand state_5g |} |} in
            _ <- core_post api _URL_WLAN_FILTER command ;;
            ret true
  end.

Definition _set_wlan_filter_enabled (api : HuaweiCoreApi) (value : bool) : M bool :=
  states <- _get_filter_states api ;;
  match states with
  | (None, _) => ret false
  | (Some _, None) => ret false
  | (Some state_2g, Some state_5g) =>
      let current_value_2g := is_bool_true (State.MACAddressControlEnabled state_2g) in
      let current_value_5g := is_bool_true (State.MACAddressControlEnabled state_5g) in
      let current_state := current_value_2g && current_value_5g in
      if Bool.eqb current_state value then ret true
      else
        let command := {|
          config2g := {|
            Config.MACAddressControlEnabled := VBool value;
            Config.WMacFilters := State.WMACAddresses state_2g;
            Config.ID := State.ID state_2g;
            Config.MacFilterPolicy := State.MacFilterPolicy state_2g;
            Config.BMacFilters := State.BMACAddresses state_2g;
            Config.FrequencyBand := State.FrequencyBand state_2g |};
          config5g := {|
            Config.MACAddressControlEnabled := VBool value;
            Config.WMacFilters := State.WMACAddresses state_5g;
            Config.ID := State.ID state_5g;
            Config.MacFilterPolicy := State.MacFilterPolicy state_5g;
            Config.BMacFilters := State.BMACAddresses state_5g;
            Config.FrequencyBand := State.FrequencyBand state_5g |} |} in
        _ <- core_post api _URL_WLAN_FILTER command ;;
        ret true
  end.

Section FilterModeValue.

(** [value.value]: the values of the [FilterMode] members are declared
    in [classes.py], which is not at hand; they are a parameter. *)
Variable FilterMode_value : FilterMode -> value.

Definition set_wlan_filter_mode (api : HuaweiCoreApi) (value : FilterMode) : M bool :=
  states <- _get_filter_states api ;;
  match states with
  | (None, _) => ret false
  | (Some _, None) => ret false
  | (Some state_2g, Some state_5g) =>
      let current_state := State.MacFilterPolicy state_5g in
      if py_eq current_state (FilterMode_value value) then ret true
      else
        let command := {|
          config2g := {|
            Config.MACAddressControlEnabled := State.MACAddressControlEnabled state_2g;
            Config.WMacFilters := State.WMACAddresses state_2g;
            Config.ID := State.ID state_2g;
            Config.MacFilterPolicy := FilterMode_value value;
            Config.BMacFilters := State.BMACAddresses state_2g;
            Config.FrequencyBand := State.FrequencyBand state_2g |};
          config5g := {|
            Config.MACAddressControlEnabled := State.MACAddressControlEnabled state_5g;
            Config.WMacFilters := State.WMACAddresses state_5g;
            Config.ID := State.ID state_5g;
            Config.MacFilterPolicy := FilterMode_value value;
            Config.BMacFilters := State.BMACAddresses state_5g;
            Config.FrequencyBand := State.FrequencyBand state_5g |} |} in
        _ <- core_post api _URL_WLAN_FILTER command ;;
        ret true
  end.

End FilterModeValue.

(** ** The reconciler as the specification words it

    These definitions follow the truth table of the specification and do
    not mention indices: a device is in a list when some entry carries
    exactly its MAC, removal drops the first such entry, and a move
    carries the first such entry over. *)

Definition has_mac (device_mac : string) (entry : Entry) : bool :=
  match dict_get entry "MACAddress" with
  | VStr s => String.eqb s device_mac
  | _ => false
  end.

Definition mac_in (device_mac : string) (l : list Entry) : bool :=
  existsb (has_mac device_mac) l.

Definition first_entry (device_mac : string) (l : list Entry) : option Entry :=
  List.find (has_mac device_mac) l.

Fixpoint remove_mac (device_mac : string) (l : list Entry) : list Entry :=
  match l with
  | [] => []
  | entry :: rest =>
      if has_mac device_mac entry then rest
      else entry :: remove_mac device_mac rest
  end.

(** The number of entries of a list that carry a MAC. *)
Definition mac_count (device_mac : string) (l : list Entry) : nat :=
  length (List.filter (has_mac device_mac) l).

(** The list a mode names, the other one, and the returned triple put
    back in whitelist, blacklist order. *)
Definition target_list (mode : FilterMode) (whitelist blacklist : list Entry)
  : list Entry :=
  match mode with WHITELIST => whitelist | BLACKLIST => blacklist end.

Definition other_list (mode : FilterMode) (whitelist blacklist : list Entry)
  : list Entry :=
  match mode with WHITELIST => blacklist | BLACKLIST => whitelist end.

Definition answer (mode : FilterMode) (need : bool) (target other : list Entry)
  : triple :=
  match mode with
  | WHITELIST => (Some need, Some target, Some other)
  | BLACKLIST => (Some need, Some other, Some target)
  end.

Definition truth_table (api : HuaweiCoreApi) (whitelist blacklist : list Entry)
    (mode : FilterMode) (action : FilterAction)
    (device_mac : string) (device_name : option string) : M triple :=
  let target := target_list mode whitelist blacklist in
  let other := other_list mode whitelist blacklist in
  match action with
  | REMOVE =>
      ret (answer mode (mac_in device_mac target) (remove_mac device_mac target) other)
  | ADD =>
      if mac_in device_mac target
      then ret (answer mode false target (remove_mac device_mac other))
      else
        match first_entry device_mac other with
        | Some moved =>
            ret (answer mode true (target ++ [moved]) (remove_mac device_mac other))
        | None =>
            item <- get_access_list_item api device_mac device_name ;;
            ret (answer mode true (target ++ [item]) other)
        end
  end.

(** The new entry as the specification words it, with nothing taken from
    the code: the name a caller supplied is the argument unless it is
    absent or empty; the resolved name is the reported name of the first
    known device that has the MAC; the entry binds "MACAddress" to the
    MAC and "HostName" to the supplied name, else, after one read of the
    known devices, to the resolved name, else to the label "Unknown
    device " followed by the MAC. *)
Definition supplied_name (device_name : option string) : option string :=
  match device_name with
  | Some EmptyString => None
  | Some name => Some name
  | None => None
  end.

Fixpoint reported_name (device_mac : string)
    (known_devices : list HuaweiClientDevice) : option value :=
  match known_devices with
  | [] => None
  | device :: rest =>
      if String.eqb (mac_address device) device_mac
      then Some (actual_name device)
      else reported_name device_mac rest
  end.

Definition new_entry (api : HuaweiCoreApi)
    (device_mac : string) (device_name : option string) : M Entry :=
  fun tr =>
    match supplied_name device_name with
    | Some name =>
        (inr [("MACAddress", VStr device_mac); ("HostName", VStr name)], tr)
    | None =>
        (match hostinfo_reply api with
         | inl e => inl e
         | inr known_devices =>
             inr [("MACAddress", VStr device_mac);
                  ("HostName",
                   match reported_name device_mac known_devices with
                   | Some name => name
                   | None => VStr (String.append "Unknown device " device_mac)
                   end)]
         end, tr ++ [EvGet _URL_HOST_INFO])
    end.

(** The truth table with that new entry. *)
Definition reconciled (api : HuaweiCoreApi) (whitelist blacklist : list Entry)
    (mode : FilterMode) (action : FilterAction)
    (device_mac : string) (device_name : option string) : M triple :=
  fun tr =>
    let target := target_list mode whitelist blacklist in
    let other := other_list mode whitelist blacklist in
    match action with
    | REMOVE =>
        (inr (answer mode (mac_in device_mac target)
                (remove_mac device_mac target) other), tr)
    | ADD =>
        if mac_in device_mac target
        then (inr (answer mode false target (remove_mac device_mac other)), tr)
        else
          match first_entry device_mac other with
          | Some moved =>
              (inr (answer mode true (target ++ [moved])
                      (remove_mac device_mac other)), tr)
          | None =>
              match new_entry api device_mac device_name tr with
              | (inr item, tr') =>
                  (inr (answer mode true (target ++ [item]) other), tr')
              | (inl e, tr') => (inl e, tr')
              end
          end
    end.

(** Whether a call of the reconciler has to make a new entry without a
    supplied name: both lists are there, the mode and the action are
    members, the action is ADD and no entry of either list carries the
    MAC. *)
Definition looks_up (state : State.t)
    (filter_mode : arg FilterMode) (filter_action : arg FilterAction)
    (device_mac : string) (device_name : option string) : bool :=
  match State.WMACAddresses state, State.BMACAddresses state,
        filter_mode, filter_action, supplied_name device_name with
  | Some whitelist, Some blacklist, Member _, Member ADD, None =>
      negb (mac_in device_mac whitelist) && negb (mac_in device_mac blacklist)
  | _, _, _, _, _ => false
  end.

(** Letter case as the specification wants it ignored: two strings that
    differ and agree once their ASCII letters are lowered. *)
Definition ascii_lower (c : Ascii.ascii) : Ascii.ascii :=
  let n := Ascii.nat_of_ascii c in
  if (65 <=? n)%nat && (n <=? 90)%nat then Ascii.ascii_of_nat (n + 32) else c.

Fixpoint string_lower (s : string) : string :=
  match s with
  | EmptyString => EmptyString
  | String c rest => String (ascii_lower c) (string_lower rest)
  end.

Definition differs_only_in_case (s t : string) : Prop :=
  s <> t /\ string_lower s = string_lower t.

(** [needle in haystack] for strings. *)
Definition contains (haystack needle : string) : Prop :=
  exists before after : string,
    haystack = String.append before (String.append needle after).

(** ** Predicates of the statements *)

(** Whether a run of the reconciler reaches the name resolver. *)
Definition resolves_name (state : State.t)
    (filter_mode : arg FilterMode) (filter_action : arg FilterAction)
    (device_mac : string) (device_name : option string) : bool :=
  match State.WMACAddresses state, State.BMACAddresses state,
        filter_mode, filter_action with
  | Some whitelist, Some blacklist, Member _, Member ADD =>
      negb (mac_in device_mac whitelist) && negb (mac_in device_mac blacklist)
      && negb (name_truthy device_name)
  | _, _, _, _ => false
  end.

(** The ways [apply_wlan_filter] stops before composing a command: a
    band is missing, filtering is not switched on for a band, the 2.4GHz
    reconciliation answers the null triple, or it answers a triple and
    the 5GHz reconciliation answers the null triple. *)
Definition gate_fails (api : HuaweiCoreApi)
    (filter_mode : arg FilterMode) (filter_action : arg FilterAction)
    (device_mac : string) (device_name : option string)
    (states : option State.t * option State.t) : Prop :=
  match states with
  | (Some state_2g, Some state_5g) =>
      is_bool_true (State.MACAddressControlEnabled state_2g) = false \/
      is_bool_true (State.MACAddressControlEnabled state_5g) = false \/
      fst (run (_process_access_lists api state_2g filter_mode filter_action
                  device_mac device_name)) = inr (None, None, None) \/
      ((exists r2g, fst (run (_process_access_lists api state_2g filter_mode
                                filter_action device_mac device_name)) = inr r2g) /\
       fst (run (_process_access_lists api state_5g filter_mode filter_action
                   device_mac device_name)) = inr (None, None, None))
  | _ => True
  end.

(** A half of a command that repeats the lists, the identifier and the
    band label of a fetched band state. *)
Definition copies_lists (config : Config.t) (state : State.t) : Prop :=
  Config.WMacFilters config = State.WMACAddresses state /\
  Config.BMacFilters config = State.BMACAddresses state /\
  Config.ID config = State.ID state /\
  Config.FrequencyBand config = State.FrequencyBand state.

(** What a call answers after its POST went out. *)
Definition post_outcome (api : HuaweiCoreApi) : exn + bool :=
  match post_reply api with
  | Some e => inl e
  | None => inr true
  end.

(** The [current_state] of [_set_wlan_filter_enabled], computed once
    both band states are there. *)
Definition combined_enabled (state_2g state_5g : State.t) : bool :=
  is_bool_true (State.MACAddressControlEnabled state_2g)
  && is_bool_true (State.MACAddressControlEnabled state_5g).

(** ** Example data *)

Definition phone : Entry :=
  [("MACAddress", VStr "AA:BB:CC:DD:EE:FF"); ("HostName", VStr "phone")].

Definition phone_lower : Entry :=
  [("MACAddress", VStr "aa:bb:cc:dd:ee:ff"); ("HostName", VStr "phone")].

Definition phone_as_guest : Entry :=
  [("MACAddress", VStr "AA:BB:CC:DD:EE:FF"); ("HostName", VStr "guest")].

Definition tv : Entry :=
  [("MACAddress", VStr "11:22:33:44:55:66"); ("HostName", VStr "tv")].

Definition quiet_router : HuaweiCoreApi :=
  {| wlanfilter_reply := inr []; hostinfo_reply := inr []; post_reply := None |}.

Definition band_state (label : string) (enabled : value)
    (whitelist blacklist : option (list Entry)) : State.t :=
  State.mk (VStr label) enabled whitelist blacklist (VStr label) (VInt 1).

Definition router_of (actual_states : list State.t) : HuaweiCoreApi :=
  {| wlanfilter_reply := inr actual_states;
     hostinfo_reply := inr [];
     post_reply := None |}.

(** Filtering switched on for 2.4GHz, reported as the number 1 for 5GHz. *)
Definition states_5g_off : list State.t :=
  [band_state "2.4GHz" (VBool true) (Some []) (Some []);
   band_state "5GHz" (VInt 1) (Some []) (Some [])].

Definition tv_twice (label : string) : State.t :=
  band_state label (VBool true) (Some [tv; tv]) (Some []).

Definition tv_once (label : string) : State.t :=
  band_state label (VBool true) (Some [tv]) (Some []).

Definition tv_none (label : string) : State.t :=
  band_state label (VBool true) (Some []) (Some []).

(** The command that carries the lists of two band states. *)
Definition command_of (state_2g state_5g : State.t) : Command :=
  {| config2g := {|
       Config.MACAddressControlEnabled := VBool true;
       Config.WMacFilters := State.WMACAddresses state_2g;
       Config.ID := State.ID state_2g;
       Config.MacFilterPolicy := State.MacFilterPolicy state_2g;
       Config.BMacFilters := State.BMACAddresses state_2g;
       Config.FrequencyBand := State.FrequencyBand state_2g |};
     config5g := {|
       Config.MACAddressControlEnabled := VBool true;
       Config.WMacFilters := State.WMACAddresses state_5g;
       Config.ID := State.ID state_5g;
       Config.MacFilterPolicy := State.MacFilterPolicy state_5g;
       Config.BMacFilters := State.BMACAddresses state_5g;
       Config.FrequencyBand := State.FrequencyBand state_5g |} |}.

(** A router whose bands filter by policy 0, 2.4GHz switched on and 5GHz
    switched off. *)
Definition mixed_2g : State.t :=
  State.mk (VStr "2.4GHz") (VBool true) (Some [tv]) (Some [phone])
           (VStr "wlan0") (VInt 0).

Definition mixed_5g : State.t :=
  State.mk (VStr "5GHz") (VBool false) (Some [tv]) (Some [phone])
           (VStr "wlan1") (VInt 0).

Definition states_mixed : list State.t := [mixed_2g; mixed_5g].

Definition numbered (mode : FilterMode) : value :=
  match mode with
  | BLACKLIST => VInt 0
  | WHITELIST => VInt 1
  end.

(** ** The band-state fetcher and the router after a write *)

(** The last record of a list that passes a test, if any. *)
Definition last_with (test : State.t -> bool) (l : list State.t) : option State.t :=
  fold_left (fun acc state => if test state then Some state else acc) l None.

(** The test [frequency == label] of [_get_filter_states]. *)
Definition is_band (label : string) (state : State.t) : bool :=
  py_eq (State.FrequencyBand state) (VStr label).

(** [slot] is the last record of the reply that bears [label], or
    nothing when no record bears it. *)
Definition last_labelled (label : string) (actual_states : list State.t)
    (slot : option State.t) : Prop :=
  (forall state,
      slot = Some state <->
      exists pre post,
        actual_states = pre ++ state :: post /\
        State.FrequencyBand state = VStr label /\
        forall later, later ∈ post -> State.FrequencyBand later <> VStr label) /\
  (slot = None <->
   forall state, state ∈ actual_states -> State.FrequencyBand state <> VStr label).

(** The band record a router reports once it has stored one half of a
    combined write: the write names the lists WMacFilters and BMacFilters,
    the read names them WMACAddresses and BMACAddresses. *)
Definition reported (config : Config.t) : State.t :=
  {| State.FrequencyBand := Config.FrequencyBand config;
     State.MACAddressControlEnabled := Config.MACAddressControlEnabled config;
     State.WMACAddresses := Config.WMacFilters config;
     State.BMACAddresses := Config.BMacFilters config;
     State.ID := Config.ID config;
     State.MacFilterPolicy := Config.MacFilterPolicy config |}.

(** The entries of a list that do not carry a MAC, in their order. *)
Definition others_of (device_mac : string) (l : list Entry) : list Entry :=
  List.filter (fun entry => negb (has_mac device_mac entry)) l.

(** The GET of the known devices when a run of the reconciler makes it. *)
Definition lookup_events (state : State.t)
    (filter_mode : arg FilterMode) (filter_action : arg FilterAction)
    (device_mac : string) (device_name : option string) : list event :=
  if resolves_name state filter_mode filter_action device_mac device_name
  then [EvGet _URL_HOST_INFO] else [].

(** The calls of one filter operation: the GET of the band states, then
    at most two GETs of the known devices, then at most one POST to the
    filter endpoint. *)
Definition filter_calls (tr : list event) : Prop :=
  exists (lookups : list event) (write : list event),
    tr = EvGet _URL_WLAN_FILTER :: lookups ++ write /\
    (length lookups <= 2)%nat /\
    Forall (fun ev => ev = EvGet _URL_HOST_INFO) lookups /\
    (write = [] \/ exists command, write = [EvPost _URL_WLAN_FILTER command]).

(** One half of the command of [apply_wlan_filter]: the enabled flag set
    to true, the two lists of a reconciled triple, and the identifier,
    the policy and the band label of the fetched band state. *)
Definition carries (config : Config.t) (state : State.t) (r : triple) : Prop :=
  Config.MACAddressControlEnabled config = VBool true /\
  Config.WMacFilters config = snd (fst r) /\
  Config.BMacFilters config = snd r /\
  Config.ID config = State.ID state /\
  Config.MacFilterPolicy config = State.MacFilterPolicy state /\
  Config.FrequencyBand config = State.FrequencyBand state.

(** A 2.4GHz band that whitelists the tv and a 5GHz band that does not. *)
Definition states_tv_on_2g : list State.t :=
  [tv_once "2.4GHz"; tv_none "5GHz"].

(** ** More example data *)

(** A router that fails the read of the known devices. *)
Definition router_without_hosts (actual_states : list State.t) : HuaweiCoreApi :=
  {| wlanfilter_reply := inr actual_states;
     hostinfo_reply := inl (ApiCallError "timeout");
     post_reply := None |}.

(** 2.4GHz switched on under policy 1, 5GHz switched off under policy 0. *)
Definition uneven_2g : State.t :=
  State.mk (VStr "2.4GHz") (VBool true) (Some [tv]) (Some []) (VStr "wlan0") (VInt 1).

Definition uneven_5g : State.t :=
  State.mk (VStr "5GHz") (VBool false) (Some [tv]) (Some []) (VStr "wlan1") (VInt 0).

(** The command that switches both bands of [states_mixed] on. *)
Definition mixed_switched_on : Command :=
  {| config2g := {|
       Config.MACAddressControlEnabled := VBool true;
       Config.WMacFilters := State.WMACAddresses mixed_2g;
       Config.ID := State.ID mixed_2g;
       Config.MacFilterPolicy := State.MacFilterPolicy mixed_2g;
       Config.BMacFilters := State.BMACAddresses mixed_2g;
       Config.FrequencyBand := State.FrequencyBand mixed_2g |};
     config5g := {|
       Config.MACAddressControlEnabled := VBool true;
       Config.WMacFilters := State.WMACAddresses mixed_5g;
       Config.ID := State.ID mixed_5g;
       Config.MacFilterPolicy := State.MacFilterPolicy mixed_5g;
       Config.BMacFilters := State.BMACAddresses mixed_5g;
       Config.FrequencyBand := State.FrequencyBand mixed_5g |} |}.

(** The command that sets both bands of [states_mixed] to the policy 1
    of WHITELIST. *)
Definition mixed_whitelisted : Command :=
  {| config2g := {|
       Config.MACAddressControlEnabled := VBool true;
       Config.WMacFilters := Some [tv];
       Config.ID := VStr "wlan0";
       Config.MacFilterPolicy := VInt 1;
       Config.BMacFilters := Some [phone];
       Config.FrequencyBand := VStr "2.4GHz" |};
     config5g := {|
       Config.MACAddressControlEnabled := VBool false;
       Config.WMacFilters := Some [tv];
       Config.ID := VStr "wlan1";
       Config.MacFilterPolicy := VInt 1;
       Config.BMacFilters := Some [phone];
       Config.FrequencyBand := VStr "5GHz" |} |}.

(** ** Feature detection and switches: the methods *)

Definition SWITCH_NFC : string := "nfc_switch".
Definition SWITCH_WIFI_80211R : string := "wifi_80211r_switch".
Definition SWITCH_WIFI_TWT : string := "wifi_twt_switch".
Definition SWITCH_WLAN_FILTER : string := "wlan_filter_switch".
Definition ACTION_REBOOT : string := "reboot_action".
Definition FEATURE_NFC : string := "feature_nfc".
Definition FEATURE_WIFI_80211R : string := "feature_wifi_80211r".
Definition FEATURE_WIFI_TWT : string := "feature_wifi_twt".
Definition FEATURE_WLAN_FILTER : string := "feature_wlan_filter".
Definition _URL_SWITCH_NFC : string := "api/bsp/nfc_switch".
Definition _URL_SWITCH_WIFI_80211R : string :=
  "api/ntwk/WlanGuideBasic?type=notshowpassall".
Definition _URL_SWITCH_WIFI_TWT : string :=
  "api/ntwk/WlanGuideBasic?type=notshowpassall".
Definition _URL_REBOOT : string := "api/service/reboot.cgi".

(** What a call can raise: an exception of the client, or one of the
    built-in errors of a subscript or an attribute on the wrong kind of
    value. *)
Inductive pyexn : Type :=
| Raised (e : exn)
| AttributeError
| IndexError
| KeyError
| TypeError.

(** The calls on the transport: a GET, a POST of a dictionary with its
    [extra_data], and the POST of a filter command. *)
Inductive call : Type :=
| CallGet (url : string)
| CallPost (url : string) (body : dict) (extra_data : option dict)
| CallPostCommand (url : string) (command : Command).

Definition call_of_event (ev : event) : call :=
  match ev with
  | EvGet url => CallGet url
  | EvPost url command => CallPostCommand url command
  end.

(** The router as the client meets it: what a GET of a switch endpoint
    answers and whether a POST fails, each after the calls made so far,
    and the answers of the filter endpoints for a filter operation begun
    after them. *)
Record Transport : Type := mkTransport {
  switch_reply : list call -> string -> exn + value;
  switch_post : list call -> string -> option exn;
  filter_at : list call -> HuaweiCoreApi
}.

(** The fields of a [HuaweiApi] object that the switch operations read
    and write: its own [_is_features_updated] and the
    [_available_features] of its detector. *)
Record HuaweiApi : Type := mkObject {
  _is_features_updated : bool;
  _available_features : gset string
}.

(** A method runs on the object and the calls made so far; it leaves an
    object and the calls made, and returns or raises. *)
Definition P (A : Type) : Type :=
  HuaweiApi -> list call -> (pyexn + A) * HuaweiApi * list call.

Definition pret {A} (a : A) : P A := fun o tr => (inr a, o, tr).
Definition praise {A} (e : pyexn) : P A := fun o tr => (inl e, o, tr).
Definition pbind {A B} (m : P A) (k : A -> P B) : P B :=
  fun o tr =>
    match m o tr with
    | (inr a, o', tr') => k a o' tr'
    | (inl e, o', tr') => (inl e, o', tr')
    end.
Definition plift {A} (r : pyexn + A) : P A := fun o tr => (r, o, tr).

Notation "x <<- m ;; k" := (pbind m (fun x => k))
  (at level 100, m at next level, right associativity).

(** [await self._core_api.get(url)] and
    [await self._core_api.post(url, body, extra_data=...)]. *)
Definition core_get (t : Transport) (url : string) : P value :=
  fun o tr =>
    (match switch_reply t tr url with
     | inl e => inl (Raised e)
     | inr data => inr data
     end, o, tr ++ [CallGet url]).

Definition core_post_dict (t : Transport) (url : string) (body : dict)
    (extra_data : option dict) : P unit :=
  fun o tr =>
    (match switch_post t tr url with
     | Some e => inl (Raised e)
     | None => inr tt
     end, o, tr ++ [CallPost url body extra_data]).

(** A filter operation run from a method: its calls join the calls of
    the object, its failure becomes the method's. *)
Definition run_filter {A} (t : Transport) (m : HuaweiCoreApi -> M A) : P A :=
  fun o tr =>
    let r := run (m (filter_at t tr)) in
    (match fst r with
     | inl e => inl (Raised e)
     | inr a => inr a
     end, o, tr ++ map call_of_event (snd r)).

(** The binding of a key, if the dictionary has the key. *)
Fixpoint dict_lookup (d : dict) (key : string) : option value :=
  match d with
  | [] => None
  | (k, v) :: rest => if String.eqb k key then Some v else dict_lookup rest key
  end.

(** [v.get(key)] and [v.get(key, default)] on any value: only a
    dictionary has [get]. *)
Definition py_get (v : value) (key : string) : pyexn + value :=
  match v with
  | VDict d => inr (dict_get d key)
  | _ => inl AttributeError
  end.

Definition py_get_default (v : value) (key : string) (default : value)
  : pyexn + value :=
  match v with
  | VDict d =>
      inr (match dict_lookup d key with
           | Some x => x
           | None => default
           end)
  | _ => inl AttributeError
  end.

(** [v[0]] on any value: the head of a list, the first character of a
    string, IndexError when these are empty; the key 0 of a decoded
    dictionary, whose keys are strings, is never there; the other values
    have no subscript. *)
Definition py_item0 (v : value) : pyexn + value :=
  match v with
  | VList [] => inl IndexError
  | VList (x :: _) => inr x
  | VStr EmptyString => inl IndexError
  | VStr (String c _) => inr (VStr (String c EmptyString))
  | VDict _ => inl KeyError
  | VNone | VBool _ | VInt _ => inl TypeError
  end.

(** [v is not None] *)
Definition is_not_none (v : value) : bool :=
  match v with
  | VNone => false
  | _ => true
  end.

(** [self._available_features.add(feature)] and [is_available]. *)
Definition add_feature (feature : string) : P unit :=
  fun o tr =>
    (inr tt,
     {| _is_features_updated := _is_features_updated o;
        _available_features := {[feature]} ∪ _available_features o |},
     tr).

Definition is_available (o : HuaweiApi) (feature : string) : bool :=
  bool_decide (feature ∈ _available_features o).

(** [log_feature(feature_name)]: the wrapped call with logging around
    it; what the call raises is raised again. *)
Definition log_feature (feature_name : string) (func : P bool) : P bool :=
  fun o tr =>
    match func o tr with
    | (inr result, o', tr') => (inr result, o', tr')
    | (inl e, o', tr') => (inl e, o', tr')
    end.

Section Switches.

(** The constant [APICALL_ERRCAT_UNAUTHORIZED] of [coreapi.py] and the
    class [HuaweiFilterInfo] of [classes.py], with its [parse] and the
    [enabled] of a parsed record, are not at hand; they are parameters. *)
Variable APICALL_ERRCAT_UNAUTHORIZED : string.
Variable HuaweiFilterInfo : Type.
Variable HuaweiFilterInfo_parse : option State.t -> pyexn + HuaweiFilterInfo.
Variable HuaweiFilterInfo_enabled : HuaweiFilterInfo -> value.

(** [unauthorized_as_false]: an ApiCallError of the unauthorized
    category becomes the answer False, anything else is raised again. *)
Definition unauthorized_as_false (func : P bool) : P bool :=
  fun o tr =>
    match func o tr with
    | (inl (Raised (ApiCallError category)), o', tr') =>
        if String.eqb category APICALL_ERRCAT_UNAUTHORIZED
        then (inr false, o', tr')
        else (inl (Raised (ApiCallError category)), o', tr')
    | other => other
    end.

Definition _is_nfc_available (t : Transport) : P bool :=
  log_feature FEATURE_NFC (unauthorized_as_false (
    data <<- core_get t _URL_SWITCH_NFC ;;
    switch <<- plift (py_get data "nfcSwitch") ;;
    pret (is_not_none switch))).

(** [data.get("WifiConfig", [{}])[0].get(key)] *)
Definition wifi_config_setting (data : value) (key : string) : pyexn + value :=
  match py_get_default data "WifiConfig" (VList [VDict []]) with
  | inl e => inl e
  | inr configs =>
      match py_item0 configs with
      | inl e => inl e
      | inr config => py_get config key
      end
  end.

Definition _is_wifi_80211r_available (t : Transport) : P bool :=
  log_feature FEATURE_WIFI_80211R (unauthorized_as_false (
    data <<- core_get t _URL_SWITCH_WIFI_80211R ;;
    setting <<- plift (wifi_config_setting data "Dot11REnable") ;;
    pret (is_not_none setting))).

Definition _is_wifi_twt_available (t : Transport) : P bool :=
  log_feature FEATURE_WIFI_TWT (unauthorized_as_false (
    data <<- core_get t _URL_SWITCH_WIFI_TWT ;;
    setting <<- plift (wifi_config_setting data "TWTEnable") ;;
    pret (is_not_none setting))).

(** [data = self._core_api.get(_URL_WLAN_FILTER)] is not awaited: [data]
    is the coroutine object, which is not None, and the request is never
    sent. *)
Definition _is_wlan_filter_available (t : Transport) : P bool :=
  log_feature FEATURE_WLAN_FILTER (unauthorized_as_false (pret true)).

(** [if await probe: self._available_features.add(feature)] *)
Definition probe_into (probe : P bool) (feature : string) : P unit :=
  found <<- probe ;;
  if found then add_feature feature else pret tt.

(** [HuaweiFeaturesDetector.update] *)
Definition update (t : Transport) : P unit :=
  _ <<- probe_into (_is_nfc_available t) FEATURE_NFC ;;
  _ <<- probe_into (_is_wifi_80211r_available t) FEATURE_WIFI_80211R ;;
  _ <<- probe_into (_is_wifi_twt_available t) FEATURE_WIFI_TWT ;;
  probe_into (_is_wlan_filter_available t) FEATURE_WLAN_FILTER.

Definition set_updated : P unit :=
  fun o tr =>
    (inr tt,
     {| _is_features_updated := true;
        _available_features := _available_features o |},
     tr).

Definition _ensure_features_updated (t : Transport) : P unit :=
  fun o tr =>
    if _is_features_updated o then (inr tt, o, tr)
    else (_ <<- update t ;; set_updated) o tr.

Definition is_feature_available (t : Transport) (feature : string) : P bool :=
  _ <<- _ensure_features_updated t ;;
  fun o tr => (inr (is_available o feature), o, tr).

(** [get_wlan_filter_info]: both band states are parsed, 2.4GHz first. *)
Definition get_wlan_filter_info (t : Transport)
  : P (HuaweiFilterInfo * HuaweiFilterInfo) :=
  states <<- run_filter t _get_filter_states ;;
  info_2g <<- plift (HuaweiFilterInfo_parse (fst states)) ;;
  info_5g <<- plift (HuaweiFilterInfo_parse (snd states)) ;;
  pret (info_2g, info_5g).

Definition unsupported_switch {A} (name : string) : P A :=
  praise (Raised (UnsupportedActionError
                    (String.append "Unsupported switch name: " name))).

Definition get_switch_state (t : Transport) (name : string) : P value :=
  _ <<- _ensure_features_updated t ;;
  fun o =>
    (if String.eqb name SWITCH_NFC && is_available o FEATURE_NFC then
       data <<- core_get t _URL_SWITCH_NFC ;;
       switch <<- plift (py_get data "nfcSwitch") ;;
       pret (VBool (py_eq switch (VInt 1)))
     else if String.eqb name SWITCH_WIFI_80211R
             && is_available o FEATURE_WIFI_80211R then
       data <<- core_get t _URL_SWITCH_WIFI_80211R ;;
       setting_value <<- plift (wifi_config_setting data "Dot11REnable") ;;
       pret (VBool (is_bool_true setting_value))
     else if String.eqb name SWITCH_WIFI_TWT && is_available o FEATURE_WIFI_TWT then
       data <<- core_get t _URL_SWITCH_WIFI_TWT ;;
       setting_value <<- plift (wifi_config_setting data "TWTEnable") ;;
       pret (VBool (is_bool_true setting_value))
     else if String.eqb name SWITCH_WLAN_FILTER
             && is_available o FEATURE_WLAN_FILTER then
       infos <<- get_wlan_filter_info t ;;
       pret (HuaweiFilterInfo_enabled (snd infos))
     else unsupported_switch name) o.

Definition set_switch_state (t : Transport) (name : string) (state : bool) : P unit :=
  _ <<- _ensure_features_updated t ;;
  fun o =>
    (if String.eqb name SWITCH_NFC && is_available o FEATURE_NFC then
       core_post_dict t _URL_SWITCH_NFC
         [("nfcSwitch", VInt (if state then 1 else 0))] None
     else if String.eqb name SWITCH_WIFI_80211R
             && is_available o FEATURE_WIFI_80211R then
       core_post_dict t _URL_SWITCH_WIFI_80211R
         [("Dot11REnable", VBool state)] (Some [("action", VStr "11rSetting")])
     else if String.eqb name SWITCH_WIFI_TWT && is_available o FEATURE_WIFI_TWT then
       core_post_dict t _URL_SWITCH_WIFI_TWT
         [("TWTEnable", VBool state)] (Some [("action", VStr "TWTSetting")])
     else if String.eqb name SWITCH_WLAN_FILTER
             && is_available o FEATURE_WLAN_FILTER then
       _ <<- run_filter t (fun api => _set_wlan_filter_enabled api state) ;;
       pret tt
     else unsupported_switch name) o.

(** [execute_action] *)
Definition execute_action (t : Transport) (action_name : string) : P unit :=
  if String.eqb action_name ACTION_REBOOT
  then core_post_dict t _URL_REBOOT [] None
  else praise (Raised (UnsupportedActionError
                         (String.append "Unsupported action name: " action_name))).

(** The answer of a wrapped probe that reads one endpoint. *)
Definition guard_answer (r : pyexn + bool) : pyexn + bool :=
  match r with
  | inl (Raised (ApiCallError category)) =>
      if String.eqb category APICALL_ERRCAT_UNAUTHORIZED then inr false else r
  | _ => r
  end.

End Switches.

(** The object, the outcome and the calls of a finished method. *)
Definition object_of {A} (r : (pyexn + A) * HuaweiApi * list call) : HuaweiApi :=
  snd (fst r).
Definition outcome_of {A} (r : (pyexn + A) * HuaweiApi * list call) : pyexn + A :=
  fst (fst r).
Definition calls_of {A} (r : (pyexn + A) * HuaweiApi * list call) : list call :=
  snd r.

Definition with_feature (feature : string) (o : HuaweiApi) : HuaweiApi :=
  {| _is_features_updated := _is_features_updated o;
     _available_features := {[feature]} ∪ _available_features o |}.

(** The four features the detector knows. *)
Definition known_features : gset string :=
  {[FEATURE_NFC; FEATURE_WIFI_80211R; FEATURE_WIFI_TWT; FEATURE_WLAN_FILTER]}.

(** A method that keeps the flag of the object, only adds known features
    and makes the GETs [urls] in this order, all of them if it returns
    and the first few if it raises. *)
Definition detects (urls : list string) {A} (m : P A) : Prop :=
  forall o tr,
    _is_features_updated (object_of (m o tr)) = _is_features_updated o /\
    _available_features o ⊆ _available_features (object_of (m o tr)) /\
    _available_features (object_of (m o tr))
      ⊆ _available_features o ∪ known_features /\
    exists gets,
      calls_of (m o tr) = tr ++ map CallGet gets /\
      match outcome_of (m o tr) with
      | inr _ => gets = urls
      | inl _ => gets `prefix_of` urls
      end.

(** A probe: the object untouched and the GETs [urls], whatever comes
    of them. *)
Definition probes (urls : list string) (probe : P bool) : Prop :=
  forall o tr,
    object_of (probe o tr) = o /\ calls_of (probe o tr) = tr ++ map CallGet urls.

(** The feature a switch name stands for. *)
Definition switch_feature (name : string) : option string :=
  if String.eqb name SWITCH_NFC then Some FEATURE_NFC
  else if String.eqb name SWITCH_WIFI_80211R then Some FEATURE_WIFI_80211R
  else if String.eqb name SWITCH_WIFI_TWT then Some FEATURE_WIFI_TWT
  else if String.eqb name SWITCH_WLAN_FILTER then Some FEATURE_WLAN_FILTER
  else None.

(** ** Example routers and objects *)

(** A category name for the examples, and a stand-in for the parsed band
    record: the band state itself, with its enabled flag. *)
Definition unauthorized_category : string := "unauthorized".

Definition parse_band (state : option State.t) : pyexn + State.t :=
  match state with
  | Some band => inr band
  | None => inl TypeError
  end.

(** An object on which detection has not run. *)
Definition fresh_object : HuaweiApi := mkObject false ∅.

(** An object on which detection found the three switch features. *)
Definition supporting_object : HuaweiApi :=
  mkObject true {[FEATURE_NFC; FEATURE_WIFI_80211R; FEATURE_WIFI_TWT]}.

(** A router that refuses every GET as unauthorized and reports no band
    at its filter endpoint. *)
Definition refusing_router : Transport :=
  {| switch_reply := fun _ _ => inl (ApiCallError unauthorized_category);
     switch_post := fun _ _ => None;
     filter_at := fun _ => quiet_router |}.

(** A router with an NFC switch whose WLAN guide endpoint answers an
    empty "WifiConfig". *)
Definition router_with_empty_wifi_config : Transport :=
  {| switch_reply := fun _ url =>
       if String.eqb url _URL_SWITCH_NFC
       then inr (VDict [("nfcSwitch", VInt 1)])
       else inr (VDict [("WifiConfig", VList [])]);
     switch_post := fun _ _ => None;
     filter_at := fun _ => quiet_router |}.

(** A router whose three switches are on. *)
Definition router_with_switches_on : Transport :=
  {| switch_reply := fun _ url =>
       if String.eqb url _URL_SWITCH_NFC
       then inr (VDict [("nfcSwitch", VInt 1)])
       else inr (VDict [("WifiConfig",
                         VList [VDict [("Dot11REnable", VBool true);
                                       ("TWTEnable", VBool true)]])]);
     switch_post := fun _ _ => None;
     filter_at := fun _ => quiet_router |}.

(** An object on which detection found the filter feature, and a router
    that reports 2.4GHz switched on and 5GHz switched off. *)
Definition filtering_object : HuaweiApi := mkObject true {[FEATURE_WLAN_FILTER]}.

Definition router_with_mixed_bands : Transport :=
  {| switch_reply := fun _ _ => inl (ApiCallError unauthorized_category);
     switch_post := fun _ _ => None;
     filter_at := fun _ => router_of states_mixed |}.

(** ** Basic facts about values and the search loops *)

Lemma py_eq_str (device_mac : string) (entry : Entry) :
  py_eq (VStr device_mac) (dict_get entry "MACAddress") = has_mac device_mac entry.
Proof.
  unfold has_mac. destruct (dict_get entry "MACAddress"); simpl; try reflexivity.
  apply String.eqb_sym.
Qed.

Lemma has_mac_eq (device_mac : string) (entry : Entry) :
  has_mac device_mac entry = true <-> dict_get entry "MACAddress" = VStr device_mac.
Proof.
  unfold has_mac. destruct (dict_get entry "MACAddress"); simpl;
    try (split; [discriminate | discriminate]).
  rewrite String.eqb_eq. split; [intros -> | intros [= ->]]; reflexivity.
Qed.

Lemma find_index_shift (device_mac : string) (l : list Entry) (k : nat) :
  find_index device_mac l k = (fun i => k + i)%nat <$> find_index device_mac l 0.
Proof.
  revert k. induction l as [|e l IH]; intros k; cbn [find_index]; [reflexivity|].
  destruct (py_eq (VStr device_mac) (dict_get e "MACAddress")).
  - simpl. f_equal. lia.
  - rewrite (IH (S k)), (IH 1%nat).
    destruct (find_index device_mac l 0); simpl; [f_equal; lia | reflexivity].
Qed.

Lemma find_index_cons (device_mac : string) (e : Entry) (l : list Entry) :
  find_index device_mac (e :: l) 0 =
    if has_mac device_mac e then Some 0%nat
    else S <$> find_index device_mac l 0.
Proof.
  cbn [find_index]. rewrite py_eq_str.
  destruct (has_mac device_mac e); [reflexivity|].
  apply find_index_shift.
Qed.

(** The index loop against the index-free wording. *)
Lemma find_index_None (device_mac : string) (l : list Entry) :
  find_index device_mac l 0 = None ->
  mac_in device_mac l = false /\ first_entry device_mac l = None /\
  remove_mac device_mac l = l.
Proof.
  induction l as [|e l IH]; [intros _; auto|].
  rewrite find_index_cons. unfold mac_in, first_entry in *. simpl.
  destruct (has_mac device_mac e); [discriminate|].
  destruct (find_index device_mac l 0); [discriminate|]. intros _.
  destruct IH as (-> & -> & ->); auto.
Qed.

Lemma find_index_Some (device_mac : string) (l : list Entry) (i : nat) :
  find_index device_mac l 0 = Some i ->
  mac_in device_mac l = true /\ l !! i = first_entry device_mac l /\
  delete i l = remove_mac device_mac l /\
  exists entry, l !! i = Some entry /\ has_mac device_mac entry = true.
Proof.
  revert i. induction l as [|e l IH]; intros i; [discriminate|].
  rewrite find_index_cons. unfold mac_in, first_entry in *. simpl.
  destruct (has_mac device_mac e) eqn:He.
  - intros [= <-]. simpl. repeat split; eauto.
  - destruct (find_index device_mac l 0) as [j|]; [|discriminate].
    intros [= <-]. destruct (IH j eq_refl) as (H1 & H2 & H3 & Hx).
    simpl. rewrite H3. auto.
Qed.

Lemma mac_in_find_index (device_mac : string) (l : list Entry) :
  mac_in device_mac l = bool_decide (is_Some (find_index device_mac l 0)).
Proof.
  destruct (find_index device_mac l 0) as [i|] eqn:E.
  - apply find_index_Some in E as (-> & _). symmetry. apply bool_decide_eq_true. eauto.
  - apply find_index_None in E as (-> & _). symmetry. apply bool_decide_eq_false.
    intros [? ?]; discriminate.
Qed.

Lemma has_mac_truthy (device_mac : string) (entry : Entry) :
  has_mac device_mac entry = true -> dict_truthy entry = true.
Proof. destruct entry; [discriminate | reflexivity]. Qed.

(** An entry found by the search is never replaced by a synthesized one. *)
Lemma item_or_found (device_mac : string) (l : list Entry) (i : nat)
    (fallback : M Entry) :
  find_index device_mac l 0 = Some i ->
  exists entry, first_entry device_mac l = Some entry /\
                item_or (fst (list_pop i l)) fallback = ret entry.
Proof.
  intros Hi. apply find_index_Some in Hi as (_ & Hl & _ & entry & He & Hm).
  exists entry. split; [congruence|].
  unfold list_pop, item_or. simpl. rewrite He.
  by rewrite (has_mac_truthy _ _ Hm).
Qed.

(** ** The truth table *)

Lemma process_eq_truth_table (api : HuaweiCoreApi) (band enabled id policy : value)
    (whitelist blacklist : list Entry) (mode : FilterMode) (action : FilterAction)
    (device_mac : string) (device_name : option string) (tr : list event) :
  _process_access_lists api
    (State.mk band enabled (Some whitelist) (Some blacklist) id policy)
    (Member mode) (Member action) device_mac device_name tr
  = truth_table api whitelist blacklist mode action device_mac device_name tr.
Proof.
  unfold _process_access_lists, truth_table; cbn [State.WMACAddresses State.BMACAddresses].
  destruct (find_index device_mac whitelist 0) as [i|] eqn:Hw;
  destruct (find_index device_mac blacklist 0) as [j|] eqn:Hb;
  repeat match goal with
  | H : find_index _ _ _ = Some _ |- _ =>
      let H' := fresh H in
      pose proof (item_or_found _ _ _ (get_access_list_item api device_mac device_name) H)
        as (? & ? & H');
      apply find_index_Some in H as (? & ? & ? & _)
  | H : find_index _ _ _ = None |- _ =>
      apply find_index_None in H as (? & ? & ?)
  end;
  destruct mode, action; cbn [fst snd list_pop target_list other_list answer] in *;
  repeat match goal with
  | H : mac_in _ _ = _ |- _ => rewrite H
  | H : first_entry _ _ = _ |- _ => rewrite H
  | H : remove_mac _ _ = _ |- _ => rewrite H
  | H : delete _ _ = _ |- _ => rewrite H
  | H : item_or _ _ = _ |- _ => rewrite H
  end; try reflexivity.
Qed.

Lemma reported_name_find (device_mac : string)
    (known_devices : list HuaweiClientDevice) :
  reported_name device_mac known_devices
  = option_map actual_name
      (List.find (fun device => String.eqb (mac_address device) device_mac)
                 known_devices).
Proof.
  induction known_devices as [|device rest IH]; [reflexivity|].
  cbn [reported_name List.find].
  by destruct (String.eqb (mac_address device) device_mac).
Qed.

Lemma get_access_list_item_new_entry (api : HuaweiCoreApi)
    (device_mac : string) (device_name : option string) (tr : list event) :
  get_access_list_item api device_mac device_name tr
  = new_entry api device_mac device_name tr.
Proof.
  unfold get_access_list_item, new_entry.
  destruct device_name as [[|c name]|]; cbn [name_truthy supplied_name];
    try reflexivity.
  all: unfold bind, get_known_devices, core_get_host_info, ret, make_item.
  all: destruct (hostinfo_reply api) as [e|known_devices]; [reflexivity|].
  all: rewrite reported_name_find.
  all: by destruct (List.find _ known_devices).
Qed.

Lemma process_eq_reconciled (api : HuaweiCoreApi) (band enabled id policy : value)
    (whitelist blacklist : list Entry)
    (mode : FilterMode) (action : FilterAction)
    (device_mac : string) (device_name : option string) (tr : list event) :
  _process_access_lists api
    (State.mk band enabled (Some whitelist) (Some blacklist) id policy)
    (Member mode) (Member action) device_mac device_name tr
  = reconciled api whitelist blacklist mode action device_mac device_name tr.
Proof.
  rewrite process_eq_truth_table. unfold truth_table, reconciled.
  destruct action; [|reflexivity].
  destruct (mac_in device_mac (target_list mode whitelist blacklist));
    [reflexivity|].
  destruct (first_entry device_mac (other_list mode whitelist blacklist));
    [reflexivity|].
  unfold bind, ret. by rewrite get_access_list_item_new_entry.
Qed.




(** ** Membership lookup *)

Lemma find_index_first (device_mac : string) (l : list Entry) (i : nat) :
  find_index device_mac l 0 = Some i <->
  (exists entry, l !! i = Some entry /\ dict_get entry "MACAddress" = VStr device_mac) /\
  (forall j entry, (j < i)%nat -> l !! j = Some entry ->
                   dict_get entry "MACAddress" <> VStr device_mac).
Proof.
  revert i. induction l as [|e l IH]; intros i.
  - split; [discriminate | intros [(x & Hx & _) _]; discriminate].
  - rewrite find_index_cons. destruct (has_mac device_mac e) eqn:He.
    + apply has_mac_eq in He. split.
      * intros [= <-]. split; [exists e; auto | intros j x Hj; lia].
      * intros [_ Hmin]. destruct i as [|i]; [reflexivity|].
        exfalso. apply (Hmin 0%nat e); [lia | reflexivity | exact He].
    + assert (Hne : dict_get e "MACAddress" <> VStr device_mac).
      { intros Heq. apply has_mac_eq in Heq. congruence. }
      split.
      * destruct (find_index device_mac l 0) as [k|] eqn:Hk; [|discriminate].
        intros [= <-]. destruct (proj1 (IH k) eq_refl) as [Hex Hmin].
        split; [exact Hex|].
        intros [|j] x Hj Hx; [injection Hx as <-; exact Hne|].
        apply (Hmin j x); [lia | exact Hx].
      * intros [(x & Hx & Hm) Hmin]. destruct i as [|i].
        { injection Hx as <-. contradiction. }
        assert (Hi : find_index device_mac l 0 = Some i).
        { apply IH. split; [exists x; auto|].
          intros j y Hj Hy. apply (Hmin (S j) y); [lia | exact Hy]. }
        rewrite Hi. reflexivity.
Qed.

Lemma find_index_absent (device_mac : string) (l : list Entry) :
  find_index device_mac l 0 = None <->
  (forall entry, entry ∈ l -> dict_get entry "MACAddress" <> VStr device_mac).
Proof.
  induction l as [|e l IH].
  - split; [intros _ x Hx; inversion Hx | reflexivity].
  - rewrite find_index_cons. destruct (has_mac device_mac e) eqn:He.
    + apply has_mac_eq in He. split; [discriminate|].
      intros H. exfalso. apply (H e); [left | exact He].
    + assert (Hne : dict_get e "MACAddress" <> VStr device_mac).
      { intros Heq. apply has_mac_eq in Heq. congruence. }
      destruct (find_index device_mac l 0) as [k|] eqn:Hk.
      * split; [discriminate|]. intros H.
        assert (Hnone : Some k = None); [|discriminate].
        apply IH. intros x Hx. apply H. by right.
      * split; [|reflexivity]. intros _ x Hx.
        apply elem_of_cons in Hx as [-> | Hx]; [exact Hne|].
        by apply IH.
Qed.

(** C2, as the claim states it, fails: an entry whose MAC is the target's
    in lower case is not found, and REMOVE reports nothing to do. *)
Lemma find_index_ignores_case_counterexample :
  (phone_lower ∈ [phone_lower] /\
   dict_get phone_lower "MACAddress" = VStr "aa:bb:cc:dd:ee:ff" /\
   differs_only_in_case "aa:bb:cc:dd:ee:ff" "AA:BB:CC:DD:EE:FF") /\
  find_index "AA:BB:CC:DD:EE:FF" [phone_lower] 0 = None /\
  run (_process_access_lists quiet_router
         (State.mk (VStr "5GHz") (VBool true) (Some [phone_lower]) (Some [])
                   VNone VNone)
         (Member WHITELIST) (Member REMOVE) "AA:BB:CC:DD:EE:FF" None)
  = (inr (Some false, Some [phone_lower], Some []), []).
Proof.
  split; [|split; reflexivity].
  split; [left|]. split; [reflexivity|]. split; [discriminate | reflexivity].
Qed.

(** C2, amended.  The lookup compares the target MAC with each entry's
    ["MACAddress"] by string equality, letter case included: it answers
    the lowest index whose entry carries exactly the target MAC, answers
    nothing when no entry does, even if one differs in letter case only,
    and the reconciler acts on the entry at that index. *)
Theorem find_index_exact_first :
  forall (device_mac : string) (l : list Entry),
    (forall i : nat,
        find_index device_mac l 0 = Some i <->
        (exists entry, l !! i = Some entry /\
                       dict_get entry "MACAddress" = VStr device_mac) /\
        (forall j entry, (j < i)%nat -> l !! j = Some entry ->
                         dict_get entry "MACAddress" <> VStr device_mac)) /\
    (find_index device_mac l 0 = None <->
     forall entry, entry ∈ l -> dict_get entry "MACAddress" <> VStr device_mac) /\
    (forall (entry : Entry) (s : string),
        dict_get entry "MACAddress" = VStr s ->
        differs_only_in_case s device_mac ->
        find_index device_mac [entry] 0 = None) /\
    (forall (api : HuaweiCoreApi) (band enabled id policy : value)
            (other : list Entry) (device_name : option string)
            (tr : list event) (i : nat),
        find_index device_mac l 0 = Some i ->
        _process_access_lists api
          (State.mk band enabled (Some l) (Some other) id policy)
          (Member WHITELIST) (Member REMOVE) device_mac device_name tr
        = (inr (Some true, Some (delete i l), Some other), tr) /\
        _process_access_lists api
          (State.mk band enabled (Some other) (Some l) id policy)
          (Member BLACKLIST) (Member REMOVE) device_mac device_name tr
        = (inr (Some true, Some other, Some (delete i l)), tr)).
Proof.
  intros device_mac l. split; [intros i; apply find_index_first|].
  split; [apply find_index_absent|]. split.
  { intros entry s Hs [Hne _]. apply find_index_absent.
    intros x Hx. apply list_elem_of_singleton in Hx as ->. congruence. }
  intros api band enabled id policy other device_name tr i Hi.
  unfold _process_access_lists. cbn [State.WMACAddresses State.BMACAddresses].
  rewrite Hi. split; reflexivity.
Qed.

(** ** Traces of the reconciler *)

(** The name resolver makes at most one call, a GET on the host-info
    endpoint, and its outcome does not depend on the calls made before. *)
Lemma get_access_list_item_frame (api : HuaweiCoreApi) (device_mac : string)
    (device_name : option string) (tr : list event) :
  get_access_list_item api device_mac device_name tr =
    (fst (run (get_access_list_item api device_mac device_name)),
     tr ++ (if name_truthy device_name then [] else [EvGet _URL_HOST_INFO])).
Proof.
  unfold get_access_list_item, run, bind, get_known_devices, core_get_host_info, ret.
  destruct device_name as [name|]; cbn [name_truthy].
  - destruct name; cbn; [| by rewrite app_nil_r].
    destruct (hostinfo_reply api) as [e|devs]; [reflexivity|].
    by destruct (List.find _ devs).
  - cbn. destruct (hostinfo_reply api) as [e|devs]; [reflexivity|].
    by destruct (List.find _ devs).
Qed.

Lemma process_access_lists_frame (api : HuaweiCoreApi) (state : State.t)
    (filter_mode : arg FilterMode) (filter_action : arg FilterAction)
    (device_mac : string) (device_name : option string) (tr : list event) :
  _process_access_lists api state filter_mode filter_action device_mac device_name tr
  = (fst (run (_process_access_lists api state filter_mode filter_action
                 device_mac device_name)),
     tr ++ (if resolves_name state filter_mode filter_action device_mac device_name
            then [EvGet _URL_HOST_INFO] else [])).
Proof.
  destruct state as [band enabled [whitelist|] [blacklist|] id policy];
    destruct filter_mode as [mode|lm], filter_action as [[|]|la];
    try (cbn; by rewrite app_nil_r).
  all: unfold resolves_name, run; cbn [State.WMACAddresses State.BMACAddresses].
  all: rewrite !process_eq_truth_table.
  all: unfold truth_table, bind, ret; destruct mode;
       cbn [target_list other_list answer].
  all: repeat match goal with
       | |- context [mac_in ?m ?l] =>
           let E := fresh "E" in destruct (mac_in m l) eqn:E
       | |- context [first_entry ?m ?l] =>
           let E := fresh "E" in destruct (first_entry m l) eqn:E
       end; cbn [negb andb fst snd]; try (by rewrite app_nil_r).
  all: try (exfalso;
            match goal with
            | H : first_entry ?m ?l = Some _, H' : mac_in ?m ?l = false |- _ =>
                unfold first_entry, mac_in in *;
                apply find_some in H as [Hin Hm];
                assert (existsb (has_mac m) l = true)
                  by (apply existsb_exists; eauto);
                congruence
            | H : first_entry ?m ?l = None, H' : mac_in ?m ?l = true |- _ =>
                unfold first_entry, mac_in in *;
                apply existsb_exists in H' as (x & Hin & Hm);
                pose proof (find_none _ _ H x Hin); congruence
            end).
  all: rewrite (get_access_list_item_frame api device_mac device_name tr).
  all: rewrite (get_access_list_item_frame api device_mac device_name []).
  all: destruct (fst (run (get_access_list_item api device_mac device_name)));
       destruct (name_truthy device_name); cbn; by rewrite ?app_nil_r.
Qed.

Lemma get_filter_states_run (api : HuaweiCoreApi) (tr : list event) :
  _get_filter_states api tr =
    (match wlanfilter_reply api with
     | inl e => inl e
     | inr actual_states => inr (split_states actual_states)
     end, tr ++ [EvGet _URL_WLAN_FILTER]).
Proof.
  unfold _get_filter_states, bind, core_get_wlan_filter, ret.
  by destruct (wlanfilter_reply api).
Qed.

Lemma posts_app (tr1 tr2 : list event) : posts (tr1 ++ tr2) = posts tr1 ++ posts tr2.
Proof. apply omap_app. Qed.

Lemma posts_resolves (b : bool) :
  posts (if b then [EvGet _URL_HOST_INFO] else []) = [].
Proof. by destruct b. Qed.

(** A missing list is answered with the null triple before the mode or
    the action is looked at, and only then. *)
Lemma process_null_iff (api : HuaweiCoreApi) (state : State.t)
    (filter_mode : arg FilterMode) (filter_action : arg FilterAction)
    (device_mac : string) (device_name : option string) :
  (State.WMACAddresses state = None \/ State.BMACAddresses state = None) <->
  fst (run (_process_access_lists api state filter_mode filter_action
              device_mac device_name)) = inr (None, None, None).
Proof.
  destruct state as [band enabled [whitelist|] [blacklist|] id policy];
    cbn [State.WMACAddresses State.BMACAddresses];
    try (split; [reflexivity | auto]).
  split; [intros [?|?]; discriminate|].
  destruct filter_mode as [mode|lm], filter_action as [action|la];
    try (intros H; discriminate H);
    try (destruct action; intros H; discriminate H).
  unfold run. rewrite process_eq_truth_table.
  unfold truth_table, bind, ret.
  destruct mode, action; cbn [target_list other_list answer];
    repeat match goal with
    | |- context [if ?b then _ else _] => destruct b
    | |- context [match first_entry ?m ?l with _ => _ end] =>
        destruct (first_entry m l)
    | |- context [match get_access_list_item ?a ?m ?n ?t with _ => _ end] =>
        destruct (get_access_list_item a m n t) as [[?|?] ?]
    end; discriminate.
Qed.

(** ** Precondition gating of [apply_wlan_filter] *)

(** C3.  When a band state is missing, or a band's enabled flag is not
    the boolean true, or a band's reconciliation answers the null triple
    (which it does exactly when the whitelist or the blacklist field is
    absent), [apply_wlan_filter] returns false and posts nothing. *)
Theorem apply_wlan_filter_gated
    (api : HuaweiCoreApi) (actual_states : list State.t)
    (filter_mode : arg FilterMode) (filter_action : arg FilterAction)
    (device_mac : string) (device_name : option string) :
  wlanfilter_reply api = inr actual_states ->
  gate_fails api filter_mode filter_action device_mac device_name
             (split_states actual_states) ->
  (fst (run (apply_wlan_filter api filter_mode filter_action
               device_mac device_name)) = inr false /\
   posts (snd (run (apply_wlan_filter api filter_mode filter_action
                      device_mac device_name))) = []) /\
  (forall state : State.t,
      (State.WMACAddresses state = None \/ State.BMACAddresses state = None) <->
      fst (run (_process_access_lists api state filter_mode filter_action
                  device_mac device_name)) = inr (None, None, None)).
Proof.
  intros Hreply Hgate. split; [|intros state; apply process_null_iff].
  unfold apply_wlan_filter, run, bind. rewrite get_filter_states_run, Hreply.
  unfold gate_fails, verify_state in *.
  destruct (split_states actual_states) as [[state_2g|] [state_5g|]];
    try (split; reflexivity).
  destruct (is_bool_true (State.MACAddressControlEnabled state_2g));
    [|split; reflexivity].
  destruct (is_bool_true (State.MACAddressControlEnabled state_5g));
    [|split; reflexivity].
  cbn [negb orb].
  rewrite process_access_lists_frame.
  destruct Hgate as [H|[H|[H|[[r2g H2] H5]]]]; try discriminate.
  - rewrite H. unfold ret. cbn [any_none fst snd].
    rewrite posts_app, posts_resolves. split; reflexivity.
  - rewrite H2. destruct (any_none r2g); unfold ret; cbn [fst snd].
    + rewrite posts_app, posts_resolves. split; reflexivity.
    + rewrite process_access_lists_frame, H5. cbn [any_none fst snd].
      rewrite !posts_app, !posts_resolves. split; reflexivity.
Qed.

Lemma apply_wlan_filter_gated_witness :
  (fst (run (apply_wlan_filter (router_of states_5g_off) (Member WHITELIST)
               (Member ADD) "AA:BB:CC:DD:EE:FF" None)) = inr false /\
   posts (snd (run (apply_wlan_filter (router_of states_5g_off) (Member WHITELIST)
                      (Member ADD) "AA:BB:CC:DD:EE:FF" None))) = []) /\
  (forall state : State.t,
      (State.WMACAddresses state = None \/ State.BMACAddresses state = None) <->
      fst (run (_process_access_lists (router_of states_5g_off) state
                  (Member WHITELIST) (Member ADD) "AA:BB:CC:DD:EE:FF" None))
      = inr (None, None, None)).
Proof.
  apply (apply_wlan_filter_gated (router_of states_5g_off) states_5g_off).
  - reflexivity.
  - simpl. right. left. reflexivity.
Defined.

(** ** Counting the entries of a MAC *)

Lemma has_mac_inj (m1 m2 : string) (entry : Entry) :
  has_mac m1 entry = true -> has_mac m2 entry = true -> m1 = m2.
Proof. rewrite !has_mac_eq. congruence. Qed.

Lemma has_mac_make_item (device_mac : string) (host_name : value) :
  has_mac device_mac (make_item device_mac host_name) = true.
Proof. apply has_mac_eq. reflexivity. Qed.

Lemma mac_count_cons (m : string) (entry : Entry) (l : list Entry) :
  mac_count m (entry :: l) =
    ((if has_mac m entry then 1 else 0) + mac_count m l)%nat.
Proof. unfold mac_count. simpl. by destruct (has_mac m entry). Qed.

Lemma mac_count_app (m : string) (l1 l2 : list Entry) :
  mac_count m (l1 ++ l2) = (mac_count m l1 + mac_count m l2)%nat.
Proof. unfold mac_count. by rewrite List.filter_app, length_app. Qed.

Lemma mac_in_count (m : string) (l : list Entry) :
  mac_in m l = negb (Nat.eqb (mac_count m l) 0).
Proof.
  induction l as [|e l IH]; [reflexivity|].
  rewrite mac_count_cons. unfold mac_in in *. simpl.
  destruct (has_mac m e); simpl; [reflexivity | exact IH].
Qed.

Lemma mac_count_remove_same (m : string) (l : list Entry) :
  mac_count m (remove_mac m l) = pred (mac_count m l).
Proof.
  induction l as [|e l IH]; [reflexivity|].
  simpl. rewrite mac_count_cons. destruct (has_mac m e) eqn:He; [reflexivity|].
  rewrite mac_count_cons, He. exact IH.
Qed.

Lemma mac_count_remove_other (m device_mac : string) (l : list Entry) :
  m <> device_mac -> mac_count m (remove_mac device_mac l) = mac_count m l.
Proof.
  intros Hne. induction l as [|e l IH]; [reflexivity|].
  simpl. rewrite mac_count_cons. destruct (has_mac device_mac e) eqn:He.
  - destruct (has_mac m e) eqn:Hm; [|reflexivity].
    exfalso. apply Hne. by apply (has_mac_inj _ _ e).
  - rewrite mac_count_cons. by rewrite IH.
Qed.

Lemma remove_mac_absent (device_mac : string) (l : list Entry) :
  mac_in device_mac l = false -> remove_mac device_mac l = l.
Proof.
  unfold mac_in. induction l as [|e l IH]; [reflexivity|]. simpl.
  destruct (has_mac device_mac e); [discriminate|]. intros H. by rewrite IH.
Qed.

Lemma first_entry_has_mac (device_mac : string) (l : list Entry) (entry : Entry) :
  first_entry device_mac l = Some entry -> has_mac device_mac entry = true.
Proof. intros H. by apply find_some in H as [_ H]. Qed.

Lemma first_entry_mac_in (device_mac : string) (l : list Entry) :
  mac_in device_mac l = bool_decide (is_Some (first_entry device_mac l)).
Proof.
  unfold mac_in, first_entry. induction l as [|e l IH]; simpl; [reflexivity|].
  destruct (has_mac device_mac e); [reflexivity | exact IH].
Qed.

(** What the name resolver returns carries the target MAC. *)
Lemma get_access_list_item_mac (api : HuaweiCoreApi) (device_mac : string)
    (device_name : option string) (tr tr' : list event) (item : Entry) :
  get_access_list_item api device_mac device_name tr = (inr item, tr') ->
  has_mac device_mac item = true.
Proof.
  unfold get_access_list_item, bind, get_known_devices, core_get_host_info, ret.
  destruct device_name as [name|]; [destruct (name_truthy (Some name))|];
    try (intros [= <- _]; apply has_mac_make_item).
  all: destruct (hostinfo_reply api) as [e|devs]; [discriminate|].
  all: destruct (List.find _ devs); intros [= <- _]; apply has_mac_make_item.
Qed.

(** ** What a returned triple looks like *)

Lemma truth_table_returns (api : HuaweiCoreApi) (whitelist blacklist : list Entry)
    (mode : FilterMode) (action : FilterAction)
    (device_mac : string) (device_name : option string)
    (tr tr' : list event) (r : triple) :
  truth_table api whitelist blacklist mode action device_mac device_name tr
  = (inr r, tr') ->
  let target := target_list mode whitelist blacklist in
  let other := other_list mode whitelist blacklist in
  exists target' other',
    match action with
    | REMOVE =>
        r = answer mode (mac_in device_mac target) target' other' /\
        target' = remove_mac device_mac target /\ other' = other
    | ADD =>
        r = answer mode (negb (mac_in device_mac target)) target' other' /\
        other' = remove_mac device_mac other /\
        if mac_in device_mac target then target' = target
        else exists item, has_mac device_mac item = true /\
                          target' = target ++ [item]
    end.
Proof.
  intros H target other. unfold truth_table in H. fold target other in H.
  destruct action.
  - destruct (mac_in device_mac target) eqn:Ht.
    + injection H as <- _. exists target, (remove_mac device_mac other). auto.
    + destruct (first_entry device_mac other) as [moved|] eqn:Ho.
      * injection H as <- _.
        exists (target ++ [moved]), (remove_mac device_mac other).
        repeat split. exists moved. split; [|reflexivity].
        by apply first_entry_has_mac in Ho.
      * unfold bind in H.
        destruct (get_access_list_item api device_mac device_name tr)
          as [[e|item] tr1] eqn:Hitem; [discriminate|].
        injection H as <- _. exists (target ++ [item]), other.
        split; [reflexivity|]. split.
        { symmetry. apply remove_mac_absent. rewrite first_entry_mac_in, Ho.
          apply bool_decide_eq_false. intros [? ?]; discriminate. }
        exists item. split; [|reflexivity].
        by apply get_access_list_item_mac in Hitem.
  - injection H as <- _. exists (remove_mac device_mac target), other. auto.
Qed.

Lemma target_answer (mode : FilterMode) (na : option bool)
    (target other whitelist blacklist : list Entry) (need : bool) :
  (na, Some whitelist, Some blacklist) = answer mode need target other ->
  na = Some need /\ target_list mode whitelist blacklist = target /\
  other_list mode whitelist blacklist = other.
Proof. destruct mode; intros [= -> -> ->]; auto. Qed.

Lemma mac_in_app_item (device_mac : string) (l : list Entry) (item : Entry) :
  has_mac device_mac item = true -> mac_in device_mac (l ++ [item]) = true.
Proof.
  intros H. unfold mac_in. rewrite existsb_app. simpl. rewrite H.
  by rewrite orb_true_r.
Qed.

Lemma answer_lists (mode : FilterMode) (need : bool) (target other : list Entry) :
  exists whitelist blacklist,
    answer mode need target other = (Some need, Some whitelist, Some blacklist) /\
    target_list mode whitelist blacklist = target /\
    other_list mode whitelist blacklist = other.
Proof. destruct mode; simpl; eauto. Qed.

(** A second run on the lists a first run returned. *)
Lemma process_second_run (api : HuaweiCoreApi) (band enabled id policy : value)
    (whitelist blacklist : list Entry) (mode : FilterMode) (action : FilterAction)
    (device_mac : string) (device_name : option string) (tr tr' : list event)
    (na : option bool) (whitelist' blacklist' : list Entry) :
  _process_access_lists api
    (State.mk band enabled (Some whitelist) (Some blacklist) id policy)
    (Member mode) (Member action) device_mac device_name tr
  = (inr (na, Some whitelist', Some blacklist'), tr') ->
  action = ADD \/
  (mac_count device_mac (target_list mode whitelist blacklist) <= 1)%nat ->
  exists whitelist'' blacklist'',
    _process_access_lists api
      (State.mk band enabled (Some whitelist') (Some blacklist') id policy)
      (Member mode) (Member action) device_mac device_name tr'
    = (inr (Some false, Some whitelist'', Some blacklist''), tr').
Proof.
  rewrite !process_eq_truth_table. intros H Hcond.
  apply truth_table_returns in H as (target' & other' & H).
  unfold truth_table. destruct action.
  - destruct H as (Hr & _ & Ht). apply target_answer in Hr as (_ & -> & _).
    assert (Hin : mac_in device_mac target' = true).
    { destruct (mac_in device_mac (target_list mode whitelist blacklist)) eqn:E;
        [by subst | destruct Ht as (item & Hitem & ->); by apply mac_in_app_item]. }
    rewrite Hin.
    destruct (answer_lists mode false target'
                (remove_mac device_mac (other_list mode whitelist' blacklist')))
      as (w & b & -> & _). by exists w, b.
  - destruct Hcond as [|Hcount]; [discriminate|].
    destruct H as (Hr & Ht & Ho). apply target_answer in Hr as (_ & Ht' & Ho').
    rewrite Ht', Ht.
    assert (Hin : mac_in device_mac
                    (remove_mac device_mac (target_list mode whitelist blacklist))
                  = false).
    { rewrite mac_in_count, mac_count_remove_same.
      destruct (mac_count device_mac (target_list mode whitelist blacklist))
        as [|[|n]]; [reflexivity | reflexivity | lia]. }
    rewrite Hin.
    destruct (answer_lists mode false
                (remove_mac device_mac
                   (remove_mac device_mac (target_list mode whitelist blacklist)))
                (other_list mode whitelist' blacklist'))
      as (w & b & -> & _). by exists w, b.
Qed.

(** With both bands verified and reconciled to triples that need no
    action, [apply_wlan_filter] answers true after the one GET of the
    band states and what the reconciler itself fetched. *)
Lemma apply_no_action (api : HuaweiCoreApi) (actual_states : list State.t)
    (state_2g state_5g : State.t) (r2g r5g : triple)
    (filter_mode : arg FilterMode) (filter_action : arg FilterAction)
    (device_mac : string) (device_name : option string) :
  wlanfilter_reply api = inr actual_states ->
  split_states actual_states = (Some state_2g, Some state_5g) ->
  verify_state state_2g = true -> verify_state state_5g = true ->
  fst (run (_process_access_lists api state_2g filter_mode filter_action
              device_mac device_name)) = inr r2g ->
  fst (run (_process_access_lists api state_5g filter_mode filter_action
              device_mac device_name)) = inr r5g ->
  any_none r2g = false -> any_none r5g = false ->
  need_action r2g = false -> need_action r5g = false ->
  fst (run (apply_wlan_filter api filter_mode filter_action
              device_mac device_name)) = inr true /\
  posts (snd (run (apply_wlan_filter api filter_mode filter_action
                     device_mac device_name))) = [].
Proof.
  intros Hreply Hsplit Hv2 Hv5 H2 H5 Hn2 Hn5 Ha2 Ha5.
  unfold apply_wlan_filter, run, bind.
  rewrite get_filter_states_run, Hreply, Hsplit, Hv2, Hv5. cbn [negb orb].
  rewrite process_access_lists_frame, H2, Hn2.
  rewrite process_access_lists_frame, H5, Hn5, Ha2, Ha5.
  unfold ret. cbn [negb andb fst snd].
  rewrite !posts_app, !posts_resolves. split; reflexivity.
Qed.

(** ** Idempotence *)

(** C4, as the claim states it, fails: a whitelist that holds the tv
    twice needs a REMOVE twice.  The first run deletes one entry and the
    write carries the other; on the state so produced the same REMOVE
    again needs action and writes again. *)
Lemma remove_twice_counterexample :
  run (_process_access_lists quiet_router (tv_twice "5GHz")
         (Member WHITELIST) (Member REMOVE) "11:22:33:44:55:66" None)
  = (inr (Some true, Some [tv], Some []), []) /\
  run (_process_access_lists quiet_router (tv_once "5GHz")
         (Member WHITELIST) (Member REMOVE) "11:22:33:44:55:66" None)
  = (inr (Some true, Some [], Some []), []) /\
  run (apply_wlan_filter (router_of [tv_twice "2.4GHz"; tv_twice "5GHz"])
         (Member WHITELIST) (Member REMOVE) "11:22:33:44:55:66" None)
  = (inr true,
     [EvGet _URL_WLAN_FILTER;
      EvPost _URL_WLAN_FILTER (command_of (tv_once "2.4GHz") (tv_once "5GHz"))]) /\
  run (apply_wlan_filter (router_of [tv_once "2.4GHz"; tv_once "5GHz"])
         (Member WHITELIST) (Member REMOVE) "11:22:33:44:55:66" None)
  = (inr true,
     [EvGet _URL_WLAN_FILTER;
      EvPost _URL_WLAN_FILTER (command_of (tv_none "2.4GHz") (tv_none "5GHz"))]).
Proof. repeat split. Qed.

(** C4, amended.  ADD of a MAC that the target list holds and REMOVE of
    a MAC that it does not hold answer need_action = false without an
    error; run again on the lists a first run returned, ADD always
    answers need_action = false, and REMOVE does when the target list
    held at most one entry of the MAC; and when neither band needs
    action [apply_wlan_filter] returns true and posts nothing. *)
Theorem reconcile_idempotent :
  (forall (api : HuaweiCoreApi) (band enabled id policy : value)
          (whitelist blacklist : list Entry) (mode : FilterMode)
          (device_mac : string) (device_name : option string) (tr : list event),
      (mac_in device_mac (target_list mode whitelist blacklist) = true ->
       _process_access_lists api
         (State.mk band enabled (Some whitelist) (Some blacklist) id policy)
         (Member mode) (Member ADD) device_mac device_name tr
       = (inr (answer mode false (target_list mode whitelist blacklist)
                 (remove_mac device_mac (other_list mode whitelist blacklist))),
          tr)) /\
      (mac_in device_mac (target_list mode whitelist blacklist) = false ->
       _process_access_lists api
         (State.mk band enabled (Some whitelist) (Some blacklist) id policy)
         (Member mode) (Member REMOVE) device_mac device_name tr
       = (inr (Some false, Some whitelist, Some blacklist), tr)) /\
      (forall (action : FilterAction) (na : option bool)
              (whitelist' blacklist' : list Entry) (tr' : list event),
          _process_access_lists api
            (State.mk band enabled (Some whitelist) (Some blacklist) id policy)
            (Member mode) (Member action) device_mac device_name tr
          = (inr (na, Some whitelist', Some blacklist'), tr') ->
          action = ADD \/
          (mac_count device_mac (target_list mode whitelist blacklist) <= 1)%nat ->
          exists whitelist'' blacklist'',
            _process_access_lists api
              (State.mk band enabled (Some whitelist') (Some blacklist') id policy)
              (Member mode) (Member action) device_mac device_name tr'
            = (inr (Some false, Some whitelist'', Some blacklist''), tr')))
  /\
  (forall (api : HuaweiCoreApi) (actual_states : list State.t)
          (state_2g state_5g : State.t) (r2g r5g : triple)
          (filter_mode : arg FilterMode) (filter_action : arg FilterAction)
          (device_mac : string) (device_name : option string),
      wlanfilter_reply api = inr actual_states ->
      split_states actual_states = (Some state_2g, Some state_5g) ->
      verify_state state_2g = true -> verify_state state_5g = true ->
      fst (run (_process_access_lists api state_2g filter_mode filter_action
                  device_mac device_name)) = inr r2g ->
      fst (run (_process_access_lists api state_5g filter_mode filter_action
                  device_mac device_name)) = inr r5g ->
      any_none r2g = false -> any_none r5g = false ->
      need_action r2g = false -> need_action r5g = false ->
      fst (run (apply_wlan_filter api filter_mode filter_action
                  device_mac device_name)) = inr true /\
      posts (snd (run (apply_wlan_filter api filter_mode filter_action
                         device_mac device_name))) = []).
Proof.
  split; [|exact apply_no_action].
  intros api band enabled id policy whitelist blacklist mode device_mac
         device_name tr.
  split; [|split].
  - intros Hin. rewrite process_eq_truth_table. unfold truth_table.
    by rewrite Hin.
  - intros Hin. rewrite process_eq_truth_table. unfold truth_table.
    rewrite Hin, (remove_mac_absent _ _ Hin). by destruct mode.
  - intros action na whitelist' blacklist' tr'. apply process_second_run.
Qed.

(** ** Uniqueness of a MAC across the two lists *)

Lemma mac_count_item_other (m device_mac : string) (item : Entry) :
  has_mac device_mac item = true -> m <> device_mac -> mac_count m [item] = 0%nat.
Proof.
  intros Hitem Hne. unfold mac_count. simpl.
  destruct (has_mac m item) eqn:Hm; [|reflexivity].
  exfalso. apply Hne. by apply (has_mac_inj _ _ item).
Qed.

Lemma mac_count_item_same (device_mac : string) (item : Entry) :
  has_mac device_mac item = true -> mac_count device_mac [item] = 1%nat.
Proof. intros H. unfold mac_count. simpl. by rewrite H. Qed.

(** The entries of any MAC over both lists never grow in number beyond
    one: a run adds an entry of the target MAC only to a target list
    that has none, and takes one out of the other list if it has one. *)
Lemma truth_table_total (api : HuaweiCoreApi) (whitelist blacklist : list Entry)
    (mode : FilterMode) (action : FilterAction)
    (device_mac : string) (device_name : option string) (tr tr' : list event)
    (na : option bool) (whitelist' blacklist' : list Entry) (m : string) :
  truth_table api whitelist blacklist mode action device_mac device_name tr
  = (inr (na, Some whitelist', Some blacklist'), tr') ->
  (mac_count m whitelist + mac_count m blacklist <= 1)%nat ->
  (mac_count m whitelist' + mac_count m blacklist' <= 1)%nat.
Proof.
  intros H Hsum.
  apply truth_table_returns in H as (target' & other' & H).
  assert (Hsum' : (mac_count m (target_list mode whitelist blacklist)
                   + mac_count m (other_list mode whitelist blacklist) <= 1)%nat)
    by (destruct mode; simpl; lia).
  assert (Hgoal : (mac_count m target' + mac_count m other' <= 1)%nat).
  { destruct action.
    - destruct H as (_ & -> & Ht).
      destruct (decide (m = device_mac)) as [->|Hne].
      + rewrite mac_count_remove_same.
        pose proof (mac_in_count device_mac
                      (target_list mode whitelist blacklist)) as Hin.
        destruct (mac_in device_mac (target_list mode whitelist blacklist)).
        * subst target'. lia.
        * destruct Ht as (item & Hitem & ->).
          rewrite mac_count_app, (mac_count_item_same _ _ Hitem).
          destruct (mac_count device_mac (target_list mode whitelist blacklist));
            [lia | discriminate].
      + rewrite (mac_count_remove_other _ _ _ Hne).
        destruct (mac_in device_mac (target_list mode whitelist blacklist)).
        * subst target'. lia.
        * destruct Ht as (item & Hitem & ->).
          rewrite mac_count_app, (mac_count_item_other _ _ _ Hitem Hne). lia.
    - destruct H as (_ & -> & ->).
      destruct (decide (m = device_mac)) as [->|Hne].
      + rewrite mac_count_remove_same. lia.
      + rewrite (mac_count_remove_other _ _ _ Hne). lia. }
  destruct action; destruct H as (Hr & _);
    apply target_answer in Hr as (_ & Ht & Ho);
    rewrite <- Ht, <- Ho in Hgoal; destruct mode; simpl in Hgoal; lia.
Qed.

(** C5, as the claim states it, fails: entries the input already holds
    twice, or in both lists, stay. *)
Lemma duplicates_survive_counterexample :
  run (_process_access_lists quiet_router (tv_twice "5GHz")
         (Member WHITELIST) (Member REMOVE) "99:88:77:66:55:44" None)
  = (inr (Some false, Some [tv; tv], Some []), []) /\
  mac_count "11:22:33:44:55:66" [tv; tv] = 2%nat /\
  run (_process_access_lists quiet_router
         (band_state "5GHz" (VBool true) (Some [tv]) (Some [tv]))
         (Member WHITELIST) (Member REMOVE) "99:88:77:66:55:44" None)
  = (inr (Some false, Some [tv], Some [tv]), []) /\
  mac_in "11:22:33:44:55:66" [tv] = true.
Proof. repeat split. Qed.

(** C5, amended.  MACs compared as exact strings: a MAC that has at most
    one entry in each list of the input band state, and not one in both,
    has at most one entry in each returned list, and not one in both.
    The reconciler does not thin out what the input holds twice. *)
Theorem process_keeps_mac_unique
    (api : HuaweiCoreApi) (band enabled id policy : value)
    (whitelist blacklist : list Entry) (mode : FilterMode) (action : FilterAction)
    (device_mac : string) (device_name : option string) (tr tr' : list event)
    (na : option bool) (whitelist' blacklist' : list Entry) (m : string) :
  _process_access_lists api
    (State.mk band enabled (Some whitelist) (Some blacklist) id policy)
    (Member mode) (Member action) device_mac device_name tr
  = (inr (na, Some whitelist', Some blacklist'), tr') ->
  (mac_count m whitelist <= 1)%nat ->
  (mac_count m blacklist <= 1)%nat ->
  mac_count m whitelist = 0%nat \/ mac_count m blacklist = 0%nat ->
  (mac_count m whitelist' <= 1)%nat /\
  (mac_count m blacklist' <= 1)%nat /\
  (mac_count m whitelist' = 0%nat \/ mac_count m blacklist' = 0%nat).
Proof.
  rewrite process_eq_truth_table. intros H Hw Hb Hboth.
  assert (Hsum : (mac_count m whitelist' + mac_count m blacklist' <= 1)%nat).
  { apply (truth_table_total _ _ _ _ _ _ _ _ _ _ _ _ _ H). lia. }
  lia.
Qed.

Lemma process_keeps_mac_unique_witness :
  (mac_count "AA:BB:CC:DD:EE:FF" [phone] <= 1)%nat /\
  (mac_count "AA:BB:CC:DD:EE:FF" [] <= 1)%nat /\
  (mac_count "AA:BB:CC:DD:EE:FF" [phone] = 0%nat \/
   mac_count "AA:BB:CC:DD:EE:FF" [] = 0%nat).
Proof.
  apply (process_keeps_mac_unique quiet_router (VStr "5GHz") (VBool true)
           VNone VNone [] [phone] WHITELIST ADD "AA:BB:CC:DD:EE:FF" None [] []
           (Some true) [phone] [] "AA:BB:CC:DD:EE:FF").
  - reflexivity.
  - vm_compute. lia.
  - vm_compute. lia.
  - left. reflexivity.
Defined.

(** ** Arguments outside the enumerations *)

(** C6.  On a band state that carries both lists, an action outside
    {ADD, REMOVE}, whatever the mode, and a mode outside {WHITELIST,
    BLACKLIST} under ADD or REMOVE, make the reconciler raise
    InvalidActionError; it returns no triple and calls nothing. *)
Theorem process_rejects_outside_arguments :
  forall (api : HuaweiCoreApi) (band enabled id policy : value)
         (whitelist blacklist : list Entry)
         (device_mac : string) (device_name : option string) (tr : list event),
    (forall (filter_mode : arg FilterMode) (label : string),
        _process_access_lists api
          (State.mk band enabled (Some whitelist) (Some blacklist) id policy)
          filter_mode (Outside label) device_mac device_name tr
        = (inl (InvalidActionError (String.append "Unknown FilterAction: " label)),
           tr)) /\
    (forall (action : FilterAction) (label : string),
        _process_access_lists api
          (State.mk band enabled (Some whitelist) (Some blacklist) id policy)
          (Outside label) (Member action) device_mac device_name tr
        = (inl (InvalidActionError (String.append "Unknown FilterMode: " label)),
           tr)).
Proof.
  intros. split.
  - intros filter_mode label. reflexivity.
  - intros [|] label; reflexivity.
Qed.

(** ** Switching the mode and the enabled flag *)

Section SetFilterMode.

Variable FilterMode_value : FilterMode -> value.

(** C7.  With both band states fetched, [set_wlan_filter_mode] returns
    true without a write exactly when the policy of the 5GHz state
    equals the value of the wanted mode, whatever the 2.4GHz state
    holds; otherwise it makes one POST whose two halves carry the
    wanted value as policy and repeat the enabled flag, the lists, the
    identifier and the band label of their band state. *)
Theorem set_wlan_filter_mode_spec
    (api : HuaweiCoreApi) (actual_states : list State.t)
    (state_2g state_5g : State.t) (value : FilterMode) :
  wlanfilter_reply api = inr actual_states ->
  split_states actual_states = (Some state_2g, Some state_5g) ->
  ((fst (run (set_wlan_filter_mode FilterMode_value api value)) = inr true /\
    posts (snd (run (set_wlan_filter_mode FilterMode_value api value))) = [])
   <-> py_eq (State.MacFilterPolicy state_5g) (FilterMode_value value) = true) /\
  (py_eq (State.MacFilterPolicy state_5g) (FilterMode_value value) = false ->
   exists command,
     run (set_wlan_filter_mode FilterMode_value api value)
     = (post_outcome api,
        [EvGet _URL_WLAN_FILTER; EvPost _URL_WLAN_FILTER command]) /\
     Config.MacFilterPolicy (config2g command) = FilterMode_value value /\
     Config.MacFilterPolicy (config5g command) = FilterMode_value value /\
     Config.MACAddressControlEnabled (config2g command)
     = State.MACAddressControlEnabled state_2g /\
     Config.MACAddressControlEnabled (config5g command)
     = State.MACAddressControlEnabled state_5g /\
     copies_lists (config2g command) state_2g /\
     copies_lists (config5g command) state_5g).
Proof.
  intros Hreply Hsplit.
  unfold set_wlan_filter_mode, run, bind.
  rewrite get_filter_states_run, Hreply, Hsplit.
  destruct (py_eq (State.MacFilterPolicy state_5g) (FilterMode_value value)).
  - split; [|discriminate]. split; [reflexivity|]. intros _. split; reflexivity.
  - unfold core_post, post_outcome, ret.
    destruct (post_reply api); cbn.
    all: split; [split; [intros [_ Hposts]; discriminate Hposts | discriminate]|].
    all: intros _; eexists; split; [reflexivity|]; repeat split.
Qed.

End SetFilterMode.

Lemma is_bool_true_iff (v : value) : is_bool_true v = true <-> v = VBool true.
Proof.
  destruct v as [|[|]| | | |]; simpl; split; try discriminate; reflexivity.
Qed.

(** C8.  With both band states fetched, the combined state of
    [_set_wlan_filter_enabled] is true exactly when both enabled flags are
    the boolean true; when it equals the wanted value the call returns
    true without a write; otherwise it makes one POST whose two halves
    carry the wanted value as enabled flag and repeat the policy, the
    lists, the identifier and the band label of their band state. *)
Theorem set_wlan_filter_enabled_spec
    (api : HuaweiCoreApi) (actual_states : list State.t)
    (state_2g state_5g : State.t) (value : bool) :
  wlanfilter_reply api = inr actual_states ->
  split_states actual_states = (Some state_2g, Some state_5g) ->
  (combined_enabled state_2g state_5g = true <->
   State.MACAddressControlEnabled state_2g = VBool true /\
   State.MACAddressControlEnabled state_5g = VBool true) /\
  (combined_enabled state_2g state_5g = value ->
   run (_set_wlan_filter_enabled api value) = (inr true, [EvGet _URL_WLAN_FILTER])) /\
  (combined_enabled state_2g state_5g <> value ->
   exists command,
     run (_set_wlan_filter_enabled api value)
     = (post_outcome api,
        [EvGet _URL_WLAN_FILTER; EvPost _URL_WLAN_FILTER command]) /\
     Config.MACAddressControlEnabled (config2g command) = VBool value /\
     Config.MACAddressControlEnabled (config5g command) = VBool value /\
     Config.MacFilterPolicy (config2g command) = State.MacFilterPolicy state_2g /\
     Config.MacFilterPolicy (config5g command) = State.MacFilterPolicy state_5g /\
     copies_lists (config2g command) state_2g /\
     copies_lists (config5g command) state_5g).
Proof.
  intros Hreply Hsplit. split.
  { unfold combined_enabled. rewrite andb_true_iff, !is_bool_true_iff. tauto. }
  unfold _set_wlan_filter_enabled, run, bind.
  rewrite get_filter_states_run, Hreply, Hsplit.
  fold (combined_enabled state_2g state_5g).
  destruct (Bool.eqb (combined_enabled state_2g state_5g) value) eqn:E.
  - apply Bool.eqb_prop in E. split; [reflexivity | contradiction].
  - apply Bool.eqb_false_iff in E. split; [contradiction|].
    intros _. unfold core_post, post_outcome, ret.
    destruct (post_reply api); cbn; eexists; (split; [reflexivity|]); repeat split.
Qed.

Lemma set_wlan_filter_mode_spec_witness :
  ((fst (run (set_wlan_filter_mode numbered (router_of states_mixed) WHITELIST))
    = inr true /\
    posts (snd (run (set_wlan_filter_mode numbered (router_of states_mixed)
                       WHITELIST))) = [])
   <-> py_eq (State.MacFilterPolicy mixed_5g) (numbered WHITELIST) = true) /\
  (py_eq (State.MacFilterPolicy mixed_5g) (numbered WHITELIST) = false ->
   exists command,
     run (set_wlan_filter_mode numbered (router_of states_mixed) WHITELIST)
     = (post_outcome (router_of states_mixed),
        [EvGet _URL_WLAN_FILTER; EvPost _URL_WLAN_FILTER command]) /\
     Config.MacFilterPolicy (config2g command) = numbered WHITELIST /\
     Config.MacFilterPolicy (config5g command) = numbered WHITELIST /\
     Config.MACAddressControlEnabled (config2g command)
     = State.MACAddressControlEnabled mixed_2g /\
     Config.MACAddressControlEnabled (config5g command)
     = State.MACAddressControlEnabled mixed_5g /\
     copies_lists (config2g command) mixed_2g /\
     copies_lists (config5g command) mixed_5g).
Proof.
  exact (set_wlan_filter_mode_spec numbered (router_of states_mixed) states_mixed
           mixed_2g mixed_5g WHITELIST eq_refl eq_refl).
Defined.

Lemma set_wlan_filter_enabled_spec_witness :
  (combined_enabled mixed_2g mixed_5g = true <->
   State.MACAddressControlEnabled mixed_2g = VBool true /\
   State.MACAddressControlEnabled mixed_5g = VBool true) /\
  (combined_enabled mixed_2g mixed_5g = true ->
   run (_set_wlan_filter_enabled (router_of states_mixed) true)
   = (inr true, [EvGet _URL_WLAN_FILTER])) /\
  (combined_enabled mixed_2g mixed_5g <> true ->
   exists command,
     run (_set_wlan_filter_enabled (router_of states_mixed) true)
     = (post_outcome (router_of states_mixed),
        [EvGet _URL_WLAN_FILTER; EvPost _URL_WLAN_FILTER command]) /\
     Config.MACAddressControlEnabled (config2g command) = VBool true /\
     Config.MACAddressControlEnabled (config5g command) = VBool true /\
     Config.MacFilterPolicy (config2g command) = State.MacFilterPolicy mixed_2g /\
     Config.MacFilterPolicy (config5g command) = State.MacFilterPolicy mixed_5g /\
     copies_lists (config2g command) mixed_2g /\
     copies_lists (config5g command) mixed_5g).
Proof.
  exact (set_wlan_filter_enabled_spec (router_of states_mixed) states_mixed
           mixed_2g mixed_5g true eq_refl eq_refl).
Defined.

(** ** Name resolution *)

Lemma append_empty_r (s : string) : String.append s "" = s.
Proof.
  induction s as [|c s IH]; [reflexivity|].
  change (String c (String.append s "") = String c s). by rewrite IH.
Qed.

Lemma placeholder_contains (device_mac : string) :
  contains (String.append "Unknown device " device_mac) device_mac.
Proof. exists "Unknown device ", "". by rewrite append_empty_r. Qed.

Lemma resolves_name_iff (state : State.t)
    (filter_mode : arg FilterMode) (filter_action : arg FilterAction)
    (device_mac : string) (device_name : option string) :
  resolves_name state filter_mode filter_action device_mac device_name = true <->
  exists whitelist blacklist mode,
    State.WMACAddresses state = Some whitelist /\
    State.BMACAddresses state = Some blacklist /\
    filter_mode = Member mode /\ filter_action = Member ADD /\
    mac_in device_mac whitelist = false /\
    mac_in device_mac blacklist = false /\
    name_truthy device_name = false.
Proof.
  unfold resolves_name. split.
  - destruct (State.WMACAddresses state) as [whitelist|]; [|discriminate].
    destruct (State.BMACAddresses state) as [blacklist|]; [|discriminate].
    destruct filter_mode as [mode|]; [|discriminate].
    destruct filter_action as [[|]|]; try discriminate.
    rewrite !andb_true_iff, !negb_true_iff. intros [[? ?] ?].
    exists whitelist, blacklist, mode. auto 10.
  - intros (whitelist & blacklist & mode & -> & -> & -> & -> & -> & -> & ->).
    reflexivity.
Qed.

Lemma get_access_list_item_resolved (api : HuaweiCoreApi) (device_mac : string)
    (device_name : option string) (known_devices : list HuaweiClientDevice)
    (tr : list event) :
  name_truthy device_name = false ->
  hostinfo_reply api = inr known_devices ->
  get_access_list_item api device_mac device_name tr
  = (inr (make_item device_mac
            match List.find (fun device =>
                               String.eqb (mac_address device) device_mac)
                            known_devices with
            | Some device => actual_name device
            | None => VStr (String.append "Unknown device " device_mac)
            end),
     tr ++ [EvGet _URL_HOST_INFO]).
Proof.
  intros Hname Hreply. unfold get_access_list_item.
  destruct device_name as [name|]; [rewrite Hname|].
  all: unfold bind, get_known_devices, core_get_host_info, ret; rewrite Hreply.
  all: by destruct (List.find _ known_devices).
Qed.

Lemma supplied_name_None (device_name : option string) :
  supplied_name device_name = None <->
  device_name = None \/ device_name = Some "".
Proof.
  destruct device_name as [[|c name]|]; cbn; split; auto; try discriminate.
  all: by intros [[=]|[=]].
Qed.

Lemma looks_up_resolves_name (state : State.t)
    (filter_mode : arg FilterMode) (filter_action : arg FilterAction)
    (device_mac : string) (device_name : option string) :
  looks_up state filter_mode filter_action device_mac device_name
  = resolves_name state filter_mode filter_action device_mac device_name.
Proof.
  unfold looks_up, resolves_name.
  destruct (State.WMACAddresses state) as [whitelist|]; [|reflexivity].
  destruct (State.BMACAddresses state) as [blacklist|]; [|reflexivity].
  destruct filter_mode as [mode|]; [|reflexivity].
  destruct filter_action as [[|]|]; try reflexivity.
  destruct device_name as [[|c name]|]; cbn [supplied_name name_truthy negb].
  all: by rewrite ?andb_true_r, ?andb_false_r.
Qed.

(** C9, as the claim states it, fails: a caller that supplies the empty
    string has supplied a name, and the known devices are read all the
    same; the new entry bears the name they report. *)
Lemma empty_name_is_looked_up_counterexample :
  run (_process_access_lists
         {| wlanfilter_reply := inr [];
            hostinfo_reply := inr [mkDevice "AA:BB:CC:DD:EE:FF" (VStr "phone")];
            post_reply := None |}
         (State.mk (VStr "5GHz") (VBool true) (Some []) (Some []) VNone VNone)
         (Member WHITELIST) (Member ADD) "AA:BB:CC:DD:EE:FF" (Some ""))
  = (inr (Some true, Some [phone], Some []), [EvGet _URL_HOST_INFO]).
Proof. reflexivity. Qed.

(** C9, amended.  Every call of the reconciler makes at most one
    known-devices lookup, and makes one exactly when both lists are
    there, the action is ADD, the MAC is in neither list and the name is
    absent or the empty string: not under a name that is not empty, not
    when an entry is moved, not when the MAC is already in the target
    list.  In that case the new entry binds "MACAddress" to the MAC and
    "HostName" to the reported name of the first known device that has
    the MAC, and to "Unknown device " followed by the MAC, a label that
    contains it, when no known device has it. *)
Theorem name_resolution_is_lazy :
  forall (api : HuaweiCoreApi) (state : State.t)
         (filter_mode : arg FilterMode) (filter_action : arg FilterAction)
         (device_mac : string) (device_name : option string) (tr : list event),
    (snd (_process_access_lists api state filter_mode filter_action
            device_mac device_name tr)
     = tr ++ (if looks_up state filter_mode filter_action device_mac device_name
              then [EvGet _URL_HOST_INFO] else []) /\
     host_info_gets (snd (run (_process_access_lists api state filter_mode
                                 filter_action device_mac device_name)))
     = if looks_up state filter_mode filter_action device_mac device_name
       then 1%nat else 0%nat) /\
    (looks_up state filter_mode filter_action device_mac device_name = true <->
     exists whitelist blacklist mode,
       State.WMACAddresses state = Some whitelist /\
       State.BMACAddresses state = Some blacklist /\
       filter_mode = Member mode /\ filter_action = Member ADD /\
       mac_in device_mac whitelist = false /\
       mac_in device_mac blacklist = false /\
       (device_name = None \/ device_name = Some "")) /\
    (forall (whitelist blacklist : list Entry) (mode : FilterMode)
            (known_devices : list HuaweiClientDevice),
        State.WMACAddresses state = Some whitelist ->
        State.BMACAddresses state = Some blacklist ->
        mac_in device_mac whitelist = false ->
        mac_in device_mac blacklist = false ->
        device_name = None \/ device_name = Some "" ->
        hostinfo_reply api = inr known_devices ->
        fst (_process_access_lists api state (Member mode) (Member ADD)
               device_mac device_name tr)
        = inr (answer mode true
                 (target_list mode whitelist blacklist ++
                  [[("MACAddress", VStr device_mac);
                    ("HostName",
                     match reported_name device_mac known_devices with
                     | Some name => name
                     | None => VStr (String.append "Unknown device " device_mac)
                     end)]])
                 (other_list mode whitelist blacklist))) /\
    contains (String.append "Unknown device " device_mac) device_mac.
Proof.
  intros api state filter_mode filter_action device_mac device_name tr.
  split; [split|split; [|split; [|apply placeholder_contains]]].
  - by rewrite process_access_lists_frame, looks_up_resolves_name.
  - unfold run. rewrite process_access_lists_frame, looks_up_resolves_name.
    cbn [snd app]. by destruct (resolves_name _ _ _ _ _).
  - rewrite looks_up_resolves_name, resolves_name_iff.
    split; intros (whitelist & blacklist & mode & Hw & Hb & Hm & Ha & Hinw & Hinb & Hn);
      exists whitelist, blacklist, mode; repeat (split; [assumption|]).
    + apply supplied_name_None.
      by destruct device_name as [[|c name]|].
    + by destruct Hn as [-> | ->].
  - intros whitelist blacklist mode known_devices Hw Hb Hinw Hinb Hname Hreply.
    destruct state as [band enabled w b id policy]. simpl in Hw, Hb. subst w b.
    rewrite process_eq_reconciled. unfold reconciled.
    assert (Ht : mac_in device_mac (target_list mode whitelist blacklist) = false)
      by (by destruct mode).
    assert (Ho : first_entry device_mac (other_list mode whitelist blacklist) = None).
    { assert (Hin : mac_in device_mac (other_list mode whitelist blacklist) = false)
        by (by destruct mode).
      rewrite first_entry_mac_in in Hin. apply bool_decide_eq_false in Hin.
      destruct (first_entry _ _); [exfalso; apply Hin; eauto | reflexivity]. }
    rewrite Ht, Ho. unfold new_entry.
    apply supplied_name_None in Hname. by rewrite Hname, Hreply.
Qed.

(** ** A MAC in both lists *)

Lemma remove_mac_length (device_mac : string) (l : list Entry) :
  mac_in device_mac l = true ->
  S (length (remove_mac device_mac l)) = length l.
Proof.
  unfold mac_in. induction l as [|e l IH]; [discriminate|]. simpl.
  destruct (has_mac device_mac e); [reflexivity|].
  intros H. simpl. by rewrite IH.
Qed.

(** C10.  When the whitelist and the blacklist both hold the target MAC,
    ADD answers need_action = false and hands back the target list as it
    was, but the other list comes back without its first entry of the
    MAC: one entry shorter, hence changed. *)
Theorem add_in_both_lists_drops_other
    (api : HuaweiCoreApi) (band enabled id policy : value)
    (whitelist blacklist : list Entry) (mode : FilterMode)
    (device_mac : string) (device_name : option string) (tr : list event) :
  mac_in device_mac whitelist = true ->
  mac_in device_mac blacklist = true ->
  exists (j : nat) (entry : Entry),
    other_list mode whitelist blacklist !! j = Some entry /\
    dict_get entry "MACAddress" = VStr device_mac /\
    find_index device_mac (other_list mode whitelist blacklist) 0 = Some j /\
    _process_access_lists api
      (State.mk band enabled (Some whitelist) (Some blacklist) id policy)
      (Member mode) (Member ADD) device_mac device_name tr
    = (inr (answer mode false (target_list mode whitelist blacklist)
              (delete j (other_list mode whitelist blacklist))), tr) /\
    S (length (delete j (other_list mode whitelist blacklist)))
    = length (other_list mode whitelist blacklist) /\
    delete j (other_list mode whitelist blacklist)
    <> other_list mode whitelist blacklist.
Proof.
  intros Hw Hb.
  assert (Ht : mac_in device_mac (target_list mode whitelist blacklist) = true)
    by (by destruct mode).
  assert (Ho : mac_in device_mac (other_list mode whitelist blacklist) = true)
    by (by destruct mode).
  pose proof Ho as Hidx. rewrite mac_in_find_index in Hidx.
  apply bool_decide_eq_true in Hidx as [j Hj].
  pose proof (find_index_Some _ _ _ Hj) as (_ & _ & Hdel & entry & Hentry & Hmac).
  exists j, entry. split; [exact Hentry|]. split; [by apply has_mac_eq|].
  split; [exact Hj|]. split.
  - rewrite process_eq_truth_table. unfold truth_table. by rewrite Ht, Hdel.
  - rewrite Hdel. pose proof (remove_mac_length _ _ Ho) as Hlen.
    split; [exact Hlen|]. intros Heq. rewrite Heq in Hlen. lia.
Qed.

Lemma add_in_both_lists_drops_other_witness :
  exists (j : nat) (entry : Entry),
    [tv; phone_as_guest] !! j = Some entry /\
    dict_get entry "MACAddress" = VStr "AA:BB:CC:DD:EE:FF" /\
    find_index "AA:BB:CC:DD:EE:FF" [tv; phone_as_guest] 0 = Some j /\
    _process_access_lists quiet_router
      (State.mk (VStr "5GHz") (VBool true) (Some [phone])
                (Some [tv; phone_as_guest]) VNone VNone)
      (Member WHITELIST) (Member ADD) "AA:BB:CC:DD:EE:FF" None []
    = (inr (Some false, Some [phone], Some (delete j [tv; phone_as_guest])), []) /\
    S (length (delete j [tv; phone_as_guest])) = length [tv; phone_as_guest] /\
    delete j [tv; phone_as_guest] <> [tv; phone_as_guest].
Proof.
  exact (add_in_both_lists_drops_other quiet_router (VStr "5GHz") (VBool true)
           VNone VNone [phone] [tv; phone_as_guest] WHITELIST
           "AA:BB:CC:DD:EE:FF" None [] eq_refl eq_refl).
Defined.

(** ** A missing band *)

(** The three operations answer false after the one GET when the reply
    lacks a band; the policy and the flags are not looked at. *)
Lemma missing_band_is_false (FilterMode_value : FilterMode -> value)
    (api : HuaweiCoreApi) (actual_states : list State.t)
    (filter_mode : arg FilterMode) (filter_action : arg FilterAction)
    (device_mac : string) (device_name : option string)
    (mode : FilterMode) (value : bool) :
  wlanfilter_reply api = inr actual_states ->
  fst (split_states actual_states) = None \/
  snd (split_states actual_states) = None ->
  run (apply_wlan_filter api filter_mode filter_action device_mac device_name)
  = (inr false, [EvGet _URL_WLAN_FILTER]) /\
  run (_set_wlan_filter_enabled api value) = (inr false, [EvGet _URL_WLAN_FILTER]) /\
  run (set_wlan_filter_mode FilterMode_value api mode)
  = (inr false, [EvGet _URL_WLAN_FILTER]).
Proof.
  intros Hreply Hmissing.
  unfold apply_wlan_filter, _set_wlan_filter_enabled, set_wlan_filter_mode,
    run, bind.
  rewrite !get_filter_states_run, Hreply.
  destruct (split_states actual_states) as [[state_2g|] [state_5g|]];
    simpl in Hmissing; destruct Hmissing; try discriminate; repeat split.
Qed.

(** * Further properties of the filter operations *)

(** ** The band-state fetcher *)

Lemma py_eq_label (v : value) (label : string) :
  py_eq v (VStr label) = true <-> v = VStr label.
Proof.
  destruct v; simpl; try (split; discriminate).
  rewrite String.eqb_eq. split; [intros -> | intros [= ->]]; reflexivity.
Qed.

Lemma last_with_snoc (test : State.t -> bool) (l : list State.t) (x : State.t) :
  last_with test (l ++ [x]) = if test x then Some x else last_with test l.
Proof. unfold last_with. by rewrite fold_left_app. Qed.

Lemma last_with_Some (test : State.t -> bool) (l : list State.t) (s : State.t) :
  last_with test l = Some s <->
  exists pre post, l = pre ++ s :: post /\ test s = true /\
                   forall x, x ∈ post -> test x = false.
Proof.
  revert s. induction l as [|x l IH] using rev_ind; intros s.
  - split; [discriminate|]. intros (pre & post & H & _). by destruct pre.
  - rewrite last_with_snoc. destruct (test x) eqn:Hx.
    + split.
      * intros [= <-]. exists l, []. repeat split; [exact Hx|].
        intros y Hy. inversion Hy.
      * intros (pre & post & Heq & Hs & Hpost).
        destruct post as [|y post _] using rev_ind.
        { apply app_inj_tail in Heq as [_ ->]. reflexivity. }
        rewrite app_comm_cons, app_assoc in Heq.
        apply app_inj_tail in Heq as [_ ->].
        rewrite Hpost in Hx; [discriminate|]. apply elem_of_app. right. left.
    + rewrite IH. split.
      * intros (pre & post & -> & Hs & Hpost). exists pre, (post ++ [x]).
        split; [by rewrite <- app_assoc|]. split; [exact Hs|].
        intros y [Hy|Hy]%elem_of_app; [by apply Hpost|].
        apply list_elem_of_singleton in Hy as ->. exact Hx.
      * intros (pre & post & Heq & Hs & Hpost).
        destruct post as [|y post _] using rev_ind.
        { apply app_inj_tail in Heq as [_ ->]. congruence. }
        rewrite app_comm_cons, app_assoc in Heq.
        apply app_inj_tail in Heq as [-> ->].
        exists pre, post. split; [reflexivity|]. split; [exact Hs|].
        intros z Hz. apply Hpost. apply elem_of_app. by left.
Qed.

Lemma last_with_None (test : State.t -> bool) (l : list State.t) :
  last_with test l = None <-> forall x, x ∈ l -> test x = false.
Proof.
  induction l as [|x l IH] using rev_ind.
  - split; [intros _ y Hy; inversion Hy | reflexivity].
  - rewrite last_with_snoc. destruct (test x) eqn:Hx.
    + split; [discriminate|]. intros H. rewrite H in Hx; [discriminate|].
      apply elem_of_app. right. left.
    + rewrite IH. split.
      * intros H y [Hy|Hy]%elem_of_app; [by apply H|].
        apply list_elem_of_singleton in Hy as ->. exact Hx.
      * intros H y Hy. apply H. apply elem_of_app. by left.
Qed.

Lemma split_states_last_with (actual_states : list State.t) :
  split_states actual_states
  = (last_with (is_band "2.4GHz") actual_states,
     last_with (is_band "5GHz") actual_states).
Proof.
  induction actual_states as [|x l IH] using rev_ind; [reflexivity|].
  rewrite !last_with_snoc. unfold split_states in *. rewrite fold_left_app, IH.
  cbn [fold_left fst snd]. unfold is_band.
  destruct (py_eq (State.FrequencyBand x) (VStr "2.4GHz")) eqn:H2.
  - apply py_eq_label in H2. rewrite H2. reflexivity.
  - by destruct (py_eq (State.FrequencyBand x) (VStr "5GHz")).
Qed.

Lemma is_band_false (label : string) (state : State.t) :
  is_band label state = false <-> State.FrequencyBand state <> VStr label.
Proof.
  unfold is_band. rewrite <- py_eq_label.
  destruct (py_eq (State.FrequencyBand state) (VStr label)); split;
    congruence.
Qed.

Lemma last_with_labelled (label : string) (actual_states : list State.t) :
  last_labelled label actual_states (last_with (is_band label) actual_states).
Proof.
  split.
  - intros state. rewrite last_with_Some. unfold is_band at 1.
    setoid_rewrite py_eq_label. by setoid_rewrite is_band_false.
  - rewrite last_with_None. by setoid_rewrite is_band_false.
Qed.

(** X1.  [_get_filter_states] makes one GET and hands back, for each of
    the labels "2.4GHz" and "5GHz", the last record of the reply whose
    FrequencyBand is that string, and nothing for a label that no record
    bears; records with any other label, or none, are passed over. *)
Theorem get_filter_states_last_record :
  forall (actual_states : list State.t)
         (hosts : exn + list HuaweiClientDevice) (post : option exn),
  exists slot_2g slot_5g,
    run (_get_filter_states (mkApi (inr actual_states) hosts post))
    = (inr (slot_2g, slot_5g), [EvGet _URL_WLAN_FILTER]) /\
    last_labelled "2.4GHz" actual_states slot_2g /\
    last_labelled "5GHz" actual_states slot_5g.
Proof.
  intros actual_states hosts post.
  exists (last_with (is_band "2.4GHz") actual_states),
         (last_with (is_band "5GHz") actual_states).
  split; [|split; apply last_with_labelled].
  unfold run. rewrite get_filter_states_run. cbn [wlanfilter_reply].
  by rewrite split_states_last_with.
Qed.

(** ** Runs of [apply_wlan_filter] *)

(** The run of [apply_wlan_filter] once both bands are there, switched
    on, and reconciled to triples. *)
Lemma apply_run (api : HuaweiCoreApi) (actual_states : list State.t)
    (state_2g state_5g : State.t) (r2g r5g : triple)
    (filter_mode : arg FilterMode) (filter_action : arg FilterAction)
    (device_mac : string) (device_name : option string) :
  wlanfilter_reply api = inr actual_states ->
  split_states actual_states = (Some state_2g, Some state_5g) ->
  verify_state state_2g = true -> verify_state state_5g = true ->
  fst (run (_process_access_lists api state_2g filter_mode filter_action
              device_mac device_name)) = inr r2g ->
  fst (run (_process_access_lists api state_5g filter_mode filter_action
              device_mac device_name)) = inr r5g ->
  any_none r2g = false -> any_none r5g = false ->
  run (apply_wlan_filter api filter_mode filter_action device_mac device_name)
  = if negb (need_action r2g) && negb (need_action r5g)
    then (inr true,
          EvGet _URL_WLAN_FILTER
            :: lookup_events state_2g filter_mode filter_action device_mac device_name
            ++ lookup_events state_5g filter_mode filter_action device_mac device_name)
    else (post_outcome api,
          EvGet _URL_WLAN_FILTER
            :: (lookup_events state_2g filter_mode filter_action device_mac device_name
                ++ lookup_events state_5g filter_mode filter_action device_mac
                     device_name)
            ++ [EvPost _URL_WLAN_FILTER
                  {| config2g := {|
                       Config.MACAddressControlEnabled := VBool true;
                       Config.WMacFilters := snd (fst r2g);
                       Config.ID := State.ID state_2g;
                       Config.MacFilterPolicy := State.MacFilterPolicy state_2g;
                       Config.BMacFilters := snd r2g;
                       Config.FrequencyBand := State.FrequencyBand state_2g |};
                     config5g := {|
                       Config.MACAddressControlEnabled := VBool true;
                       Config.WMacFilters := snd (fst r5g);
                       Config.ID := State.ID state_5g;
                       Config.MacFilterPolicy := State.MacFilterPolicy state_5g;
                       Config.BMacFilters := snd r5g;
                       Config.FrequencyBand := State.FrequencyBand state_5g |} |}]).
Proof.
  intros Hreply Hsplit Hv2 Hv5 H2 H5 Hn2 Hn5.
  unfold apply_wlan_filter, run, bind.
  rewrite get_filter_states_run, Hreply, Hsplit, Hv2, Hv5. cbn [negb orb].
  rewrite process_access_lists_frame, H2, Hn2.
  rewrite process_access_lists_frame, H5, Hn5.
  fold (lookup_events state_2g filter_mode filter_action device_mac device_name).
  fold (lookup_events state_5g filter_mode filter_action device_mac device_name).
  destruct (negb (need_action r2g) && negb (need_action r5g)).
  - unfold ret. rewrite <- ?app_assoc. reflexivity.
  - unfold core_post, post_outcome, ret. rewrite <- ?app_assoc.
    by destruct (post_reply api).
Qed.

(** X2.  With both bands fetched, switched on and reconciled, a need for
    action on either band makes [apply_wlan_filter] post once, after its
    GETs: both halves of the command are written, also the half of a
    band that needed nothing, each with the enabled flag true, the lists
    its reconciliation returned and the identifier, policy and label of
    its band state; the call answers true unless the POST raises. *)
Theorem apply_wlan_filter_writes_both_bands
    (api : HuaweiCoreApi) (actual_states : list State.t)
    (state_2g state_5g : State.t) (r2g r5g : triple)
    (filter_mode : arg FilterMode) (filter_action : arg FilterAction)
    (device_mac : string) (device_name : option string) :
  wlanfilter_reply api = inr actual_states ->
  split_states actual_states = (Some state_2g, Some state_5g) ->
  verify_state state_2g = true -> verify_state state_5g = true ->
  fst (run (_process_access_lists api state_2g filter_mode filter_action
              device_mac device_name)) = inr r2g ->
  fst (run (_process_access_lists api state_5g filter_mode filter_action
              device_mac device_name)) = inr r5g ->
  any_none r2g = false -> any_none r5g = false ->
  need_action r2g = true \/ need_action r5g = true ->
  exists command,
    run (apply_wlan_filter api filter_mode filter_action device_mac device_name)
    = (post_outcome api,
       EvGet _URL_WLAN_FILTER
         :: (lookup_events state_2g filter_mode filter_action device_mac device_name
             ++ lookup_events state_5g filter_mode filter_action device_mac
                  device_name)
         ++ [EvPost _URL_WLAN_FILTER command]) /\
    carries (config2g command) state_2g r2g /\
    carries (config5g command) state_5g r5g.
Proof.
  intros Hreply Hsplit Hv2 Hv5 H2 H5 Hn2 Hn5 Hneed.
  rewrite (apply_run _ _ _ _ _ _ _ _ _ _ Hreply Hsplit Hv2 Hv5 H2 H5 Hn2 Hn5).
  assert (Hb : negb (need_action r2g) && negb (need_action r5g) = false).
  { destruct Hneed as [-> | ->]; [reflexivity | apply andb_false_r]. }
  rewrite Hb. eexists. split; [reflexivity|]. by split.
Qed.

Lemma apply_wlan_filter_writes_both_bands_witness :
  exists command,
    run (apply_wlan_filter (router_of states_tv_on_2g) (Member WHITELIST)
           (Member ADD) "11:22:33:44:55:66" (Some "tv"))
    = (post_outcome (router_of states_tv_on_2g),
       EvGet _URL_WLAN_FILTER
         :: (lookup_events (tv_once "2.4GHz") (Member WHITELIST) (Member ADD)
               "11:22:33:44:55:66" (Some "tv")
             ++ lookup_events (tv_none "5GHz") (Member WHITELIST) (Member ADD)
                  "11:22:33:44:55:66" (Some "tv"))
         ++ [EvPost _URL_WLAN_FILTER command]) /\
    carries (config2g command) (tv_once "2.4GHz") (Some false, Some [tv], Some []) /\
    carries (config5g command) (tv_none "5GHz") (Some true, Some [tv], Some []).
Proof.
  apply (apply_wlan_filter_writes_both_bands (router_of states_tv_on_2g)
           states_tv_on_2g (tv_once "2.4GHz") (tv_none "5GHz")
           (Some false, Some [tv], Some []) (Some true, Some [tv], Some []));
    try reflexivity.
  right. reflexivity.
Defined.

(** ** The calls of an operation *)

Lemma filter_calls_intro (lookups write : list event) :
  (length lookups <= 2)%nat ->
  Forall (fun ev => ev = EvGet _URL_HOST_INFO) lookups ->
  write = [] \/ (exists command, write = [EvPost _URL_WLAN_FILTER command]) ->
  filter_calls (EvGet _URL_WLAN_FILTER :: lookups ++ write).
Proof. intros. exists lookups, write. auto. Qed.

Ltac calls_shape :=
  first
    [ apply (filter_calls_intro [] [])
    | apply (filter_calls_intro [EvGet _URL_HOST_INFO] [])
    | apply (filter_calls_intro [EvGet _URL_HOST_INFO; EvGet _URL_HOST_INFO] [])
    | refine (filter_calls_intro [] [EvPost _URL_WLAN_FILTER _] _ _ _)
    | refine (filter_calls_intro [EvGet _URL_HOST_INFO]
                [EvPost _URL_WLAN_FILTER _] _ _ _)
    | refine (filter_calls_intro [EvGet _URL_HOST_INFO; EvGet _URL_HOST_INFO]
                [EvPost _URL_WLAN_FILTER _] _ _ _) ];
  [ simpl; lia
  | repeat constructor
  | first [ left; reflexivity | right; eexists; reflexivity ] ].

Ltac calls_leaf :=
  split; [calls_shape | first [ intros _; reflexivity | intros H; discriminate H ]].

Lemma apply_wlan_filter_calls (api : HuaweiCoreApi)
    (filter_mode : arg FilterMode) (filter_action : arg FilterAction)
    (device_mac : string) (device_name : option string) :
  filter_calls (snd (run (apply_wlan_filter api filter_mode filter_action
                            device_mac device_name))) /\
  (fst (run (apply_wlan_filter api filter_mode filter_action
               device_mac device_name)) = inr false ->
   posts (snd (run (apply_wlan_filter api filter_mode filter_action
                      device_mac device_name))) = []).
Proof.
  unfold apply_wlan_filter, run, bind. rewrite get_filter_states_run.
  destruct (wlanfilter_reply api) as [e|actual_states]; [calls_leaf|].
  destruct (split_states actual_states) as [[state_2g|] [state_5g|]];
    try calls_leaf.
  destruct (verify_state state_2g); [|calls_leaf].
  destruct (verify_state state_5g); [|calls_leaf]. cbn [negb orb].
  rewrite process_access_lists_frame.
  destruct (fst (run (_process_access_lists api state_2g filter_mode
                        filter_action device_mac device_name))) as [e2|r2g];
    destruct (resolves_name state_2g filter_mode filter_action device_mac
                device_name);
    try calls_leaf.
  all: destruct (any_none r2g); [calls_leaf|].
  all: rewrite process_access_lists_frame.
  all: destruct (fst (run (_process_access_lists api state_5g filter_mode
                             filter_action device_mac device_name))) as [e5|r5g];
    destruct (resolves_name state_5g filter_mode filter_action device_mac
                device_name);
    try calls_leaf.
  all: destruct (any_none r5g); [calls_leaf|].
  all: destruct (negb (need_action r2g) && negb (need_action r5g)); [calls_leaf|].
  all: unfold core_post; destruct (post_reply api); calls_leaf.
Qed.

Lemma set_wlan_filter_enabled_calls (api : HuaweiCoreApi) (value : bool) :
  filter_calls (snd (run (_set_wlan_filter_enabled api value))) /\
  (fst (run (_set_wlan_filter_enabled api value)) = inr false ->
   posts (snd (run (_set_wlan_filter_enabled api value))) = []).
Proof.
  unfold _set_wlan_filter_enabled, run, bind. rewrite get_filter_states_run.
  destruct (wlanfilter_reply api) as [e|actual_states]; [calls_leaf|].
  destruct (split_states actual_states) as [[state_2g|] [state_5g|]];
    try calls_leaf.
  destruct (Bool.eqb _ value); [calls_leaf|].
  unfold core_post; destruct (post_reply api); calls_leaf.
Qed.

Lemma set_wlan_filter_mode_calls (FilterMode_value : FilterMode -> value)
    (api : HuaweiCoreApi) (value : FilterMode) :
  filter_calls (snd (run (set_wlan_filter_mode FilterMode_value api value))) /\
  (fst (run (set_wlan_filter_mode FilterMode_value api value)) = inr false ->
   posts (snd (run (set_wlan_filter_mode FilterMode_value api value))) = []).
Proof.
  unfold set_wlan_filter_mode, run, bind. rewrite get_filter_states_run.
  destruct (wlanfilter_reply api) as [e|actual_states]; [calls_leaf|].
  destruct (split_states actual_states) as [[state_2g|] [state_5g|]];
    try calls_leaf.
  destruct (py_eq _ (FilterMode_value value)); [calls_leaf|].
  unfold core_post; destruct (post_reply api); calls_leaf.
Qed.

(** X3.  Whatever the router answers and whatever the arguments, each of
    the three filter operations first GETs the band states, then reads
    the known devices at most twice, and POSTs at most once, as its last
    call and to the filter endpoint; an operation that answers false has
    posted nothing. *)
Theorem filter_operations_post_at_most_once :
  forall (FilterMode_value : FilterMode -> value) (api : HuaweiCoreApi)
         (filter_mode : arg FilterMode) (filter_action : arg FilterAction)
         (device_mac : string) (device_name : option string)
         (mode : FilterMode) (enabled : bool),
    (filter_calls (snd (run (apply_wlan_filter api filter_mode filter_action
                               device_mac device_name))) /\
     (fst (run (apply_wlan_filter api filter_mode filter_action
                  device_mac device_name)) = inr false ->
      posts (snd (run (apply_wlan_filter api filter_mode filter_action
                         device_mac device_name))) = [])) /\
    (filter_calls (snd (run (_set_wlan_filter_enabled api enabled))) /\
     (fst (run (_set_wlan_filter_enabled api enabled)) = inr false ->
      posts (snd (run (_set_wlan_filter_enabled api enabled))) = [])) /\
    (filter_calls (snd (run (set_wlan_filter_mode FilterMode_value api mode))) /\
     (fst (run (set_wlan_filter_mode FilterMode_value api mode)) = inr false ->
      posts (snd (run (set_wlan_filter_mode FilterMode_value api mode))) = [])).
Proof.
  intros. split; [apply apply_wlan_filter_calls|].
  split; [apply set_wlan_filter_enabled_calls | apply set_wlan_filter_mode_calls].
Qed.

(** ** What a run leaves alone and what it does to the target MAC *)

Lemma others_of_remove_mac (device_mac : string) (l : list Entry) :
  others_of device_mac (remove_mac device_mac l) = others_of device_mac l.
Proof.
  unfold others_of. induction l as [|e l IH]; [reflexivity|]. simpl.
  destruct (has_mac device_mac e) eqn:He; simpl; [reflexivity|].
  by rewrite He, IH.
Qed.

Lemma others_of_app_item (device_mac : string) (l : list Entry) (item : Entry) :
  has_mac device_mac item = true ->
  others_of device_mac (l ++ [item]) = others_of device_mac l.
Proof.
  intros H. unfold others_of. rewrite List.filter_app. simpl. rewrite H.
  apply app_nil_r.
Qed.

(** The target list and the other list of a returned triple. *)
Lemma process_returns (api : HuaweiCoreApi) (band enabled id policy : value)
    (whitelist blacklist : list Entry) (mode : FilterMode) (action : FilterAction)
    (device_mac : string) (device_name : option string) (tr tr' : list event)
    (na : option bool) (whitelist' blacklist' : list Entry) :
  _process_access_lists api
    (State.mk band enabled (Some whitelist) (Some blacklist) id policy)
    (Member mode) (Member action) device_mac device_name tr
  = (inr (na, Some whitelist', Some blacklist'), tr') ->
  let target := target_list mode whitelist blacklist in
  let other := other_list mode whitelist blacklist in
  let target' := target_list mode whitelist' blacklist' in
  let other' := other_list mode whitelist' blacklist' in
  match action with
  | REMOVE =>
      na = Some (mac_in device_mac target) /\
      target' = remove_mac device_mac target /\ other' = other
  | ADD =>
      na = Some (negb (mac_in device_mac target)) /\
      other' = remove_mac device_mac other /\
      if mac_in device_mac target then target' = target
      else exists item, has_mac device_mac item = true /\
                        target' = target ++ [item]
  end.
Proof.
  rewrite process_eq_truth_table. intros H target other target' other'.
  apply truth_table_returns in H as (t & o & H).
  destruct action.
  - destruct H as (Hr & Ho & Ht). apply target_answer in Hr as (-> & Ht' & Ho').
    subst target' other'. rewrite Ht', Ho'. auto.
  - destruct H as (Hr & Ht & Ho). apply target_answer in Hr as (-> & Ht' & Ho').
    subst target' other'. rewrite Ht', Ho'. auto.
Qed.

(** X4.  A run of the reconciler that returns lists leaves every entry
    that does not carry the target MAC where it was: in each list those
    entries are the same, in the same order, as before. *)
Theorem process_keeps_other_entries
    (api : HuaweiCoreApi) (band enabled id policy : value)
    (whitelist blacklist : list Entry) (mode : FilterMode) (action : FilterAction)
    (device_mac : string) (device_name : option string) (tr tr' : list event)
    (na : option bool) (whitelist' blacklist' : list Entry) :
  _process_access_lists api
    (State.mk band enabled (Some whitelist) (Some blacklist) id policy)
    (Member mode) (Member action) device_mac device_name tr
  = (inr (na, Some whitelist', Some blacklist'), tr') ->
  others_of device_mac whitelist' = others_of device_mac whitelist /\
  others_of device_mac blacklist' = others_of device_mac blacklist.
Proof.
  intros H. apply process_returns in H. cbv zeta in H.
  assert (Hgoal :
    others_of device_mac (target_list mode whitelist' blacklist')
    = others_of device_mac (target_list mode whitelist blacklist) /\
    others_of device_mac (other_list mode whitelist' blacklist')
    = others_of device_mac (other_list mode whitelist blacklist)).
  { destruct action.
    - destruct H as (_ & -> & Ht). rewrite others_of_remove_mac. split; [|reflexivity].
      destruct (mac_in device_mac (target_list mode whitelist blacklist)).
      + by rewrite Ht.
      + destruct Ht as (item & Hitem & ->). by apply others_of_app_item.
    - destruct H as (_ & -> & ->). by rewrite others_of_remove_mac. }
  destruct mode; simpl in Hgoal; tauto.
Qed.

Lemma process_keeps_other_entries_witness :
  others_of "AA:BB:CC:DD:EE:FF" [tv; phone_as_guest]
  = others_of "AA:BB:CC:DD:EE:FF" [tv] /\
  others_of "AA:BB:CC:DD:EE:FF" [tv]
  = others_of "AA:BB:CC:DD:EE:FF" [tv; phone_as_guest].
Proof.
  exact (process_keeps_other_entries quiet_router (VStr "5GHz") (VBool true)
           VNone VNone [tv] [tv; phone_as_guest] WHITELIST ADD
           "AA:BB:CC:DD:EE:FF" None [] [] (Some true)
           [tv; phone_as_guest] [tv] eq_refl).
Defined.

(** X5.  What a returning run does to the target MAC.  After ADD the
    target list holds the MAC, with as many entries as before or one if
    it had none, and the other list holds one entry of it fewer, none
    fewer if it had none.  After REMOVE the target list holds one entry
    of it fewer, the other list is the same list, and need_action tells
    whether the target list held the MAC. *)
Theorem process_target_mac
    (api : HuaweiCoreApi) (band enabled id policy : value)
    (whitelist blacklist : list Entry) (mode : FilterMode) (action : FilterAction)
    (device_mac : string) (device_name : option string) (tr tr' : list event)
    (na : option bool) (whitelist' blacklist' : list Entry) :
  _process_access_lists api
    (State.mk band enabled (Some whitelist) (Some blacklist) id policy)
    (Member mode) (Member action) device_mac device_name tr
  = (inr (na, Some whitelist', Some blacklist'), tr') ->
  match action with
  | ADD =>
      na = Some (negb (mac_in device_mac (target_list mode whitelist blacklist))) /\
      mac_in device_mac (target_list mode whitelist' blacklist') = true /\
      mac_count device_mac (target_list mode whitelist' blacklist')
      = Nat.max 1 (mac_count device_mac (target_list mode whitelist blacklist)) /\
      mac_count device_mac (other_list mode whitelist' blacklist')
      = pred (mac_count device_mac (other_list mode whitelist blacklist))
  | REMOVE =>
      na = Some (mac_in device_mac (target_list mode whitelist blacklist)) /\
      mac_count device_mac (target_list mode whitelist' blacklist')
      = pred (mac_count device_mac (target_list mode whitelist blacklist)) /\
      other_list mode whitelist' blacklist' = other_list mode whitelist blacklist
  end.
Proof.
  intros H. apply process_returns in H. cbv zeta in H. destruct action.
  - destruct H as (-> & -> & Ht). split; [reflexivity|].
    rewrite mac_count_remove_same.
    pose proof (mac_in_count device_mac (target_list mode whitelist blacklist))
      as Hin.
    destruct (mac_in device_mac (target_list mode whitelist blacklist)) eqn:E.
    + rewrite Ht, E. split; [reflexivity|]. split; [|reflexivity].
      destruct (mac_count device_mac (target_list mode whitelist blacklist));
        [discriminate | lia].
    + destruct Ht as (item & Hitem & ->).
      split; [by apply mac_in_app_item|]. split; [|reflexivity].
      rewrite mac_count_app, (mac_count_item_same _ _ Hitem).
      destruct (mac_count device_mac (target_list mode whitelist blacklist));
        [reflexivity | discriminate].
  - destruct H as (-> & -> & ->). by rewrite mac_count_remove_same.
Qed.

Lemma process_target_mac_witness :
  Some true = Some (negb (mac_in "AA:BB:CC:DD:EE:FF" (target_list WHITELIST [tv] [tv; phone_as_guest]))) /\
  mac_in "AA:BB:CC:DD:EE:FF" (target_list WHITELIST [tv; phone_as_guest] [tv]) = true /\
  mac_count "AA:BB:CC:DD:EE:FF" (target_list WHITELIST [tv; phone_as_guest] [tv])
  = Nat.max 1 (mac_count "AA:BB:CC:DD:EE:FF"
                 (target_list WHITELIST [tv] [tv; phone_as_guest])) /\
  mac_count "AA:BB:CC:DD:EE:FF" (other_list WHITELIST [tv; phone_as_guest] [tv])
  = pred (mac_count "AA:BB:CC:DD:EE:FF"
            (other_list WHITELIST [tv] [tv; phone_as_guest])).
Proof.
  exact (process_target_mac quiet_router (VStr "5GHz") (VBool true)
           VNone VNone [tv] [tv; phone_as_guest] WHITELIST ADD
           "AA:BB:CC:DD:EE:FF" None [] [] (Some true)
           [tv; phone_as_guest] [tv] eq_refl).
Defined.

(** ** New entries and failed lookups *)

Lemma mac_in_first_entry_None (device_mac : string) (l : list Entry) :
  mac_in device_mac l = false -> first_entry device_mac l = None.
Proof.
  rewrite first_entry_mac_in. intros H. apply bool_decide_eq_false in H.
  destruct (first_entry device_mac l); [exfalso; apply H; eauto | reflexivity].
Qed.

(** The outcome of a run under member arguments on a state with both
    lists: a triple, or the failure of the lookup the run had to make. *)
Lemma process_member_outcome (api : HuaweiCoreApi) (band enabled id policy : value)
    (whitelist blacklist : list Entry) (mode : FilterMode) (action : FilterAction)
    (device_mac : string) (device_name : option string) :
  let state := State.mk band enabled (Some whitelist) (Some blacklist) id policy in
  (exists r, fst (run (_process_access_lists api state (Member mode) (Member action)
                         device_mac device_name)) = inr r /\
             any_none r = false) \/
  (exists e, resolves_name state (Member mode) (Member action) device_mac device_name
             = true /\
             hostinfo_reply api = inl e /\
             fst (run (_process_access_lists api state (Member mode) (Member action)
                         device_mac device_name)) = inl e).
Proof.
  intros state. unfold state, run. rewrite process_eq_truth_table.
  unfold truth_table, resolves_name.
  cbn [State.WMACAddresses State.BMACAddresses].
  destruct action; [|left; destruct mode; eexists; split; reflexivity].
  destruct (mac_in device_mac (target_list mode whitelist blacklist)) eqn:Ht;
    [left; destruct mode; eexists; split; reflexivity|].
  destruct (first_entry device_mac (other_list mode whitelist blacklist))
    as [moved|] eqn:Ho; [left; destruct mode; eexists; split; reflexivity|].
  assert (Hnone : mac_in device_mac (other_list mode whitelist blacklist) = false).
  { rewrite first_entry_mac_in, Ho. apply bool_decide_eq_false.
    intros [? ?]; discriminate. }
  unfold bind. rewrite get_access_list_item_frame.
  destruct (fst (run (get_access_list_item api device_mac device_name)))
    as [e|item] eqn:Hitem.
  - right. exists e.
    assert (Hname : name_truthy device_name = false /\ hostinfo_reply api = inl e).
    { revert Hitem. unfold run, get_access_list_item, bind, get_known_devices,
        core_get_host_info, ret.
      destruct device_name as [name|];
        [destruct (name_truthy (Some name)); [discriminate|]|];
        (destruct (hostinfo_reply api) as [e'|devs];
         [intros [= ->]; auto | destruct (List.find _ devs); discriminate]). }
    destruct Hname as [Hname Hreply]. rewrite Hname. split; [|auto].
    destruct mode; simpl in Ht, Hnone; by rewrite Ht, Hnone.
  - left. destruct mode; eexists; split; reflexivity.
Qed.

(** X6.  A truthy name supplied with an ADD of a MAC that neither list
    holds becomes the HostName of the new entry as it is, beside the MAC
    as MACAddress; the entry goes to the end of the target list, the
    other list is returned as it was, and no call is made. *)
Theorem add_uses_supplied_name
    (api : HuaweiCoreApi) (band enabled id policy : value)
    (whitelist blacklist : list Entry) (mode : FilterMode)
    (device_mac name : string) (tr : list event) :
  mac_in device_mac whitelist = false ->
  mac_in device_mac blacklist = false ->
  name <> "" ->
  _process_access_lists api
    (State.mk band enabled (Some whitelist) (Some blacklist) id policy)
    (Member mode) (Member ADD) device_mac (Some name) tr
  = (inr (answer mode true
            (target_list mode whitelist blacklist
             ++ [[("MACAddress", VStr device_mac); ("HostName", VStr name)]])
            (other_list mode whitelist blacklist)), tr).
Proof.
  intros Hw Hb Hname. rewrite process_eq_truth_table. unfold truth_table.
  assert (Ht : mac_in device_mac (target_list mode whitelist blacklist) = false)
    by (by destruct mode).
  assert (Ho : mac_in device_mac (other_list mode whitelist blacklist) = false)
    by (by destruct mode).
  rewrite Ht, (mac_in_first_entry_None _ _ Ho).
  unfold bind, get_access_list_item.
  destruct name as [|c name]; [contradiction|]. reflexivity.
Qed.

Lemma add_uses_supplied_name_witness :
  _process_access_lists quiet_router
    (State.mk (VStr "5GHz") (VBool true) (Some [tv]) (Some []) VNone VNone)
    (Member BLACKLIST) (Member ADD) "AA:BB:CC:DD:EE:FF" (Some "phone") []
  = (inr (answer BLACKLIST true
            (target_list BLACKLIST [tv] []
             ++ [[("MACAddress", VStr "AA:BB:CC:DD:EE:FF");
                  ("HostName", VStr "phone")]])
            (other_list BLACKLIST [tv] [])), []).
Proof.
  apply (add_uses_supplied_name quiet_router (VStr "5GHz") (VBool true) VNone VNone
           [tv] [] BLACKLIST "AA:BB:CC:DD:EE:FF" "phone" []).
  - reflexivity.
  - reflexivity.
  - discriminate.
Defined.

Lemma process_lookup_fails (api : HuaweiCoreApi) (state : State.t)
    (filter_mode : arg FilterMode) (filter_action : arg FilterAction)
    (device_mac : string) (device_name : option string) (e : exn) :
  resolves_name state filter_mode filter_action device_mac device_name = true ->
  hostinfo_reply api = inl e ->
  fst (run (_process_access_lists api state filter_mode filter_action
              device_mac device_name)) = inl e.
Proof.
  intros Hres Hreply. pose proof Hres as Hres'.
  apply resolves_name_iff in Hres'
    as (whitelist & blacklist & mode & Hw & Hb & -> & -> & Hinw & Hinb & Hname).
  destruct state as [band enabled w b id policy]. simpl in Hw, Hb. subst w b.
  destruct (process_member_outcome api band enabled id policy whitelist blacklist
              mode ADD device_mac device_name) as [(r & Hr & _)|(e' & _ & He & Hr)].
  - exfalso. revert Hr. unfold run. rewrite process_eq_truth_table.
    unfold truth_table.
    assert (Ht : mac_in device_mac (target_list mode whitelist blacklist) = false)
      by (by destruct mode).
    assert (Ho : mac_in device_mac (other_list mode whitelist blacklist) = false)
      by (by destruct mode).
    rewrite Ht, (mac_in_first_entry_None _ _ Ho).
    unfold bind, get_access_list_item, get_known_devices, core_get_host_info.
    destruct device_name as [name|]; [rewrite Hname|]; rewrite Hreply;
      discriminate.
  - congruence.
Qed.

(** X7.  A failed read of the known devices stops [apply_wlan_filter]:
    when a band's ADD has to make up a name and the GET of the known
    devices raises, the call raises that same error right after that
    GET; the other band is not looked up again and nothing is posted. *)
Theorem apply_wlan_filter_lookup_failure
    (api : HuaweiCoreApi) (actual_states : list State.t)
    (state_2g state_5g : State.t) (mode : FilterMode)
    (device_mac : string) (device_name : option string) (e : exn) :
  wlanfilter_reply api = inr actual_states ->
  split_states actual_states = (Some state_2g, Some state_5g) ->
  verify_state state_2g = true -> verify_state state_5g = true ->
  hostinfo_reply api = inl e ->
  resolves_name state_2g (Member mode) (Member ADD) device_mac device_name = true \/
  (State.WMACAddresses state_2g <> None /\ State.BMACAddresses state_2g <> None /\
   resolves_name state_5g (Member mode) (Member ADD) device_mac device_name = true) ->
  run (apply_wlan_filter api (Member mode) (Member ADD) device_mac device_name)
  = (inl e, [EvGet _URL_WLAN_FILTER; EvGet _URL_HOST_INFO]).
Proof.
  intros Hreply Hsplit Hv2 Hv5 Hhost Hcase.
  unfold apply_wlan_filter, run, bind.
  rewrite get_filter_states_run, Hreply, Hsplit, Hv2, Hv5. cbn [negb orb].
  rewrite process_access_lists_frame.
  destruct (resolves_name state_2g (Member mode) (Member ADD) device_mac
              device_name) eqn:Hres2.
  - by rewrite (process_lookup_fails _ _ _ _ _ _ _ Hres2 Hhost).
  - destruct Hcase as [|(Hw & Hb & Hres5)]; [discriminate|].
    destruct state_2g as [band enabled [whitelist|] [blacklist|] id policy];
      try contradiction.
    destruct (process_member_outcome api band enabled id policy whitelist
                blacklist mode ADD device_mac device_name)
      as [(r & Hr & Hnone)|(e' & Hres & _)]; [|cbv zeta in Hres; congruence].
    cbv zeta in Hr. rewrite Hr, Hnone.
    rewrite process_access_lists_frame, Hres5.
    by rewrite (process_lookup_fails _ _ _ _ _ _ _ Hres5 Hhost).
Qed.

Lemma apply_wlan_filter_lookup_failure_witness :
  run (apply_wlan_filter (router_without_hosts states_tv_on_2g) (Member WHITELIST)
         (Member ADD) "11:22:33:44:55:66" None)
  = (inl (ApiCallError "timeout"), [EvGet _URL_WLAN_FILTER; EvGet _URL_HOST_INFO]).
Proof.
  apply (apply_wlan_filter_lookup_failure (router_without_hosts states_tv_on_2g)
           states_tv_on_2g (tv_once "2.4GHz") (tv_none "5GHz"));
    try reflexivity.
  right. repeat split; discriminate.
Defined.

(** ** Short cuts that leave the bands apart *)

(** X8.  The no-op tests look at less than both bands, so a pair of
    bands that differ can stay as it is.  Switching the filter off posts
    nothing as soon as one band is not switched on, the other band stays
    on; and setting a mode posts nothing when the 5GHz policy already is
    the wanted value, whatever policy 2.4GHz has. *)
Theorem toggles_keep_uneven_bands
    (FilterMode_value : FilterMode -> value)
    (api : HuaweiCoreApi) (actual_states : list State.t)
    (state_2g state_5g : State.t) (mode : FilterMode) :
  wlanfilter_reply api = inr actual_states ->
  split_states actual_states = (Some state_2g, Some state_5g) ->
  (State.MACAddressControlEnabled state_2g <> VBool true \/
   State.MACAddressControlEnabled state_5g <> VBool true ->
   run (_set_wlan_filter_enabled api false) = (inr true, [EvGet _URL_WLAN_FILTER])) /\
  (py_eq (State.MacFilterPolicy state_5g) (FilterMode_value mode) = true ->
   run (set_wlan_filter_mode FilterMode_value api mode)
   = (inr true, [EvGet _URL_WLAN_FILTER])).
Proof.
  intros Hreply Hsplit. split.
  - intros Hoff. unfold _set_wlan_filter_enabled, run, bind.
    rewrite get_filter_states_run, Hreply, Hsplit.
    assert (Hc : is_bool_true (State.MACAddressControlEnabled state_2g)
                 && is_bool_true (State.MACAddressControlEnabled state_5g) = false).
    { apply andb_false_iff.
      destruct Hoff as [H|H]; [left|right];
        apply not_true_is_false; by rewrite is_bool_true_iff. }
    by rewrite Hc.
  - intros Hsame. unfold set_wlan_filter_mode, run, bind.
    rewrite get_filter_states_run, Hreply, Hsplit. by rewrite Hsame.
Qed.

Lemma toggles_keep_uneven_bands_witness :
  (State.MACAddressControlEnabled uneven_2g <> VBool true \/
   State.MACAddressControlEnabled uneven_5g <> VBool true ->
   run (_set_wlan_filter_enabled (router_of [uneven_2g; uneven_5g]) false)
   = (inr true, [EvGet _URL_WLAN_FILTER])) /\
  (py_eq (State.MacFilterPolicy uneven_5g) (numbered BLACKLIST) = true ->
   run (set_wlan_filter_mode numbered (router_of [uneven_2g; uneven_5g]) BLACKLIST)
   = (inr true, [EvGet _URL_WLAN_FILTER])).
Proof.
  exact (toggles_keep_uneven_bands numbered (router_of [uneven_2g; uneven_5g])
           [uneven_2g; uneven_5g] uneven_2g uneven_5g BLACKLIST eq_refl eq_refl).
Defined.

(** ** Applying twice *)

(** A POST of [apply_wlan_filter] comes from two fetched, switched-on
    bands and two reconciled triples. *)
Lemma apply_posts_inv (api : HuaweiCoreApi)
    (filter_mode : arg FilterMode) (filter_action : arg FilterAction)
    (device_mac : string) (device_name : option string)
    (url : string) (command : Command) :
  posts (snd (run (apply_wlan_filter api filter_mode filter_action
                     device_mac device_name))) = [(url, command)] ->
  exists actual_states state_2g state_5g r2g r5g,
    wlanfilter_reply api = inr actual_states /\
    split_states actual_states = (Some state_2g, Some state_5g) /\
    fst (run (_process_access_lists api state_2g filter_mode filter_action
                device_mac device_name)) = inr r2g /\
    fst (run (_process_access_lists api state_5g filter_mode filter_action
                device_mac device_name)) = inr r5g /\
    any_none r2g = false /\ any_none r5g = false /\
    carries (config2g command) state_2g r2g /\
    carries (config5g command) state_5g r5g.
Proof.
  unfold apply_wlan_filter, run, bind. rewrite get_filter_states_run.
  destruct (wlanfilter_reply api) as [e|actual_states]; [discriminate|].
  destruct (split_states actual_states) as [[state_2g|] [state_5g|]] eqn:Hsplit;
    try discriminate.
  destruct (verify_state state_2g); [|discriminate].
  destruct (verify_state state_5g); [|discriminate]. cbn [negb orb].
  rewrite process_access_lists_frame.
  destruct (fst (run (_process_access_lists api state_2g filter_mode
                        filter_action device_mac device_name))) as [e2|r2g] eqn:H2.
  { cbn [snd]. rewrite posts_app, posts_resolves. discriminate. }
  destruct (any_none r2g) eqn:Hn2.
  { unfold ret. cbn [snd]. rewrite posts_app, posts_resolves. discriminate. }
  rewrite process_access_lists_frame.
  destruct (fst (run (_process_access_lists api state_5g filter_mode
                        filter_action device_mac device_name))) as [e5|r5g] eqn:H5.
  { cbn [snd]. rewrite !posts_app, !posts_resolves. discriminate. }
  destruct (any_none r5g) eqn:Hn5.
  { unfold ret. cbn [snd]. rewrite !posts_app, !posts_resolves. discriminate. }
  destruct (negb (need_action r2g) && negb (need_action r5g)).
  { unfold ret. cbn [snd]. rewrite !posts_app, !posts_resolves. discriminate. }
  unfold core_post, ret.
  destruct (post_reply api); cbn [snd]; rewrite !posts_app, !posts_resolves;
    cbn [posts omap app].
  all: intros [= <- <-].
  all: exists actual_states, state_2g, state_5g, r2g, r5g.
  all: repeat split; auto.
Qed.

(** A run on the lists an earlier run returned, under any router and any
    name, needs no action and makes no call. *)
Lemma process_again (api api' : HuaweiCoreApi)
    (band enabled id policy band' enabled' id' policy' : value)
    (whitelist blacklist : list Entry) (mode : FilterMode) (action : FilterAction)
    (device_mac : string) (device_name device_name' : option string)
    (tr tr' tr2 : list event)
    (na : option bool) (whitelist' blacklist' : list Entry) :
  _process_access_lists api
    (State.mk band enabled (Some whitelist) (Some blacklist) id policy)
    (Member mode) (Member action) device_mac device_name tr
  = (inr (na, Some whitelist', Some blacklist'), tr') ->
  action = ADD \/
  (mac_count device_mac (target_list mode whitelist blacklist) <= 1)%nat ->
  exists whitelist'' blacklist'',
    _process_access_lists api'
      (State.mk band' enabled' (Some whitelist') (Some blacklist') id' policy')
      (Member mode) (Member action) device_mac device_name' tr2
    = (inr (Some false, Some whitelist'', Some blacklist''), tr2).
Proof.
  intros H Hcond. apply process_returns in H. cbv zeta in H.
  rewrite process_eq_truth_table. unfold truth_table. destruct action.
  - destruct H as (_ & _ & Ht).
    assert (Hin : mac_in device_mac (target_list mode whitelist' blacklist') = true).
    { destruct (mac_in device_mac (target_list mode whitelist blacklist)) eqn:E;
        [by rewrite Ht | destruct Ht as (item & Hitem & ->);
                         by apply mac_in_app_item]. }
    rewrite Hin.
    destruct (answer_lists mode false (target_list mode whitelist' blacklist')
                (remove_mac device_mac (other_list mode whitelist' blacklist')))
      as (w & b & -> & _). by exists w, b.
  - destruct Hcond as [|Hcount]; [discriminate|]. destruct H as (_ & Ht & _).
    assert (Hin : mac_in device_mac (target_list mode whitelist' blacklist') = false).
    { rewrite Ht, mac_in_count, mac_count_remove_same.
      destruct (mac_count device_mac (target_list mode whitelist blacklist))
        as [|[|n]]; [reflexivity | reflexivity | lia]. }
    rewrite Hin.
    destruct (answer_lists mode false
                (remove_mac device_mac (target_list mode whitelist' blacklist'))
                (other_list mode whitelist' blacklist'))
      as (w & b & -> & _). by exists w, b.
Qed.

Lemma last_with_elem (test : State.t -> bool) (l : list State.t) (s : State.t) :
  last_with test l = Some s -> s ∈ l /\ test s = true.
Proof.
  intros H. apply last_with_Some in H as (pre & post & -> & Hs & _).
  split; [|exact Hs]. apply elem_of_app. right. left.
Qed.

(** A state reconciled to a triple has both lists, and the triple holds
    a flag and two lists. *)
Lemma process_triple_inv (api : HuaweiCoreApi) (state : State.t)
    (filter_mode : arg FilterMode) (filter_action : arg FilterAction)
    (device_mac : string) (device_name : option string) (r : triple) :
  fst (run (_process_access_lists api state filter_mode filter_action
              device_mac device_name)) = inr r ->
  any_none r = false ->
  exists whitelist blacklist na whitelist' blacklist',
    State.WMACAddresses state = Some whitelist /\
    State.BMACAddresses state = Some blacklist /\
    r = (Some na, Some whitelist', Some blacklist').
Proof.
  intros Hr Hnone.
  destruct state as [band enabled [whitelist|] [blacklist|] id policy];
    try (injection Hr as <-; discriminate).
  destruct r as [[[na|] [whitelist'|]] [blacklist'|]]; try discriminate.
  by exists whitelist, blacklist, na, whitelist', blacklist'.
Qed.

(** The second run of [apply_wlan_filter] on one band of the router
    that reports a written half. *)
Lemma process_reported (api api' : HuaweiCoreApi) (state : State.t)
    (config : Config.t) (r : triple) (mode : FilterMode) (action : FilterAction)
    (device_mac : string) (device_name device_name' : option string) :
  fst (run (_process_access_lists api state (Member mode) (Member action)
              device_mac device_name)) = inr r ->
  any_none r = false ->
  carries config state r ->
  action = ADD \/
  (forall whitelist blacklist,
      State.WMACAddresses state = Some whitelist ->
      State.BMACAddresses state = Some blacklist ->
      (mac_count device_mac (target_list mode whitelist blacklist) <= 1)%nat) ->
  verify_state (reported config) = true /\
  State.FrequencyBand (reported config) = State.FrequencyBand state /\
  exists r',
    _process_access_lists api' (reported config) (Member mode) (Member action)
      device_mac device_name' []
    = (inr r', []) /\
    any_none r' = false /\ need_action r' = false.
Proof.
  intros Hr Hnone (Hen & Hw & Hb & Hid & Hpol & Hband) Hcond.
  destruct (process_triple_inv _ _ _ _ _ _ _ Hr Hnone)
    as (whitelist & blacklist & na & whitelist' & blacklist' & Hsw & Hsb & ->).
  unfold verify_state, reported. cbn [State.MACAddressControlEnabled
    State.FrequencyBand]. rewrite Hen. split; [reflexivity|]. split; [exact Hband|].
  rewrite Hw, Hb. cbn [fst snd].
  destruct state as [band enabled w b id policy]. simpl in Hsw, Hsb. subst w b.
  assert (Hfirst :
    _process_access_lists api
      (State.mk band enabled (Some whitelist) (Some blacklist) id policy)
      (Member mode) (Member action) device_mac device_name []
    = (inr (Some na, Some whitelist', Some blacklist'),
       [] ++ (if resolves_name
                   (State.mk band enabled (Some whitelist) (Some blacklist) id policy)
                   (Member mode) (Member action) device_mac device_name
              then [EvGet _URL_HOST_INFO] else []))).
  { rewrite process_access_lists_frame. by rewrite Hr. }
  assert (Hcond' : action = ADD \/
            (mac_count device_mac (target_list mode whitelist blacklist) <= 1)%nat).
  { destruct Hcond as [|Hc]; [by left | right; by apply Hc]. }
  destruct (process_again api api' _ _ _ _ (Config.FrequencyBand config) (VBool true)
              (Config.ID config) (Config.MacFilterPolicy config) _ _ _ _ _ _
              device_name' _ _ [] _ _ _ Hfirst Hcond')
    as (w'' & b'' & Hsecond).
  exists (Some false, Some w'', Some b''). by split.
Qed.

(** X9.  [apply_wlan_filter] is idempotent across a write.  When a first
    call has posted a command and the router then reports the two
    halves of that command as its band states, the same call again
    answers true after the one GET of the band states and posts nothing:
    always for ADD, and for REMOVE when no band record of the first reply
    held the MAC more than once in the list the mode names. *)
Theorem apply_wlan_filter_twice
    (api api' : HuaweiCoreApi) (actual_states : list State.t)
    (mode : FilterMode) (action : FilterAction)
    (device_mac : string) (device_name device_name' : option string)
    (url : string) (command : Command) :
  wlanfilter_reply api = inr actual_states ->
  action = ADD \/
  (forall state whitelist blacklist,
      state ∈ actual_states ->
      State.WMACAddresses state = Some whitelist ->
      State.BMACAddresses state = Some blacklist ->
      (mac_count device_mac (target_list mode whitelist blacklist) <= 1)%nat) ->
  posts (snd (run (apply_wlan_filter api (Member mode) (Member action)
                     device_mac device_name))) = [(url, command)] ->
  wlanfilter_reply api'
  = inr [reported (config2g command); reported (config5g command)] ->
  run (apply_wlan_filter api' (Member mode) (Member action)
         device_mac device_name')
  = (inr true, [EvGet _URL_WLAN_FILTER]).
Proof.
  intros Hreply Hcond Hposts Hreply'.
  apply apply_posts_inv in Hposts
    as (states & state_2g & state_5g & r2g & r5g & Hreply2 & Hsplit & H2 & H5
        & Hn2 & Hn5 & Hc2 & Hc5).
  rewrite Hreply in Hreply2. injection Hreply2 as <-.
  rewrite split_states_last_with in Hsplit. injection Hsplit as Hs2 Hs5.
  apply last_with_elem in Hs2 as [Hin2 Hb2]. apply last_with_elem in Hs5 as [Hin5 Hb5].
  apply py_eq_label in Hb2. apply py_eq_label in Hb5.
  assert (Hcond2 : action = ADD \/
            (forall whitelist blacklist,
                State.WMACAddresses state_2g = Some whitelist ->
                State.BMACAddresses state_2g = Some blacklist ->
                (mac_count device_mac (target_list mode whitelist blacklist) <= 1)%nat)).
  { destruct Hcond as [|Hc]; [by left | right; intros w b; by apply Hc]. }
  assert (Hcond5 : action = ADD \/
            (forall whitelist blacklist,
                State.WMACAddresses state_5g = Some whitelist ->
                State.BMACAddresses state_5g = Some blacklist ->
                (mac_count device_mac (target_list mode whitelist blacklist) <= 1)%nat)).
  { destruct Hcond as [|Hc]; [by left | right; intros w b; by apply Hc]. }
  destruct (process_reported api api' _ _ _ _ _ _ _ device_name' H2 Hn2 Hc2 Hcond2)
    as (Hv2 & Hl2 & r2' & Hp2 & Hn2' & Ha2').
  destruct (process_reported api api' _ _ _ _ _ _ _ device_name' H5 Hn5 Hc5 Hcond5)
    as (Hv5 & Hl5 & r5' & Hp5 & Hn5' & Ha5').
  assert (Hsplit' : split_states [reported (config2g command);
                                  reported (config5g command)]
                    = (Some (reported (config2g command)),
                       Some (reported (config5g command)))).
  { unfold split_states. cbn [fold_left]. rewrite Hl2, Hb2, Hl5, Hb5. reflexivity. }
  unfold apply_wlan_filter, run, bind.
  rewrite get_filter_states_run, Hreply', Hsplit', Hv2, Hv5. cbn [negb orb app].
  pose proof (process_access_lists_frame api' (reported (config2g command))
                (Member mode) (Member action) device_mac device_name' []) as Hf2.
  rewrite Hp2 in Hf2. injection Hf2 as Hr2 Ht2.
  pose proof (process_access_lists_frame api' (reported (config5g command))
                (Member mode) (Member action) device_mac device_name' []) as Hf5.
  rewrite Hp5 in Hf5. injection Hf5 as Hr5 Ht5.
  rewrite process_access_lists_frame, <- Hr2, Hn2', <- Ht2.
  rewrite process_access_lists_frame, <- Hr5, Hn5', <- Ht5.
  rewrite Ha2', Ha5'. reflexivity.
Qed.

Lemma apply_wlan_filter_twice_witness :
  run (apply_wlan_filter
         (router_of
            [reported (config2g (command_of (tv_once "2.4GHz") (tv_once "5GHz")));
             reported (config5g (command_of (tv_once "2.4GHz") (tv_once "5GHz")))])
         (Member WHITELIST) (Member ADD) "11:22:33:44:55:66" None)
  = (inr true, [EvGet _URL_WLAN_FILTER]).
Proof.
  apply (apply_wlan_filter_twice (router_of states_tv_on_2g) _ states_tv_on_2g
           WHITELIST ADD "11:22:33:44:55:66" (Some "tv") None _URL_WLAN_FILTER
           (command_of (tv_once "2.4GHz") (tv_once "5GHz"))).
  - reflexivity.
  - left. reflexivity.
  - reflexivity.
  - reflexivity.
Defined.

(** ** Toggling twice *)

(** A POST of one of the two toggles comes from two fetched bands, whose
    labels, lists and identifiers both halves repeat. *)
Lemma toggle_reported_split (state_2g state_5g : State.t)
    (actual_states : list State.t) (c2g c5g : Config.t) :
  split_states actual_states = (Some state_2g, Some state_5g) ->
  Config.FrequencyBand c2g = State.FrequencyBand state_2g ->
  Config.FrequencyBand c5g = State.FrequencyBand state_5g ->
  split_states [reported c2g; reported c5g] = (Some (reported c2g), Some (reported c5g)).
Proof.
  intros Hsplit H2 H5.
  rewrite split_states_last_with in Hsplit. injection Hsplit as Hs2 Hs5.
  apply last_with_elem in Hs2 as [_ Hb2]. apply last_with_elem in Hs5 as [_ Hb5].
  apply py_eq_label in Hb2. apply py_eq_label in Hb5.
  unfold split_states, reported. cbn [fold_left State.FrequencyBand].
  rewrite H2, Hb2, H5, Hb5. reflexivity.
Qed.

(** X10.  The two toggles are idempotent across a write.  When a first
    call has posted a command and the router then reports the two
    halves of that command as its band states, the same call again
    answers true after the one GET and posts nothing; for the mode this
    needs the value of the mode to equal itself under [==]. *)
Theorem toggles_twice
    (FilterMode_value : FilterMode -> value)
    (api api' api'' : HuaweiCoreApi)
    (url url' : string) (switched moded : Command)
    (enabled : bool) (mode : FilterMode) :
  (posts (snd (run (_set_wlan_filter_enabled api enabled))) = [(url, switched)] ->
   wlanfilter_reply api'
   = inr [reported (config2g switched); reported (config5g switched)] ->
   run (_set_wlan_filter_enabled api' enabled) = (inr true, [EvGet _URL_WLAN_FILTER])) /\
  (py_eq (FilterMode_value mode) (FilterMode_value mode) = true ->
   posts (snd (run (set_wlan_filter_mode FilterMode_value api mode)))
   = [(url', moded)] ->
   wlanfilter_reply api''
   = inr [reported (config2g moded); reported (config5g moded)] ->
   run (set_wlan_filter_mode FilterMode_value api'' mode)
   = (inr true, [EvGet _URL_WLAN_FILTER])).
Proof.
  split.
  - unfold _set_wlan_filter_enabled at 1, run, bind.
    rewrite get_filter_states_run.
    destruct (wlanfilter_reply api) as [e|actual_states]; [discriminate|].
    destruct (split_states actual_states) as [[state_2g|] [state_5g|]] eqn:Hsplit;
      try discriminate.
    destruct (Bool.eqb _ enabled); [discriminate|].
    unfold core_post, ret.
    destruct (post_reply api); cbn [snd]; rewrite !posts_app; cbn [posts omap app];
      intros [= <- <-] Hreply'.
    all: unfold _set_wlan_filter_enabled, bind; rewrite get_filter_states_run, Hreply'.
    all: erewrite toggle_reported_split; [|exact Hsplit|reflexivity|reflexivity].
    all: cbn; by destruct enabled.
  - intros Hrefl. unfold set_wlan_filter_mode at 1, run, bind.
    rewrite get_filter_states_run.
    destruct (wlanfilter_reply api) as [e|actual_states]; [discriminate|].
    destruct (split_states actual_states) as [[state_2g|] [state_5g|]] eqn:Hsplit;
      try discriminate.
    destruct (py_eq (State.MacFilterPolicy state_5g) (FilterMode_value mode));
      [discriminate|].
    unfold core_post, ret.
    destruct (post_reply api); cbn [snd]; rewrite !posts_app; cbn [posts omap app];
      intros [= <- <-] Hreply'.
    all: unfold set_wlan_filter_mode, bind; rewrite get_filter_states_run, Hreply'.
    all: erewrite toggle_reported_split; [|exact Hsplit|reflexivity|reflexivity].
    all: cbn; by rewrite Hrefl.
Qed.

Lemma toggles_twice_witness :
  (posts (snd (run (_set_wlan_filter_enabled (router_of states_mixed) true)))
   = [(_URL_WLAN_FILTER, mixed_switched_on)] /\
   run (_set_wlan_filter_enabled
          (router_of [reported (config2g mixed_switched_on);
                      reported (config5g mixed_switched_on)]) true)
   = (inr true, [EvGet _URL_WLAN_FILTER])) /\
  (posts (snd (run (set_wlan_filter_mode numbered (router_of states_mixed)
                      WHITELIST)))
   = [(_URL_WLAN_FILTER, mixed_whitelisted)] /\
   run (set_wlan_filter_mode numbered
          (router_of [reported (config2g mixed_whitelisted);
                      reported (config5g mixed_whitelisted)]) WHITELIST)
   = (inr true, [EvGet _URL_WLAN_FILTER])).
Proof.
  destruct (toggles_twice numbered (router_of states_mixed)
              (router_of [reported (config2g mixed_switched_on);
                          reported (config5g mixed_switched_on)])
              (router_of [reported (config2g mixed_whitelisted);
                          reported (config5g mixed_whitelisted)])
              _URL_WLAN_FILTER _URL_WLAN_FILTER
              mixed_switched_on mixed_whitelisted true WHITELIST)
    as [Henabled Hmode].
  split; (split; [reflexivity|]).
  - exact (Henabled eq_refl eq_refl).
  - exact (Hmode eq_refl eq_refl eq_refl).
Defined.

(** * Feature detection and switches *)

Set Warnings "-clear-no-such-hyp".

Section SwitchFacts.

Variable APICALL_ERRCAT_UNAUTHORIZED : string.
Variable HuaweiFilterInfo : Type.
Variable HuaweiFilterInfo_parse : option State.t -> pyexn + HuaweiFilterInfo.
Variable HuaweiFilterInfo_enabled : HuaweiFilterInfo -> value.

Local Notation guarded := (unauthorized_as_false APICALL_ERRCAT_UNAUTHORIZED).
Local Notation nfc_probe := (_is_nfc_available APICALL_ERRCAT_UNAUTHORIZED).
Local Notation r_probe := (_is_wifi_80211r_available APICALL_ERRCAT_UNAUTHORIZED).
Local Notation twt_probe := (_is_wifi_twt_available APICALL_ERRCAT_UNAUTHORIZED).
Local Notation filter_probe :=
  (_is_wlan_filter_available APICALL_ERRCAT_UNAUTHORIZED).
Local Notation detect := (update APICALL_ERRCAT_UNAUTHORIZED).
Local Notation ensure := (_ensure_features_updated APICALL_ERRCAT_UNAUTHORIZED).
Local Notation get_switch :=
  (get_switch_state APICALL_ERRCAT_UNAUTHORIZED HuaweiFilterInfo
     HuaweiFilterInfo_parse HuaweiFilterInfo_enabled).
Local Notation set_switch := (set_switch_state APICALL_ERRCAT_UNAUTHORIZED).

Lemma detects_bind (urls1 urls2 : list string) {A B} (m : P A) (k : A -> P B) :
  detects urls1 m -> (forall a, detects urls2 (k a)) ->
  detects (urls1 ++ urls2) (pbind m k).
Proof.
  intros Hm Hk o tr. unfold pbind.
  destruct (Hm o tr) as (Hflag & Hsub & Hsup & gets & Hcalls & Hgets).
  unfold object_of, calls_of, outcome_of in *.
  destruct (m o tr) as [[[e|a] o1] tr1]; cbn in *.
  - repeat split; auto. exists gets. split; [auto|].
    by apply prefix_app_r.
  - pose proof (Hk a o1 tr1) as H2.
    unfold object_of, calls_of, outcome_of in H2.
    destruct (k a o1 tr1) as [[[e2|b] o2] tr2]; cbn in *;
      destruct H2 as (Hflag2 & Hsub2 & Hsup2 & gets2 & Hcalls2 & Hgets2).
    all: split; [congruence|]; split; [set_solver|]; split; [set_solver|].
    all: exists (gets ++ gets2); rewrite Hcalls2, Hcalls, map_app, app_assoc.
    all: split; [reflexivity|]; subst gets.
    + by apply prefix_app.
    + by subst.
Qed.

Lemma probes_wrapped (urls : list string) (name : string) (func : P bool) :
  probes urls func -> probes urls (log_feature name (guarded func)).
Proof.
  intros H o tr. specialize (H o tr).
  unfold log_feature, unauthorized_as_false, object_of, calls_of in *.
  destruct (func o tr) as [[[[[m|m|c]| | | |]|b] o1] tr1]; cbn in *; auto.
  destruct (String.eqb c APICALL_ERRCAT_UNAUTHORIZED); cbn; auto.
Qed.

Lemma probes_get (t : Transport) (url : string) (decode : value -> pyexn + value) :
  probes [url] (data <<- core_get t url ;;
                setting <<- plift (decode data) ;;
                pret (is_not_none setting)).
Proof.
  intros o tr. unfold pbind, core_get, plift, pret, object_of, calls_of.
  destruct (switch_reply t tr url) as [e|data]; cbn; [done|].
  by destruct (decode data).
Qed.

Lemma detects_probe_into (urls : list string) (probe : P bool) (feature : string) :
  feature ∈ known_features -> probes urls probe ->
  detects urls (probe_into probe feature).
Proof.
  intros Hin Hp o tr. destruct (Hp o tr) as [Ho Hc].
  unfold probe_into, pbind, add_feature, pret, object_of, calls_of, outcome_of in *.
  destruct (probe o tr) as [[[e|[|]] o1] tr1]; cbn in *; subst o1 tr1.
  - repeat split; [set_solver..|]. by exists urls.
  - repeat split; [set_solver..|]. by exists urls.
  - repeat split; [set_solver..|]. by exists urls.
Qed.

Lemma probes_nfc (t : Transport) : probes [_URL_SWITCH_NFC] (nfc_probe t).
Proof. apply probes_wrapped, probes_get. Qed.

Lemma probes_80211r (t : Transport) : probes [_URL_SWITCH_WIFI_80211R] (r_probe t).
Proof. apply probes_wrapped, probes_get. Qed.

Lemma probes_twt (t : Transport) : probes [_URL_SWITCH_WIFI_TWT] (twt_probe t).
Proof. apply probes_wrapped, probes_get. Qed.

Lemma probes_filter (t : Transport) : probes [] (filter_probe t).
Proof.
  apply probes_wrapped. intros o tr. unfold pret, object_of, calls_of. cbn.
  by rewrite app_nil_r.
Qed.

Lemma detects_update (t : Transport) :
  detects [_URL_SWITCH_NFC; _URL_SWITCH_WIFI_80211R; _URL_SWITCH_WIFI_TWT]
          (detect t).
Proof.
  unfold update.
  apply (detects_bind [_URL_SWITCH_NFC]
           [_URL_SWITCH_WIFI_80211R; _URL_SWITCH_WIFI_TWT]).
  { apply detects_probe_into; [set_solver | apply probes_nfc]. }
  intros _. apply (detects_bind [_URL_SWITCH_WIFI_80211R] [_URL_SWITCH_WIFI_TWT]).
  { apply detects_probe_into; [set_solver | apply probes_80211r]. }
  intros _. apply (detects_bind [_URL_SWITCH_WIFI_TWT] []).
  { apply detects_probe_into; [set_solver | apply probes_twt]. }
  intros _. apply detects_probe_into; [set_solver | apply probes_filter].
Qed.

Lemma update_adds_filter (t : Transport) (o : HuaweiApi) (tr : list call) :
  outcome_of (detect t o tr) = inr tt ->
  FEATURE_WLAN_FILTER ∈ _available_features (object_of (detect t o tr)).
Proof.
  unfold update, pbind, outcome_of, object_of.
  destruct (probe_into (nfc_probe t) FEATURE_NFC o tr) as [[[e1|u1] o1] tr1];
    [discriminate|].
  destruct (probe_into (r_probe t) FEATURE_WIFI_80211R o1 tr1)
    as [[[e2|u2] o2] tr2]; [discriminate|].
  destruct (probe_into (twt_probe t) FEATURE_WIFI_TWT o2 tr2)
    as [[[e3|u3] o3] tr3]; [discriminate|].
  intros _. cbn. set_solver.
Qed.

Lemma ensure_run (t : Transport) (o : HuaweiApi) (tr : list call) :
  ensure t o tr =
    if _is_features_updated o then (inr tt, o, tr)
    else match detect t o tr with
         | (inr _, o', tr') =>
             (inr tt, {| _is_features_updated := true;
                         _available_features := _available_features o' |}, tr')
         | (inl e, o', tr') => (inl e, o', tr')
         end.
Proof.
  unfold _ensure_features_updated, pbind, set_updated.
  destruct (_is_features_updated o); [reflexivity|].
  by destruct (detect t o tr) as [[[e|[]] o'] tr'].
Qed.


(** X12.  The probe of the filter feature does not await its GET, so it
    never asks the router and always finds the feature: a detection that
    returns on an object not yet marked has made exactly the three GETs
    of the other probes, none of the filter endpoint, and the filter
    feature is available whatever the router would have answered. *)
Theorem filter_feature_always_found
    (t : Transport) (o : HuaweiApi) (tr : list call) :
  _is_features_updated o = false ->
  outcome_of (ensure t o tr) = inr tt ->
  is_available (object_of (ensure t o tr)) FEATURE_WLAN_FILTER = true /\
  calls_of (ensure t o tr)
  = tr ++ [CallGet _URL_SWITCH_NFC; CallGet _URL_SWITCH_WIFI_80211R;
           CallGet _URL_SWITCH_WIFI_TWT].
Proof.
  intros Hflag. rewrite ensure_run, Hflag.
  pose proof (update_adds_filter t o tr) as Hadd.
  destruct (detects_update t o tr) as (_ & _ & _ & gets & Hcalls & Hgets).
  unfold outcome_of, object_of, calls_of, is_available in *.
  destruct (detect t o tr) as [[[e|u] o'] tr']; cbn in *; [discriminate|].
  intros _. split; [|by subst].
  apply bool_decide_eq_true. by apply Hadd; destruct u.
Qed.

Lemma unsupported_conditions (o : HuaweiApi) (name : string) :
  (forall feature, switch_feature name = Some feature ->
                   is_available o feature = false) ->
  String.eqb name SWITCH_NFC && is_available o FEATURE_NFC = false /\
  String.eqb name SWITCH_WIFI_80211R && is_available o FEATURE_WIFI_80211R = false /\
  String.eqb name SWITCH_WIFI_TWT && is_available o FEATURE_WIFI_TWT = false /\
  String.eqb name SWITCH_WLAN_FILTER && is_available o FEATURE_WLAN_FILTER = false.
Proof.
  unfold switch_feature. intros H.
  destruct (String.eqb_spec name SWITCH_NFC) as [Heq|_].
  { subst name. rewrite (H _ eq_refl). repeat split; reflexivity. }
  destruct (String.eqb_spec name SWITCH_WIFI_80211R) as [Heq|_].
  { subst name. rewrite (H _ eq_refl). repeat split; reflexivity. }
  destruct (String.eqb_spec name SWITCH_WIFI_TWT) as [Heq|_].
  { subst name. rewrite (H _ eq_refl). repeat split; reflexivity. }
  destruct (String.eqb_spec name SWITCH_WLAN_FILTER) as [Heq|_].
  { subst name. rewrite (H _ eq_refl). repeat split; reflexivity. }
  auto.
Qed.

(** X13.  A switch that is not supported, because its name is none of
    the four or because detection did not find its feature, makes
    [get_switch_state] and [set_switch_state] raise
    UnsupportedActionError with the name in the message; that happens
    after the detection, with the calls of the detection and no other.
    [execute_action] raises it for every name but "reboot_action", on
    every object and every router, with no call at all and without
    running the detection. *)
Theorem unsupported_names_raise
    (t : Transport) (o : HuaweiApi) (tr : list call)
    (name : string) (state : bool) :
  (outcome_of (ensure t o tr) = inr tt ->
   (forall feature, switch_feature name = Some feature ->
                    is_available (object_of (ensure t o tr)) feature = false) ->
   get_switch t name o tr
   = (inl (Raised (UnsupportedActionError
                     (String.append "Unsupported switch name: " name))),
      object_of (ensure t o tr), calls_of (ensure t o tr)) /\
   set_switch t name state o tr
   = (inl (Raised (UnsupportedActionError
                     (String.append "Unsupported switch name: " name))),
      object_of (ensure t o tr), calls_of (ensure t o tr))) /\
  (name <> ACTION_REBOOT ->
   execute_action t name o tr
   = (inl (Raised (UnsupportedActionError
                     (String.append "Unsupported action name: " name))), o, tr)).
Proof.
  split.
  - intros Hret Hno.
    unfold get_switch_state, set_switch_state, pbind.
    unfold outcome_of, object_of, calls_of in *.
    destruct (ensure t o tr) as [[[e|u] o'] tr']; cbn in *; [discriminate|].
    destruct (unsupported_conditions o' name Hno) as (-> & -> & -> & ->).
    split; reflexivity.
  - intros Hne. unfold execute_action.
    by destruct (String.eqb_spec name ACTION_REBOOT).
Qed.

(** X14.  [set_switch_state] drops what [_set_wlan_filter_enabled]
    answers: for the filter switch it returns normally whenever that
    call returns, true or false.  So when the router reports no 2.4GHz
    band or no 5GHz band, the switch is reported as set although the one
    call made was the GET of the band states and nothing was posted. *)
Theorem filter_switch_failure_is_silent
    (t : Transport) (o : HuaweiApi) (tr : list call) (state : bool) :
  outcome_of (ensure t o tr) = inr tt ->
  is_available (object_of (ensure t o tr)) FEATURE_WLAN_FILTER = true ->
  (forall answer : bool,
      fst (run (_set_wlan_filter_enabled
                  (filter_at t (calls_of (ensure t o tr))) state)) = inr answer ->
      set_switch t SWITCH_WLAN_FILTER state o tr
      = (inr tt, object_of (ensure t o tr),
         calls_of (ensure t o tr)
         ++ map call_of_event
              (snd (run (_set_wlan_filter_enabled
                           (filter_at t (calls_of (ensure t o tr))) state))))) /\
  (forall actual_states,
      wlanfilter_reply (filter_at t (calls_of (ensure t o tr))) = inr actual_states ->
      fst (split_states actual_states) = None \/
      snd (split_states actual_states) = None ->
      set_switch t SWITCH_WLAN_FILTER state o tr
      = (inr tt, object_of (ensure t o tr),
         calls_of (ensure t o tr) ++ [CallGet _URL_WLAN_FILTER])).
Proof.
  intros Hret Havail.
  assert (Hgen : forall answer : bool,
      fst (run (_set_wlan_filter_enabled
                  (filter_at t (calls_of (ensure t o tr))) state)) = inr answer ->
      set_switch t SWITCH_WLAN_FILTER state o tr
      = (inr tt, object_of (ensure t o tr),
         calls_of (ensure t o tr)
         ++ map call_of_event
              (snd (run (_set_wlan_filter_enabled
                           (filter_at t (calls_of (ensure t o tr))) state))))).
  { intros answer Hanswer. unfold set_switch_state, pbind.
    unfold outcome_of, object_of, calls_of in *.
    destruct (ensure t o tr) as [[[e|u] o'] tr']; cbn in *; [discriminate|].
    rewrite Havail. cbn. unfold run_filter. cbn. by rewrite Hanswer. }
  split; [exact Hgen|].
  intros actual_states Hreply Hmissing.
  destruct (missing_band_is_false (fun _ => VNone) _ actual_states
              (Member WHITELIST) (Member ADD) "" None WHITELIST state
              Hreply Hmissing) as (_ & Hrun & _).
  rewrite (Hgen false); by rewrite Hrun.
Qed.

Lemma wrapped_get_run (t : Transport) (url name : string)
    (decode : value -> pyexn + value) (o : HuaweiApi) (tr : list call) :
  log_feature name (guarded (
    data <<- core_get t url ;;
    setting <<- plift (decode data) ;;
    pret (is_not_none setting))) o tr
  = (guard_answer APICALL_ERRCAT_UNAUTHORIZED
       match switch_reply t tr url with
       | inl e => inl (Raised e)
       | inr data =>
           match decode data with
           | inl e => inl e
           | inr setting => inr (is_not_none setting)
           end
       end, o, tr ++ [CallGet url]).
Proof.
  unfold log_feature, unauthorized_as_false, pbind, core_get, plift, pret,
    guard_answer.
  destruct (switch_reply t tr url) as [[m|m|c]|data]; cbn;
    try (destruct (String.eqb c APICALL_ERRCAT_UNAUTHORIZED); by cbn);
    try done.
  destruct (decode data) as [[[m|m|c]| | | |]|setting]; cbn;
    try (destruct (String.eqb c APICALL_ERRCAT_UNAUTHORIZED); by cbn);
    done.
Qed.

(** X15.  What the probe of the 802.11r feature makes of the reply of
    the WLAN guide endpoint, after its one GET and without touching the
    object.  An unauthorized failure reads as not available, any other
    ApiCallError is raised on.  A dictionary without "WifiConfig" reads
    as not available; an empty "WifiConfig" list raises IndexError, a
    null one TypeError, and a reply that is no dictionary AttributeError;
    otherwise the feature is available exactly when the first element
    binds "Dot11REnable" to something that is not None. *)
Theorem probe_80211r_edge_cases :
  forall (t : Transport) (o : HuaweiApi) (tr : list call),
    (switch_reply t tr _URL_SWITCH_WIFI_80211R
     = inl (ApiCallError APICALL_ERRCAT_UNAUTHORIZED) ->
     r_probe t o tr = (inr false, o, tr ++ [CallGet _URL_SWITCH_WIFI_80211R])) /\
    (forall category,
        category <> APICALL_ERRCAT_UNAUTHORIZED ->
        switch_reply t tr _URL_SWITCH_WIFI_80211R = inl (ApiCallError category) ->
        r_probe t o tr
        = (inl (Raised (ApiCallError category)), o,
           tr ++ [CallGet _URL_SWITCH_WIFI_80211R])) /\
    (forall d : dict,
        switch_reply t tr _URL_SWITCH_WIFI_80211R = inr (VDict d) ->
        r_probe t o tr
        = (match dict_lookup d "WifiConfig" with
           | None => inr false
           | Some (VList []) => inl IndexError
           | Some (VList (VDict config :: _)) =>
               inr (is_not_none (dict_get config "Dot11REnable"))
           | Some (VList (_ :: _)) => inl AttributeError
           | Some (VStr "") => inl IndexError
           | Some (VStr _) => inl AttributeError
           | Some (VDict _) => inl KeyError
           | Some _ => inl TypeError
           end, o, tr ++ [CallGet _URL_SWITCH_WIFI_80211R])) /\
    (forall data : value,
        switch_reply t tr _URL_SWITCH_WIFI_80211R = inr data ->
        (forall d, data <> VDict d) ->
        r_probe t o tr
        = (inl AttributeError, o, tr ++ [CallGet _URL_SWITCH_WIFI_80211R])).
Proof.
  intros t o tr. unfold _is_wifi_80211r_available. rewrite wrapped_get_run.
  split; [|split; [|split]].
  - intros ->. cbn. by rewrite String.eqb_refl.
  - intros category Hne ->. cbn.
    by destruct (String.eqb_spec category APICALL_ERRCAT_UNAUTHORIZED).
  - intros d ->. unfold wifi_config_setting, py_get_default.
    destruct (dict_lookup d "WifiConfig") as [[|b|n|[|c s]|[|[|b|n|s|l|config] l']|d']|];
      reflexivity.
  - intros data -> Hnot. destruct data; try reflexivity.
    exfalso. by eapply Hnot.
Qed.

Lemma probe_into_run (probe : P bool) (feature : string) (o : HuaweiApi)
    (tr tr' : list call) (answer : pyexn + bool) :
  probe o tr = (answer, o, tr') ->
  probe_into probe feature o tr
  = match answer with
    | inl e => (inl e, o, tr')
    | inr true => (inr tt, with_feature feature o, tr')
    | inr false => (inr tt, o, tr')
    end.
Proof.
  intros H. unfold probe_into, pbind. rewrite H.
  by destruct answer as [e|[|]].
Qed.

(** X16.  Detection is all or nothing, so one endpoint that answers out
    of shape blocks every switch.  On an object not yet marked, when the
    NFC probe returns and the WLAN guide endpoint then answers a
    dictionary whose "WifiConfig" is the empty list, [get_switch_state]
    and [set_switch_state] raise IndexError for every switch name, the
    NFC and the filter switch included, after the two GETs; the object
    stays unmarked, so the next call probes again. *)
Theorem empty_wifi_config_blocks_all_switches
    (t : Transport) (o : HuaweiApi) (tr : list call)
    (found : bool) (d : dict) (name : string) (state : bool) :
  _is_features_updated o = false ->
  outcome_of (nfc_probe t o tr) = inr found ->
  switch_reply t (tr ++ [CallGet _URL_SWITCH_NFC]) _URL_SWITCH_WIFI_80211R
  = inr (VDict d) ->
  dict_lookup d "WifiConfig" = Some (VList []) ->
  (outcome_of (get_switch t name o tr) = inl IndexError /\
   _is_features_updated (object_of (get_switch t name o tr)) = false /\
   calls_of (get_switch t name o tr)
   = tr ++ [CallGet _URL_SWITCH_NFC; CallGet _URL_SWITCH_WIFI_80211R]) /\
  (outcome_of (set_switch t name state o tr) = inl IndexError /\
   _is_features_updated (object_of (set_switch t name state o tr)) = false /\
   calls_of (set_switch t name state o tr)
   = tr ++ [CallGet _URL_SWITCH_NFC; CallGet _URL_SWITCH_WIFI_80211R]).
Proof.
  intros Hflag Hnfc Hreply Hconfig.
  assert (Hensure :
    exists o', ensure t o tr
               = (inl IndexError, o',
                  tr ++ [CallGet _URL_SWITCH_NFC; CallGet _URL_SWITCH_WIFI_80211R])
               /\ _is_features_updated o' = false).
  { rewrite ensure_run, Hflag. unfold update, pbind.
    destruct (probes_nfc t o tr) as [Ho Hc].
    unfold outcome_of, object_of, calls_of in *.
    destruct (nfc_probe t o tr) as [[answer o1] tr1] eqn:Hprobe; cbn in *.
    subst answer o1 tr1.
    rewrite (probe_into_run _ FEATURE_NFC _ _ _ _ Hprobe).
    assert (Hdict : forall o2,
      r_probe t o2 (tr ++ [CallGet _URL_SWITCH_NFC])
      = (inl IndexError, o2,
         (tr ++ [CallGet _URL_SWITCH_NFC]) ++ [CallGet _URL_SWITCH_WIFI_80211R])).
    { intros o2. unfold _is_wifi_80211r_available.
      rewrite wrapped_get_run, Hreply.
      unfold wifi_config_setting, py_get_default. by rewrite Hconfig. }
    specialize (Hdict (if found then with_feature FEATURE_NFC o else o)).
    destruct found;
      rewrite (probe_into_run _ FEATURE_WIFI_80211R _ _ _ _ Hdict),
        <- app_assoc; eexists; split; try reflexivity; exact Hflag. }
  destruct Hensure as (o' & Hensure & Hflag').
  unfold get_switch_state, set_switch_state, pbind, outcome_of, object_of, calls_of.
  rewrite Hensure. cbn. auto.
Qed.

(** X17.  A router that answers every probe as unauthorized still lets
    detection complete: on an object not yet marked the three GETs are
    made, no error comes out, the object is marked and gains the filter
    feature alone.  On a fresh object the NFC, 802.11r and TWT switches
    are then unsupported. *)
Theorem unauthorized_router_keeps_filter_only
    (t : Transport) (o : HuaweiApi) (tr : list call) :
  (forall history url,
      switch_reply t history url = inl (ApiCallError APICALL_ERRCAT_UNAUTHORIZED)) ->
  _is_features_updated o = false ->
  ensure t o tr
  = (inr tt,
     {| _is_features_updated := true;
        _available_features := {[FEATURE_WLAN_FILTER]} ∪ _available_features o |},
     tr ++ [CallGet _URL_SWITCH_NFC; CallGet _URL_SWITCH_WIFI_80211R;
            CallGet _URL_SWITCH_WIFI_TWT]) /\
  (_available_features o = ∅ ->
   forall name state,
     name = SWITCH_NFC \/ name = SWITCH_WIFI_80211R \/ name = SWITCH_WIFI_TWT ->
     outcome_of (get_switch t name o tr)
     = inl (Raised (UnsupportedActionError
                      (String.append "Unsupported switch name: " name))) /\
     outcome_of (set_switch t name state o tr)
     = inl (Raised (UnsupportedActionError
                      (String.append "Unsupported switch name: " name)))).
Proof.
  intros Hrefuse Hflag.
  assert (Hensure :
    ensure t o tr
    = (inr tt,
       {| _is_features_updated := true;
          _available_features := {[FEATURE_WLAN_FILTER]} ∪ _available_features o |},
       tr ++ [CallGet _URL_SWITCH_NFC; CallGet _URL_SWITCH_WIFI_80211R;
              CallGet _URL_SWITCH_WIFI_TWT])).
  { rewrite ensure_run, Hflag. unfold update, pbind.
    assert (Hprobe : forall url name decode o1 tr1,
      log_feature name (guarded (
        data <<- core_get t url ;;
        setting <<- plift (decode data) ;;
        pret (is_not_none setting))) o1 tr1
      = (inr false, o1, tr1 ++ [CallGet url])).
    { intros. rewrite wrapped_get_run, Hrefuse. cbn. by rewrite String.eqb_refl. }
    unfold _is_nfc_available, _is_wifi_80211r_available, _is_wifi_twt_available.
    rewrite (probe_into_run _ FEATURE_NFC _ _ _ _ (Hprobe _ _ _ _ _)).
    rewrite (probe_into_run _ FEATURE_WIFI_80211R _ _ _ _ (Hprobe _ _ _ _ _)).
    rewrite (probe_into_run _ FEATURE_WIFI_TWT _ _ _ _ (Hprobe _ _ _ _ _)).
    cbn. by rewrite <- !app_assoc. }
  split; [exact Hensure|].
  intros Hempty name state Hname.
  unfold get_switch_state, set_switch_state, pbind, outcome_of.
  rewrite Hensure. cbn. rewrite Hempty.
  assert (Hnone : forall feature,
            feature <> FEATURE_WLAN_FILTER ->
            is_available
              {| _is_features_updated := true;
                 _available_features := {[FEATURE_WLAN_FILTER]} ∪ ∅ |} feature
            = false).
  { intros feature Hne. apply bool_decide_eq_false. cbn. set_solver. }
  rewrite !Hnone by discriminate.
  destruct Hname as [->|[->| ->]]; split; reflexivity.
Qed.

(** X18.  What [set_switch_state] posts reads back as the state that was
    set.  For the NFC, the 802.11r and the TWT switch, with the feature
    available on a marked object, the call makes one POST that binds the
    switch key to a value; when a later GET of the switch endpoint
    answers that value, under "nfcSwitch" or under the key in the first
    element of "WifiConfig", [get_switch_state] returns the state. *)
Theorem switch_round_trip
    (t t' : Transport) (o : HuaweiApi) (tr tr' : list call) (state : bool) :
  _is_features_updated o = true ->
  (is_available o FEATURE_NFC = true ->
   exists posted,
     calls_of (set_switch t SWITCH_NFC state o tr)
     = tr ++ [CallPost _URL_SWITCH_NFC [("nfcSwitch", posted)] None] /\
     forall d,
       switch_reply t' tr' _URL_SWITCH_NFC = inr (VDict d) ->
       dict_get d "nfcSwitch" = posted ->
       get_switch t' SWITCH_NFC o tr'
       = (inr (VBool state), o, tr' ++ [CallGet _URL_SWITCH_NFC])) /\
  (is_available o FEATURE_WIFI_80211R = true ->
   exists posted,
     calls_of (set_switch t SWITCH_WIFI_80211R state o tr)
     = tr ++ [CallPost _URL_SWITCH_WIFI_80211R [("Dot11REnable", posted)]
                (Some [("action", VStr "11rSetting")])] /\
     forall d config rest,
       switch_reply t' tr' _URL_SWITCH_WIFI_80211R = inr (VDict d) ->
       dict_lookup d "WifiConfig" = Some (VList (VDict config :: rest)) ->
       dict_get config "Dot11REnable" = posted ->
       get_switch t' SWITCH_WIFI_80211R o tr'
       = (inr (VBool state), o, tr' ++ [CallGet _URL_SWITCH_WIFI_80211R])) /\
  (is_available o FEATURE_WIFI_TWT = true ->
   exists posted,
     calls_of (set_switch t SWITCH_WIFI_TWT state o tr)
     = tr ++ [CallPost _URL_SWITCH_WIFI_TWT [("TWTEnable", posted)]
                (Some [("action", VStr "TWTSetting")])] /\
     forall d config rest,
       switch_reply t' tr' _URL_SWITCH_WIFI_TWT = inr (VDict d) ->
       dict_lookup d "WifiConfig" = Some (VList (VDict config :: rest)) ->
       dict_get config "TWTEnable" = posted ->
       get_switch t' SWITCH_WIFI_TWT o tr'
       = (inr (VBool state), o, tr' ++ [CallGet _URL_SWITCH_WIFI_TWT])).
Proof.
  intros Hflag.
  unfold get_switch_state, set_switch_state, pbind, calls_of.
  rewrite !ensure_run, Hflag. cbn [fst snd].
  split; [|split]; intros Havail.
  - change (String.eqb SWITCH_NFC SWITCH_NFC) with true. rewrite Havail.
    cbn. eexists. split; [reflexivity|]. intros d Hreply Hd.
    unfold core_get, plift, pret. rewrite Hreply. cbn. rewrite Hd.
    by destruct state.
  - change (String.eqb SWITCH_WIFI_80211R SWITCH_NFC) with false.
    change (String.eqb SWITCH_WIFI_80211R SWITCH_WIFI_80211R) with true.
    rewrite Havail. cbn. eexists. split; [reflexivity|].
    intros d config rest Hreply Hd Hc.
    unfold core_get, plift, pret. rewrite Hreply. cbn.
    unfold wifi_config_setting, py_get_default. rewrite Hd. cbn. rewrite Hc.
    by destruct state.
  - change (String.eqb SWITCH_WIFI_TWT SWITCH_NFC) with false.
    change (String.eqb SWITCH_WIFI_TWT SWITCH_WIFI_80211R) with false.
    change (String.eqb SWITCH_WIFI_TWT SWITCH_WIFI_TWT) with true.
    rewrite Havail. cbn. eexists. split; [reflexivity|].
    intros d config rest Hreply Hd Hc.
    unfold core_get, plift, pret. rewrite Hreply. cbn.
    unfold wifi_config_setting, py_get_default. rewrite Hd. cbn. rewrite Hc.
    by destruct state.
Qed.

(** X19.  The answer of [is_feature_available] is remembered.  Once the
    method has returned for a feature, asking again on the object it
    left gives the same answer without any call, whatever the router
    would answer by then.  A feature that is none of the four the
    detector knows is never available on an object that began with no
    feature. *)
Theorem feature_answer_is_remembered
    (t : Transport) (o : HuaweiApi) (tr : list call)
    (feature : string) (answer : bool) :
  outcome_of (is_feature_available APICALL_ERRCAT_UNAUTHORIZED t feature o tr)
  = inr answer ->
  (forall t2 tr2,
      is_feature_available APICALL_ERRCAT_UNAUTHORIZED t2 feature
        (object_of (is_feature_available APICALL_ERRCAT_UNAUTHORIZED t feature o tr))
        tr2
      = (inr answer,
         object_of (is_feature_available APICALL_ERRCAT_UNAUTHORIZED t feature o tr),
         tr2)) /\
  (_available_features o = ∅ -> feature ∉ known_features -> answer = false).
Proof.
  unfold is_feature_available, pbind. rewrite ensure_run.
  destruct (_is_features_updated o) eqn:Hflag.
  { unfold outcome_of, object_of. cbn. intros [= <-]. split.
    - intros t2 tr2. by rewrite ensure_run, Hflag.
    - intros Hempty Hunknown. apply bool_decide_eq_false. set_solver. }
  destruct (detects_update t o tr) as (_ & _ & Hsup & _).
  unfold outcome_of, object_of in *.
  destruct (detect t o tr) as [[[e|u] o'] tr']; cbn in *; [discriminate|].
  intros [= <-]. split.
  - intros t2 tr2. reflexivity.
  - intros Hempty Hunknown. apply bool_decide_eq_false. cbn. set_solver.
Qed.

(** X20.  Reading the filter switch.  With the filter feature on a
    marked object, [get_switch_state] makes one call, the GET of the band
    states.  A failure of that GET is raised on.  Otherwise both band
    slots are parsed, 2.4GHz first, each slot being the last record of
    the reply that bears the label: a parse failure of the 2.4GHz slot
    is raised although its result is not used, then a parse failure of
    the 5GHz slot, and else the answer is the enabled flag of the parsed
    5GHz slot. *)
Theorem filter_switch_reads_last_5g_record
    (t : Transport) (o : HuaweiApi) (tr : list call) :
  _is_features_updated o = true ->
  is_available o FEATURE_WLAN_FILTER = true ->
  object_of (get_switch t SWITCH_WLAN_FILTER o tr) = o /\
  calls_of (get_switch t SWITCH_WLAN_FILTER o tr)
  = tr ++ [CallGet _URL_WLAN_FILTER] /\
  (forall e,
      wlanfilter_reply (filter_at t tr) = inl e ->
      outcome_of (get_switch t SWITCH_WLAN_FILTER o tr) = inl (Raised e)) /\
  (forall actual_states,
      wlanfilter_reply (filter_at t tr) = inr actual_states ->
      outcome_of (get_switch t SWITCH_WLAN_FILTER o tr)
      = match HuaweiFilterInfo_parse
                (last_with (is_band "2.4GHz") actual_states) with
        | inl e => inl e
        | inr _ =>
            match HuaweiFilterInfo_parse
                    (last_with (is_band "5GHz") actual_states) with
            | inl e => inl e
            | inr info_5g => inr (HuaweiFilterInfo_enabled info_5g)
            end
        end).
Proof.
  intros Hflag Havail.
  unfold get_switch_state, pbind. rewrite ensure_run, Hflag.
  change (String.eqb SWITCH_WLAN_FILTER SWITCH_NFC) with false.
  change (String.eqb SWITCH_WLAN_FILTER SWITCH_WIFI_80211R) with false.
  change (String.eqb SWITCH_WLAN_FILTER SWITCH_WIFI_TWT) with false.
  change (String.eqb SWITCH_WLAN_FILTER SWITCH_WLAN_FILTER) with true.
  rewrite Havail. cbn [andb].
  unfold get_wlan_filter_info, pbind, run_filter, run, _get_filter_states,
    bind, core_get_wlan_filter, ret, plift, pret, object_of, calls_of, outcome_of.
  destruct (wlanfilter_reply (filter_at t tr)) as [e|actual_states] eqn:Hreply;
    cbn.
  { repeat split; [by intros e' [= <-] | by intros ? [=]]. }
  rewrite split_states_last_with. cbn [fst snd].
  destruct (HuaweiFilterInfo_parse (last_with (is_band "2.4GHz") actual_states))
    as [e2|info_2g] eqn:H2; cbn.
  { repeat split; [by intros ? [=] | intros ? [= <-]; by rewrite H2]. }
  destruct (HuaweiFilterInfo_parse (last_with (is_band "5GHz") actual_states))
    as [e5|info_5g] eqn:H5; cbn.
  { repeat split; [by intros ? [=] | intros ? [= <-]; by rewrite H2, H5]. }
  repeat split; [by intros ? [=] | intros ? [= <-]; by rewrite H2, H5].
Qed.

End SwitchFacts.

(** ** The switches on example routers *)

Lemma filter_feature_always_found_witness :
  is_available
    (object_of (_ensure_features_updated unauthorized_category
                  refusing_router fresh_object []))
    FEATURE_WLAN_FILTER = true /\
  calls_of (_ensure_features_updated unauthorized_category
              refusing_router fresh_object [])
  = [] ++ [CallGet _URL_SWITCH_NFC; CallGet _URL_SWITCH_WIFI_80211R;
           CallGet _URL_SWITCH_WIFI_TWT].
Proof.
  exact (filter_feature_always_found unauthorized_category
           refusing_router fresh_object [] eq_refl eq_refl).
Defined.

Lemma unsupported_names_raise_witness :
  (get_switch_state unauthorized_category State.t parse_band
     State.MACAddressControlEnabled refusing_router SWITCH_NFC fresh_object []
   = (inl (Raised (UnsupportedActionError
                     (String.append "Unsupported switch name: " SWITCH_NFC))),
      object_of (_ensure_features_updated unauthorized_category
                   refusing_router fresh_object []),
      calls_of (_ensure_features_updated unauthorized_category
                  refusing_router fresh_object [])) /\
   set_switch_state unauthorized_category refusing_router SWITCH_NFC true
     fresh_object []
   = (inl (Raised (UnsupportedActionError
                     (String.append "Unsupported switch name: " SWITCH_NFC))),
      object_of (_ensure_features_updated unauthorized_category
                   refusing_router fresh_object []),
      calls_of (_ensure_features_updated unauthorized_category
                  refusing_router fresh_object []))) /\
  execute_action router_with_switches_on SWITCH_NFC supporting_object []
  = (inl (Raised (UnsupportedActionError
                    (String.append "Unsupported action name: " SWITCH_NFC))),
     supporting_object, []).
Proof.
  split.
  - apply (unsupported_names_raise unauthorized_category State.t parse_band
             State.MACAddressControlEnabled refusing_router fresh_object []
             SWITCH_NFC true).
    + reflexivity.
    + intros feature [= <-]. reflexivity.
  - apply (unsupported_names_raise unauthorized_category State.t parse_band
             State.MACAddressControlEnabled router_with_switches_on
             supporting_object [] SWITCH_NFC true).
    discriminate.
Defined.

Lemma filter_switch_failure_is_silent_witness :
  set_switch_state unauthorized_category refusing_router SWITCH_WLAN_FILTER true
    fresh_object []
  = (inr tt,
     object_of (_ensure_features_updated unauthorized_category
                  refusing_router fresh_object []),
     calls_of (_ensure_features_updated unauthorized_category
                 refusing_router fresh_object [])
     ++ [CallGet _URL_WLAN_FILTER]).
Proof.
  exact (proj2 (filter_switch_failure_is_silent unauthorized_category
                  refusing_router fresh_object [] true eq_refl eq_refl)
           [] eq_refl (or_introl eq_refl)).
Defined.

Lemma empty_wifi_config_blocks_all_switches_witness :
  (outcome_of (get_switch_state unauthorized_category State.t parse_band
                 State.MACAddressControlEnabled router_with_empty_wifi_config
                 SWITCH_NFC fresh_object [])
   = inl IndexError /\
   _is_features_updated
     (object_of (get_switch_state unauthorized_category State.t parse_band
                   State.MACAddressControlEnabled router_with_empty_wifi_config
                   SWITCH_NFC fresh_object []))
   = false /\
   calls_of (get_switch_state unauthorized_category State.t parse_band
               State.MACAddressControlEnabled router_with_empty_wifi_config
               SWITCH_NFC fresh_object [])
   = [] ++ [CallGet _URL_SWITCH_NFC; CallGet _URL_SWITCH_WIFI_80211R]) /\
  (outcome_of (set_switch_state unauthorized_category
                 router_with_empty_wifi_config SWITCH_NFC true fresh_object [])
   = inl IndexError /\
   _is_features_updated
     (object_of (set_switch_state unauthorized_category
                   router_with_empty_wifi_config SWITCH_NFC true fresh_object []))
   = false /\
   calls_of (set_switch_state unauthorized_category
               router_with_empty_wifi_config SWITCH_NFC true fresh_object [])
   = [] ++ [CallGet _URL_SWITCH_NFC; CallGet _URL_SWITCH_WIFI_80211R]).
Proof.
  exact (empty_wifi_config_blocks_all_switches unauthorized_category State.t
           parse_band State.MACAddressControlEnabled
           router_with_empty_wifi_config fresh_object [] true
           [("WifiConfig", VList [])] SWITCH_NFC true
           eq_refl eq_refl eq_refl eq_refl).
Defined.

Lemma unauthorized_router_keeps_filter_only_witness :
  _ensure_features_updated unauthorized_category refusing_router fresh_object []
  = (inr tt,
     {| _is_features_updated := true;
        _available_features :=
          {[FEATURE_WLAN_FILTER]} ∪ _available_features fresh_object |},
     [] ++ [CallGet _URL_SWITCH_NFC; CallGet _URL_SWITCH_WIFI_80211R;
            CallGet _URL_SWITCH_WIFI_TWT]) /\
  (_available_features fresh_object = ∅ ->
   forall name state,
     name = SWITCH_NFC \/ name = SWITCH_WIFI_80211R \/ name = SWITCH_WIFI_TWT ->
     outcome_of (get_switch_state unauthorized_category State.t parse_band
                   State.MACAddressControlEnabled refusing_router name
                   fresh_object [])
     = inl (Raised (UnsupportedActionError
                      (String.append "Unsupported switch name: " name))) /\
     outcome_of (set_switch_state unauthorized_category refusing_router name
                   state fresh_object [])
     = inl (Raised (UnsupportedActionError
                      (String.append "Unsupported switch name: " name)))).
Proof.
  exact (unauthorized_router_keeps_filter_only unauthorized_category State.t
           parse_band State.MACAddressControlEnabled
           refusing_router fresh_object []
           (fun _ _ => eq_refl) eq_refl).
Defined.

Lemma switch_round_trip_witness :
  get_switch_state unauthorized_category State.t parse_band
    State.MACAddressControlEnabled router_with_switches_on
    SWITCH_NFC supporting_object []
  = (inr (VBool true), supporting_object, [] ++ [CallGet _URL_SWITCH_NFC]) /\
  get_switch_state unauthorized_category State.t parse_band
    State.MACAddressControlEnabled router_with_switches_on
    SWITCH_WIFI_80211R supporting_object []
  = (inr (VBool true), supporting_object,
     [] ++ [CallGet _URL_SWITCH_WIFI_80211R]) /\
  get_switch_state unauthorized_category State.t parse_band
    State.MACAddressControlEnabled router_with_switches_on
    SWITCH_WIFI_TWT supporting_object []
  = (inr (VBool true), supporting_object, [] ++ [CallGet _URL_SWITCH_WIFI_TWT]).
Proof.
  destruct (switch_round_trip unauthorized_category State.t parse_band
              State.MACAddressControlEnabled refusing_router
              router_with_switches_on supporting_object [] [] true eq_refl)
    as (Hnfc & Hr & Htwt).
  destruct (Hnfc eq_refl) as (posted_nfc & Hpost_nfc & Hget_nfc).
  destruct (Hr eq_refl) as (posted_r & Hpost_r & Hget_r).
  destruct (Htwt eq_refl) as (posted_twt & Hpost_twt & Hget_twt).
  injection Hpost_nfc as <-. injection Hpost_r as <-. injection Hpost_twt as <-.
  split; [exact (Hget_nfc _ eq_refl eq_refl)|].
  split; [exact (Hget_r _ _ _ eq_refl eq_refl eq_refl)|].
  exact (Hget_twt _ _ _ eq_refl eq_refl eq_refl).
Defined.

Lemma feature_answer_is_remembered_witness :
  is_feature_available unauthorized_category refusing_router FEATURE_NFC
    (object_of (is_feature_available unauthorized_category
                  router_with_switches_on FEATURE_NFC fresh_object []))
    [CallGet _URL_SWITCH_NFC]
  = (inr true,
     object_of (is_feature_available unauthorized_category
                  router_with_switches_on FEATURE_NFC fresh_object []),
     [CallGet _URL_SWITCH_NFC]).
Proof.
  exact (proj1 (feature_answer_is_remembered unauthorized_category
                  router_with_switches_on fresh_object [] FEATURE_NFC true
                  eq_refl)
           refusing_router [CallGet _URL_SWITCH_NFC]).
Defined.

Lemma filter_switch_reads_last_5g_record_witness :
  outcome_of (get_switch_state unauthorized_category State.t parse_band
                State.MACAddressControlEnabled router_with_mixed_bands
                SWITCH_WLAN_FILTER filtering_object [])
  = inr (VBool false).
Proof.
  exact (proj2 (proj2 (proj2
           (filter_switch_reads_last_5g_record unauthorized_category State.t
              parse_band State.MACAddressControlEnabled
              router_with_mixed_bands filtering_object [] eq_refl eq_refl)))
           states_mixed eq_refl).
Defined.
